(** * Shruti-1 firmware: MIDI stream parser and serial LCD driver

    Shallow embedding of
    - [hardware/midi/midi.h]: [MidiStreamParser<Device>], and
    - [hardware/io/devices/sparkfun_ser_lcd.h]: [Display<...>],
    together with the properties of the two drivers.

    Conventions.  A [uint8_t] is a [Z] in [0, 256); every place where the
    C++ code converts an [int] back to [uint8_t] or [uint16_t] is written
    out with [uint8] or [uint16].  A fixed-size C array is a [list Z]; a
    read or a write outside of the array is undefined behaviour in C++ and
    makes the embedded function return [None].  Calls to the static
    [Device] (the MIDI sink) and to the serial transport of the display are
    recorded, in order, in an output trace. *)

From stdpp Require Import base numbers option list list_numbers.

Local Open Scope Z_scope.

(** ** Machine integers *)

Definition uint8 (x : Z) : Z := Z.land x 0xff.

Definition uint16 (x : Z) : Z := Z.land x 0xffff.

Definition is_uint8 (x : Z) : Prop := 0 ≤ x < 256.

(** C truth value of an integer. *)
Definition nonzero (x : Z) : bool := negb (x =? 0).

(** ** Execution monad: state, output trace, undefined behaviour *)

Section Exec.
Context {St Out : Type}.

Definition Exec (A : Type) : Type := St → option (A * St * list Out).

Definition exec_ret {A} (a : A) : Exec A := λ s, Some (a, s, []).

Definition exec_bind {A B} (f : A → Exec B) (m : Exec A) : Exec B := λ s,
  match m s with
  | Some (a, s1, o1) =>
      match f a s1 with
      | Some (b, s2, o2) => Some (b, s2, o1 ++ o2)
      | None => None
      end
  | None => None
  end.

(** Read a member variable. *)
Definition gets {A} (f : St → A) : Exec A := λ s, Some (f s, s, []).
(** Assign a member variable. *)
Definition modify (f : St → St) : Exec unit := λ s, Some (tt, f s, []).
(** One call to the output collaborator. *)
Definition emit (o : Out) : Exec unit := λ s, Some (tt, s, [o]).
(** [arr[i]] read from a member array. *)
Definition load (arr : St → list Z) (i : Z) : Exec Z := λ s,
  match (if 0 <=? i then arr s !! Z.to_nat i else None) with
  | Some v => Some (v, s, [])
  | None => None
  end.
(** [arr[i] = v] on a member array. *)
Definition store (arr : St → list Z) (set_arr : list Z → St → St)
    (i v : Z) : Exec unit := λ s,
  if (0 <=? i) && (i <? Z.of_nat (length (arr s)))
  then Some (tt, set_arr (<[Z.to_nat i := v]> (arr s)) s, [])
  else None.
(** [if (c) { m }] without an else branch. *)
Definition when (c : bool) (m : Exec unit) : Exec unit :=
  if c then m else exec_ret tt.
End Exec.

Arguments Exec : clear implicits.

#[export] Instance Exec_ret {St Out} : MRet (Exec St Out) := @exec_ret St Out.
#[export] Instance Exec_bind {St Out} : MBind (Exec St Out) :=
  @exec_bind St Out.

(** The state and the trace after running [m] from [s]. *)
Definition exec {St Out A} (m : Exec St Out A) (s : St)
    : option (St * list Out) :=
  match m s with
  | Some (_, s', out) => Some (s', out)
  | None => None
  end.

(** * hardware/midi/midi.h *)

Module Midi.

(** The static member functions of [MidiDevice]; one constructor per
    function, the two overloads of [Aftertouch] told apart by arity. *)
Inductive Event : Type :=
  | NoteOn (channel note velocity : Z)
  | NoteOff (channel note velocity : Z)
  | Aftertouch3 (channel note velocity : Z)
  | Aftertouch2 (channel velocity : Z)
  | ControlChange (channel controller value : Z)
  | ProgramChange (channel program : Z)
  | PitchBend (channel pitch_bend : Z)
  | AllSoundOff (channel : Z)
  | ResetAllControllers (channel : Z)
  | LocalControl (channel state : Z)
  | AllNotesOff (channel : Z)
  | OmniModeOff (channel : Z)
  | OmniModeOn (channel : Z)
  | MonoModeOn (channel num_channels : Z)
  | PolyModeOn (channel : Z)
  | SysExStart
  | SysExByte (sysex_byte : Z)
  | SysExEnd
  | BozoByte (bozo_byte : Z)
  | Clock
  | Start
  | Continue
  | Stop
  | ActiveSensing
  | Reset.

(** Private members of [MidiStreamParser]. *)
Record MidiStreamParser : Type := mkParser {
  running_status_ : Z;
  data_ : list Z;
  data_size_ : Z;
  expected_data_size_ : Z
}.

Definition set_running_status_ (v : Z) (p : MidiStreamParser) :=
  mkParser v (data_ p) (data_size_ p) (expected_data_size_ p).
Definition set_data_ (v : list Z) (p : MidiStreamParser) :=
  mkParser (running_status_ p) v (data_size_ p) (expected_data_size_ p).
Definition set_data_size_ (v : Z) (p : MidiStreamParser) :=
  mkParser (running_status_ p) (data_ p) v (expected_data_size_ p).
Definition set_expected_data_size_ (v : Z) (p : MidiStreamParser) :=
  mkParser (running_status_ p) (data_ p) (data_size_ p) v.

Abbreviation Parse := (Exec MidiStreamParser Event).

(** [MidiStreamParser<Device>::MidiStreamParser()].  The constructor leaves
    [data_[3]] uninitialised; [d0 d1 d2] stand for whatever it holds. *)
Definition new (d0 d1 d2 : Z) : MidiStreamParser :=
  mkParser 0 [d0; d1; d2] 0 0.

(** [data_[i] = byte]. *)
Definition store_data : Z → Z → Parse unit := store data_ set_data_.

(** [MidiStreamParser<Device>::MessageReceived(uint8_t status)].  It reads
    [data_[0]] and [data_[1]], which are inside of [data_[3]]. *)
Definition MessageReceived (status : Z) : Parse unit :=
  data ← gets data_;
  when (negb (nonzero status)) (emit (BozoByte (data !!! 0%nat)));;
  let hi := Z.land status 0xf0 in
  let lo := Z.land status 0x0f in
  if hi =? 0x80 then
    if nonzero (data !!! 1%nat)
    then emit (NoteOn lo (data !!! 0%nat) (data !!! 1%nat))
    else emit (NoteOff lo (data !!! 0%nat) 0)
  else if hi =? 0x90 then
    emit (NoteOff lo (data !!! 0%nat) (data !!! 1%nat))
  else if hi =? 0xa0 then
    emit (Aftertouch3 lo (data !!! 0%nat) (data !!! 1%nat))
  else if hi =? 0xb0 then
    let d0 := data !!! 0%nat in
    if d0 =? 0x78 then emit (AllSoundOff lo)
    else if d0 =? 0x79 then emit (ResetAllControllers lo)
    else if d0 =? 0x7a then emit (LocalControl lo (data !!! 1%nat))
    else if d0 =? 0x7b then emit (AllNotesOff lo)
    else if d0 =? 0x7c then emit (OmniModeOff lo)
    else if d0 =? 0x7d then emit (OmniModeOn lo)
    else if d0 =? 0x7e then emit (MonoModeOn lo (data !!! 1%nat))
    else if d0 =? 0x7f then emit (PolyModeOn lo)
    else emit (ControlChange lo (data !!! 0%nat) (data !!! 1%nat))
  else if hi =? 0xc0 then
    emit (ProgramChange lo (data !!! 0%nat))
  else if hi =? 0xd0 then
    emit (Aftertouch2 lo (data !!! 0%nat))
  else if hi =? 0xe0 then
    emit (PitchBend lo
            (uint16 (Z.shiftl (data !!! 0%nat) 7 + data !!! 1%nat)))
  else if hi =? 0xf0 then
    if lo =? 0x0 then emit (SysExByte (data !!! 0%nat))
    else if (lo =? 0x1) || (lo =? 0x2) || (lo =? 0x3) || (lo =? 0x4)
            || (lo =? 0x5) || (lo =? 0x6) then mret tt
    else if lo =? 0x7 then emit SysExEnd
    else if lo =? 0x8 then emit Clock
    else if lo =? 0x9 then mret tt
    else if lo =? 0xa then emit Start
    else if lo =? 0xb then emit Continue
    else if lo =? 0xc then emit Stop
    else if lo =? 0xe then emit ActiveSensing
    else if lo =? 0xf then emit Reset
    else mret tt
  else mret tt.

(** [MidiStreamParser<Device>::PushByte(uint8_t byte)]. *)
Definition PushByte (byte : Z) : Parse unit :=
  if 0xf8 <=? byte then
    MessageReceived byte
  else
    (if 0x80 <=? byte then
       let hi := Z.land byte 0xf0 in
       let lo := Z.land byte 0x0f in
       modify (set_data_size_ 0);;
       modify (set_expected_data_size_ 1);;
       (if (hi =? 0x80) || (hi =? 0x90) || (hi =? 0xa0) || (hi =? 0xb0) then
          modify (set_expected_data_size_ 2)
        else if (hi =? 0xc0) || (hi =? 0xd0) then
          mret tt
        else if hi =? 0xe0 then
          modify (set_expected_data_size_ 2)
        else if hi =? 0xf0 then
          if (0 <? lo) && (lo <? 3) then modify (set_expected_data_size_ 2)
          else if 4 <=? lo then modify (set_expected_data_size_ 0)
          else mret tt
        else mret tt);;
       running_status ← gets running_status_;
       when (running_status =? 0xf0) (emit SysExEnd);;
       modify (set_running_status_ byte);;
       running_status ← gets running_status_;
       when (running_status =? 0xf0) (emit SysExStart)
     else
       data_size ← gets data_size_;
       modify (set_data_size_ (uint8 (data_size + 1)));;
       store_data data_size byte);;
    data_size ← gets data_size_;
    expected_data_size ← gets expected_data_size_;
    when (expected_data_size <=? data_size)
      (running_status ← gets running_status_;
       MessageReceived running_status;;
       modify (set_data_size_ 0);;
       running_status ← gets running_status_;
       when (0xf0 <? running_status)
         (modify (set_expected_data_size_ 0);;
          modify (set_running_status_ 0))).

(** The caller's loop: the bytes of an incoming stream, pushed in order. *)
Fixpoint PushBytes (bytes : list Z) : Parse unit :=
  match bytes with
  | [] => mret tt
  | byte :: rest => PushByte byte;; PushBytes rest
  end.

(** ** Notions used to state the properties of the parser *)

(** The calls [MessageReceived status] makes on a parser [p]. *)
Definition message_events (status : Z) (p : MidiStreamParser) : list Event :=
  match MessageReceived status p with
  | Some (_, _, events) => events
  | None => []
  end.

(** The number of data bytes [PushByte] expects after a status byte. *)
Definition expected_after (byte : Z) : Z :=
  let hi := Z.land byte 0xf0 in
  let lo := Z.land byte 0x0f in
  if (hi =? 0x80) || (hi =? 0x90) || (hi =? 0xa0) || (hi =? 0xb0)
     || (hi =? 0xe0) then 2
  else if (hi =? 0xc0) || (hi =? 0xd0) then 1
  else if hi =? 0xf0 then
    if (0 <? lo) && (lo <? 3) then 2 else if 4 <=? lo then 0 else 1
  else 1.

(** The sysex framing calls made when a status byte arrives. *)
Definition sysex_framing (running_status byte : Z) : list Event :=
  (if running_status =? 0xf0 then [SysExEnd] else []) ++
  (if byte =? 0xf0 then [SysExStart] else []).

(** The calls [MessageReceived status] makes when [data_] starts with
    [d0], [d1]: the message decoded from a status and its data bytes. *)
Definition message (status d0 d1 : Z) : list Event :=
  message_events status (mkParser status [d0; d1; 0] 0 0).

(** What a realtime byte makes the parser call. *)
Definition realtime_events (byte : Z) : list Event :=
  if byte =? 0xf8 then [Clock]
  else if byte =? 0xfa then [Start]
  else if byte =? 0xfb then [Continue]
  else if byte =? 0xfc then [Stop]
  else if byte =? 0xfe then [ActiveSensing]
  else if byte =? 0xff then [Reset]
  else [].

(** The invariant of the data model: [data_size_ <= expected_data_size_
    <= 2], and [running_status_] is 0 or a byte with bit 7 set. *)
Definition parser_invariant (p : MidiStreamParser) : Prop :=
  0 ≤ data_size_ p ≤ expected_data_size_ p ∧
  expected_data_size_ p ≤ 2 ∧
  (running_status_ p = 0 ∨
   is_uint8 (running_status_ p) ∧ Z.testbit (running_status_ p) 7 = true).

(** What holds of every parser reached from a constructed one: the data
    model invariant on the counts, [data_] an array of three bytes, and no
    data byte expected while no running status is established. *)
Definition parser_ok (p : MidiStreamParser) : Prop :=
  length (data_ p) = 3%nat ∧
  0 ≤ data_size_ p ≤ expected_data_size_ p ∧
  expected_data_size_ p ≤ 2 ∧
  (running_status_ p = 0 → expected_data_size_ p = 0).

End Midi.

(** * hardware/io/devices/sparkfun_ser_lcd.h *)

Module Lcd.

Definition kLcdNoCursor : Z := 0xff.
Definition kLcdCursorBlinkRate : Z := 0x7f.
Definition kLcdCursor : Z := 0xff.

(** Template parameters of [Display], at their default values: the driver
    is, in the words of its header, one "for a 2x16 LCD display". *)
Definition width : Z := 16.
Definition height : Z := 2.

Definition lcd_buffer_size : Z := width * height.
Definition lcd_buffer_size_wrap : Z := width * height - 1.

(** Modelled from the spec: [Log2<n>::value] of [hardware/io/log2.h], a
    header that is not among the sources at hand.  It is the base-2
    logarithm of a power of two, used to turn a multiplication by a
    display dimension into a shift. *)
Definition Log2 (n : Z) : Z := Z.log2 n.

(** The calls made to the serial transport ([software_serial.h], an
    external collaborator): [DisplaySerialOutput::Overwrite] enqueues one
    byte without checking the capacity; [DisplayPanicSerialOutput::Write]
    and [DisplaySerialOutput::Init] are only used by [Init]. *)
Inductive SerialCall : Type :=
  | Overwrite (byte : Z)
  | PanicWrite (byte : Z)
  | SerialInit.

(** Static members of [Display]. *)
Record Display : Type := mkDisplay {
  local_ : list Z;
  remote_ : list Z;
  scan_position_ : Z;
  scan_position_last_write_ : Z;
  blink_ : Z;
  blink_clock_ : Z;
  cursor_position_ : Z;
  status_ : Z
}.

Definition set_local_ (v : list Z) (d : Display) :=
  mkDisplay v (remote_ d) (scan_position_ d) (scan_position_last_write_ d)
    (blink_ d) (blink_clock_ d) (cursor_position_ d) (status_ d).
Definition set_remote_ (v : list Z) (d : Display) :=
  mkDisplay (local_ d) v (scan_position_ d) (scan_position_last_write_ d)
    (blink_ d) (blink_clock_ d) (cursor_position_ d) (status_ d).
Definition set_scan_position_ (v : Z) (d : Display) :=
  mkDisplay (local_ d) (remote_ d) v (scan_position_last_write_ d)
    (blink_ d) (blink_clock_ d) (cursor_position_ d) (status_ d).
Definition set_scan_position_last_write_ (v : Z) (d : Display) :=
  mkDisplay (local_ d) (remote_ d) (scan_position_ d) v
    (blink_ d) (blink_clock_ d) (cursor_position_ d) (status_ d).
Definition set_blink_ (v : Z) (d : Display) :=
  mkDisplay (local_ d) (remote_ d) (scan_position_ d)
    (scan_position_last_write_ d) v (blink_clock_ d) (cursor_position_ d)
    (status_ d).
Definition set_blink_clock_ (v : Z) (d : Display) :=
  mkDisplay (local_ d) (remote_ d) (scan_position_ d)
    (scan_position_last_write_ d) (blink_ d) v (cursor_position_ d)
    (status_ d).
Definition set_cursor_position_ (v : Z) (d : Display) :=
  mkDisplay (local_ d) (remote_ d) (scan_position_ d)
    (scan_position_last_write_ d) (blink_ d) (blink_clock_ d) v (status_ d).
Definition set_status_ (v : Z) (d : Display) :=
  mkDisplay (local_ d) (remote_ d) (scan_position_ d)
    (scan_position_last_write_ d) (blink_ d) (blink_clock_ d)
    (cursor_position_ d) v.

Abbreviation Lcd := (Exec Display SerialCall).

(** The static members before [Init] runs: zero-initialised storage. *)
Definition zero_initialized : Display :=
  mkDisplay (replicate (Z.to_nat lcd_buffer_size) 0)
    (replicate (Z.to_nat lcd_buffer_size) 0) 0 0 0 0 0 0.

(** [Display::Init()]; [baud_rate] is the template parameter. *)
Definition Init (baud_rate : Z) : Lcd unit :=
  modify (set_local_ (replicate (Z.to_nat lcd_buffer_size) 32));;
  modify (set_remote_ (replicate (Z.to_nat lcd_buffer_size) 63));;
  modify (set_scan_position_last_write_ 255);;
  modify (set_blink_ 0);;
  modify (set_cursor_position_ 255);;
  when (baud_rate =? 2400) (emit (PanicWrite 124);; emit (PanicWrite 11));;
  emit SerialInit.

(** The loop of [Display::Print]: [text] is the C string up to, and
    without, its terminating NUL; [destination] is the offset of the
    pointer of that name into [local_]. *)
Fixpoint Print_loop (text : list Z) (row destination : Z) : Lcd unit :=
  match text with
  | [] => mret tt
  | character :: text' =>
      if nonzero character && nonzero row then
        (if (character =? 124) || (character =? 254) ||
            ((8 <=? character) && (character <? 32))
         then store local_ set_local_ destination 32
         else store local_ set_local_ destination character);;
        Print_loop text' (uint8 (row - 1)) (destination + 1)
      else mret tt
  end.

(** [Display::Print(uint8_t line, const char* text)], without its
    logging. *)
Definition Print (line : Z) (text : list Z) : Lcd unit :=
  Print_loop text width (Z.shiftl line (Log2 width)).

(** [Display::set_cursor_position(uint8_t cursor)]. *)
Definition set_cursor_position (cursor : Z) : Lcd unit :=
  modify (set_cursor_position_ cursor).

(** [Display::set_status(uint8_t status)]. *)
Definition set_status (status : Z) : Lcd unit :=
  modify (set_blink_clock_ 0);;
  modify (set_status_ (uint8 (status + 1)));;
  first ← load local_ 0;
  modify (set_scan_position_ (if first =? 32 then 0 else width - 1)).

(** The first part of [Display::Update]: the blink clock. *)
Definition advance_blink_clock : Lcd unit :=
  blink_clock ← gets blink_clock_;
  modify (set_blink_clock_
            (uint8 (Z.land (blink_clock + 1) kLcdCursorBlinkRate)));;
  blink_clock ← gets blink_clock_;
  when (blink_clock =? 0)
    (blink ← gets blink_;
     modify (set_blink_ (uint8 (Z.lnot blink)));;
     modify (set_status_ 0)).

(** The second part of [Display::Update]: "Determine which character to
    show at the current position", the value of its local [character]. *)
Definition resolve_character : Lcd Z :=
  scan_position ← gets scan_position_;
  cursor_position ← gets cursor_position_;
  blink ← gets blink_;
  if (scan_position =? cursor_position) && nonzero blink then
    mret kLcdCursor
  else
    status ← gets status_;
    show_status ←
      (if nonzero status &&
          ((scan_position =? 0) || (scan_position =? width - 1))
       then c ← load local_ scan_position; mret (c =? 32)
       else mret false);
    if show_status : bool then mret (uint8 (status - 1))
    else load local_ scan_position.

(** The argument of the cursor move command, the local [cursor_position]
    of [Display::Update]. *)
Definition cursor_move_argument (scan_position : Z) : Z :=
  let cursor_position := 0x80 in
  let cursor_position :=
    uint8 (Z.lor cursor_position
             (Z.shiftl (Z.land scan_position (Z.lnot (width - 1)))
                (Log2 (64 / width)))) in
  let cursor_position :=
    uint8 (Z.lor cursor_position (Z.land scan_position (width - 1))) in
  cursor_position.

(** The third part of [Display::Update]: transmit [character] if needed. *)
Definition transmit (character : Z) : Lcd unit :=
  scan_position ← gets scan_position_;
  cursor_position ← gets cursor_position_;
  remote ← load remote_ scan_position;
  when (negb (character =? remote) || (scan_position =? cursor_position))
    (scan_position_last_write ← gets scan_position_last_write_;
     (if (scan_position =? scan_position_last_write + 1) &&
         nonzero (Z.land scan_position (width - 1))
      then emit (Overwrite character)
      else
        emit (Overwrite 0xfe);;
        emit (Overwrite (cursor_move_argument scan_position));;
        emit (Overwrite character));;
     store remote_ set_remote_ scan_position character;;
     modify (set_scan_position_last_write_ scan_position)).

(** [Display::Update()]; [writable] is what
    [DisplaySerialOutput::writable()] answers at this call. *)
Definition Update (writable : Z) : Lcd unit :=
  if writable <? 3 then
    mret tt
  else
    advance_blink_clock;;
    character ← resolve_character;
    transmit character;;
    scan_position ← gets scan_position_;
    modify (set_scan_position_
              (uint8 (Z.land (scan_position + 1) lcd_buffer_size_wrap))).

(** The timer's loop: one [Update] per frame, the transport answering
    [writable] with the next element of [writables]. *)
Fixpoint Updates (writables : list Z) : Lcd unit :=
  match writables with
  | [] => mret tt
  | writable :: rest => Update writable;; Updates rest
  end.

(** ** Notions used to state the properties of the display *)

(** Both pages are arrays of [lcd_buffer_size] characters, and the scan
    position is inside of them. *)
Definition display_ok (d : Display) : Prop :=
  length (local_ d) = Z.to_nat lcd_buffer_size ∧
  length (remote_ d) = Z.to_nat lcd_buffer_size ∧
  0 ≤ scan_position_ d < lcd_buffer_size.

(** The character [Update] decides to show at the scan position. *)
Definition resolved (d : Display) : option Z :=
  match resolve_character d with
  | Some (character, _, _) => Some character
  | None => None
  end.

(** Nothing is left to transmit: the remote page equals the local page,
    no status is pending, and the cursor is outside of the display. *)
Definition quiet (d : Display) : Prop :=
  display_ok d ∧
  remote_ d = local_ d ∧
  status_ d = 0 ∧
  ¬ (0 ≤ cursor_position_ d < lcd_buffer_size).

(** How many of the ticks find room in the transport: [Update] goes past
    its first test only when three bytes are writable. *)
Definition ticks_with_room (writables : list Z) : Z :=
  Z.of_nat (length (filter (λ writable, 3 ≤ writable) writables)).

(** The remote page shows, at every position, the character that
    [resolve_character] gives there now. *)
Definition converged (d : Display) : Prop :=
  ∀ i, 0 ≤ i < lcd_buffer_size →
    is_Some (remote_ d !! Z.to_nat i) ∧
    resolved (set_scan_position_ i d) = remote_ d !! Z.to_nat i.

(** The text "Hello", and a page whose first row starts with it. *)
Definition hello : list Z := [72; 101; 108; 108; 111].
Definition hello_page : list Z := hello ++ replicate 27 32.

(** ** The set-up functions of the display *)

(** [DisplaySerialOutput::Write], the blocking write of the transport,
    which the set-up functions use. *)
Inductive SerialWrite : Type :=
  | Write (byte : Z).

Abbreviation LcdSetup := (Exec Display SerialWrite).

(** [for (uint8_t i = 0; i < n; ++i) body(i)], the indices given as a
    list. *)
Fixpoint for_each (indices : list Z) (body : Z → LcdSetup unit)
    : LcdSetup unit :=
  match indices with
  | [] => mret tt
  | i :: rest => body i;; for_each rest body
  end.

(** [Display::WriteCommand(uint8_t command, uint8_t argument)]. *)
Definition WriteCommand (command argument : Z) : LcdSetup unit :=
  when (nonzero command) (emit (Write command));;
  emit (Write argument).

(** [Display::SetBrightness(uint8_t brightness)]. *)
Definition SetBrightness (brightness : Z) : LcdSetup unit :=
  WriteCommand 0x7c (uint8 (128 + brightness)).

(** [Display::SetCustomCharMap(const uint8_t* characters,
    uint8_t num_characters)].  [Lookup index] stands for
    [SimpleResourcesManager::Lookup<uint8_t, uint8_t>(characters, index)],
    a read of the table [characters] in program memory, whose header is
    not among the sources at hand; its index is a [uint8_t]. *)
Definition SetCustomCharMap (Lookup : Z → Z) (num_characters : Z)
    : LcdSetup unit :=
  WriteCommand 0xfe 0x01;;
  for_each (seqZ 0 num_characters) (λ i,
    WriteCommand 0xfe (uint8 (0x40 + i * 8));;
    for_each (seqZ 0 8) (λ j,
      WriteCommand 0 (uint8 (Z.lor 0x20 (Lookup (uint8 (i * 8 + j))))));;
    WriteCommand 0xfe 0x01).

(** ** More notions used to state the properties of the display *)

(** What [Print] stores for a character of the text. *)
Definition printable (character : Z) : Z :=
  if (character =? 124) || (character =? 254) ||
     ((8 <=? character) && (character <? 32))
  then 32 else character.

(** The characters of a C string: those before the first NUL. *)
Fixpoint c_string (text : list Z) : list Z :=
  match text with
  | [] => []
  | character :: rest =>
      if nonzero character then character :: c_string rest else []
  end.

(** [page], with [characters] written over it from [position] on. *)
Definition overwrite (position : nat) (characters page : list Z) : list Z :=
  take position page ++ characters ++
  drop (position + length characters) page.

(** The bytes it takes to transmit the cell at [scan_position] right
    after the cell before it: three at the start of a row, else one. *)
Definition tick_cost (scan_position : Z) : nat :=
  if scan_position mod width =? 0 then 3%nat else 1%nat.

(** The bytes it takes to transmit [ticks] cells in a row, from
    [scan_position] on, round the display. *)
Fixpoint pass_cost (scan_position : Z) (ticks : nat) : nat :=
  match ticks with
  | O => 0%nat
  | S ticks' =>
      (tick_cost scan_position
       + pass_cost ((scan_position + 1) mod lcd_buffer_size) ticks')%nat
  end.

(** A text with a control character, and a NUL before its last
    character: 'H', tab, NUL, 'i'. *)
Definition text_with_NUL : list Z := [72; 9; 0; 105].

(** No cell of [page] holds one of the characters that the wire protocol
    of the display reads as a command. *)
Definition no_control_character (page : list Z) : Prop :=
  Forall (λ c, c ≠ 124 ∧ c ≠ 254 ∧ ¬ (8 ≤ c < 32)) page.

End Lcd.

(** * Properties *)

(** ** Symbolic execution of the monad *)

Ltac exec_unfold :=
  cbv [exec mbind mret Exec_bind Exec_ret exec_bind exec_ret gets modify emit
       when].

Ltac exec_case :=
  match goal with
  | |- context [if ?c then _ else _] => destruct c eqn:?
  end.

(** Case analysis on the first comparison that guards a conditional. *)
Ltac exec_branch :=
  match goal with
  | |- context [if ?c then _ else _] =>
      match c with
      | context [?a =? ?b] => destruct (Z.eqb_spec a b)
      | context [?a <? ?b] => destruct (Z.ltb_spec a b)
      | context [?a <=? ?b] => destruct (Z.leb_spec a b)
      end
  end; cbn [orb andb negb]; cbv beta iota.

Lemma exec_unit {St Out} (m : Exec St Out unit) s s' out :
  exec m s = Some (s', out) ↔ m s = Some (tt, s', out).
Proof.
  unfold exec. destruct (m s) as [[[[] s1] o1]|]; split; congruence.
Qed.

(** ** Bytes *)

(** A boolean property checked on all 256 bytes holds of every byte. *)
Lemma uint8_forallb (f : Z → bool) :
  forallb f (seqZ 0 256) = true → ∀ b, is_uint8 b → f b = true.
Proof.
  intros Hall b Hb. rewrite forallb_forall in Hall. apply Hall.
  apply list_elem_of_In, elem_of_seqZ. unfold is_uint8 in Hb. lia.
Qed.

(** A byte is the sum of its two nibbles. *)
Lemma nibbles b :
  is_uint8 b →
  Z.land b 0xf0 + Z.land b 0x0f = b ∧ 0 ≤ Z.land b 0x0f < 16 ∧
  ∃ k, 0 ≤ k < 16 ∧ Z.land b 0xf0 = 16 * k.
Proof.
  intros Hb.
  pose proof (uint8_forallb
    (λ b, (Z.land b 0xf0 + Z.land b 0x0f =? b) && (0 <=? Z.land b 0x0f) &&
          (Z.land b 0x0f <? 16) && (0 <=? Z.land b 0xf0 / 16) &&
          (Z.land b 0xf0 / 16 <? 16) &&
          (Z.land b 0xf0 =? 16 * (Z.land b 0xf0 / 16)))
    eq_refl b Hb) as H.
  rewrite !andb_true_iff in H. destruct H as [[[[[H1 H2] H3] H4] H5] H6].
  split; [lia|]. split; [lia|]. exists (Z.land b 0xf0 / 16). lia.
Qed.

Lemma uint8_id b : is_uint8 b → uint8 b = b.
Proof.
  intros Hb. unfold uint8. change 0xff with (Z.ones 8).
  rewrite Z.land_ones by lia. apply Z.mod_small. exact Hb.
Qed.

Lemma uint8_range x : is_uint8 (uint8 x).
Proof.
  unfold uint8, is_uint8. change 0xff with (Z.ones 8).
  rewrite Z.land_ones by lia. apply Z.mod_pos_bound. lia.
Qed.

Module MidiProperties.
Import Midi.

Lemma MessageReceived_total status p :
  MessageReceived status p = Some (tt, p, message_events status p).
Proof.
  unfold message_events, MessageReceived. exec_unfold.
  repeat (exec_case; cbv beta iota; try reflexivity).
Qed.

Lemma PushByte_realtime byte p :
  0xf8 ≤ byte →
  PushByte byte p = Some (tt, p, message_events byte p).
Proof.
  intros Hb. unfold PushByte.
  destruct (Z.leb_spec 0xf8 byte); [apply MessageReceived_total | lia].
Qed.

Ltac parser_simpl :=
  cbv [set_running_status_ set_data_ set_data_size_ set_expected_data_size_
       running_status_ data_ data_size_ expected_data_size_].

Lemma PushByte_status byte p :
  0x80 ≤ byte < 0xf8 →
  PushByte byte p =
    let p1 := mkParser byte (data_ p) 0 (expected_after byte) in
    if expected_after byte =? 0 then
      Some (tt, mkParser 0 (data_ p) 0 0,
            sysex_framing (running_status_ p) byte ++ message_events byte p1)
    else Some (tt, p1, sysex_framing (running_status_ p) byte).
Proof.
  intros Hb. unfold PushByte.
  destruct (Z.leb_spec 0xf8 byte); [lia|].
  destruct (Z.leb_spec 0x80 byte); [|lia].
  destruct (nibbles byte) as (Hsum & Hlo & _); [unfold is_uint8; lia|].
  unfold expected_after, sysex_framing. destruct p as [rs data n e].
  exec_unfold. parser_simpl.
  repeat (exec_branch; parser_simpl; rewrite ?MessageReceived_total;
          try lia; try (cbn [app]; rewrite ?app_nil_r; reflexivity)).
Qed.

Lemma PushByte_data byte p :
  byte < 0x80 →
  0 ≤ data_size_ p < Z.of_nat (length (data_ p)) →
  PushByte byte p =
    let p1 := mkParser (running_status_ p)
                (<[Z.to_nat (data_size_ p) := byte]> (data_ p))
                (uint8 (data_size_ p + 1)) (expected_data_size_ p) in
    if expected_data_size_ p <=? uint8 (data_size_ p + 1) then
      Some (tt,
            (if 0xf0 <? running_status_ p
             then mkParser 0 (data_ p1) 0 0
             else mkParser (running_status_ p) (data_ p1) 0
                    (expected_data_size_ p)),
            message_events (running_status_ p) p1)
    else Some (tt, p1, []).
Proof.
  intros Hb Hn. unfold PushByte.
  destruct (Z.leb_spec 0xf8 byte); [lia|].
  destruct (Z.leb_spec 0x80 byte); [lia|].
  destruct p as [rs data n e]. cbn [data_size_ data_] in Hn.
  exec_unfold. unfold store_data, store. parser_simpl.
  destruct (Z.leb_spec 0 n); [|lia].
  destruct (Z.ltb_spec n (Z.of_nat (length data))); [|lia].
  cbn [andb]. cbv beta iota.
  repeat (exec_branch; parser_simpl; rewrite ?MessageReceived_total;
          try lia; try (cbn [app]; rewrite ?app_nil_r; reflexivity)).
Qed.

(** A data byte stored past the end of [data_] is undefined behaviour. *)
Lemma PushByte_data_overflow byte p :
  byte < 0x80 →
  ¬ (0 ≤ data_size_ p < Z.of_nat (length (data_ p))) →
  PushByte byte p = None.
Proof.
  intros Hb Hn. unfold PushByte.
  destruct (Z.leb_spec 0xf8 byte); [lia|].
  destruct (Z.leb_spec 0x80 byte); [lia|].
  destruct p as [rs data n e]. cbn [data_size_ data_] in Hn.
  exec_unfold. unfold store_data, store. parser_simpl.
  destruct (Z.leb_spec 0 n), (Z.ltb_spec n (Z.of_nat (length data)));
    cbn [andb]; try reflexivity; lia.
Qed.

Lemma exec_PushBytes_nil p : exec (PushBytes []) p = Some (p, []).
Proof. reflexivity. Qed.

Lemma exec_PushBytes_cons byte rest p :
  exec (PushBytes (byte :: rest)) p =
    match exec (PushByte byte) p with
    | Some (p1, events1) =>
        match exec (PushBytes rest) p1 with
        | Some (p2, events2) => Some (p2, events1 ++ events2)
        | None => None
        end
    | None => None
    end.
Proof.
  cbn [PushBytes]. exec_unfold.
  destruct (PushByte byte p) as [[[[] p1] o1]|]; [|reflexivity].
  destruct (PushBytes rest p1) as [[[[] p2] o2]|]; reflexivity.
Qed.

Lemma exec_PushBytes_app before after p :
  exec (PushBytes (before ++ after)) p =
    match exec (PushBytes before) p with
    | Some (p1, events1) =>
        match exec (PushBytes after) p1 with
        | Some (p2, events2) => Some (p2, events1 ++ events2)
        | None => None
        end
    | None => None
    end.
Proof.
  revert p. induction before as [|byte before IH]; intros p.
  - cbn [app]. rewrite exec_PushBytes_nil.
    destruct (exec (PushBytes after) p) as [[p2 o2]|]; reflexivity.
  - cbn [app]. rewrite !exec_PushBytes_cons.
    destruct (exec (PushByte byte) p) as [[p1 o1]|]; [|reflexivity].
    rewrite IH.
    destruct (exec (PushBytes before) p1) as [[p2 o2]|]; [|reflexivity].
    destruct (exec (PushBytes after) p2) as [[p3 o3]|]; [|reflexivity].
    by rewrite app_assoc.
Qed.

Lemma message_events_data status p :
  message_events status p =
  message status (data_ p !!! 0%nat) (data_ p !!! 1%nat).
Proof.
  unfold message, message_events, MessageReceived. exec_unfold. parser_simpl.
  destruct p as [rs data n e].
  change ([data !!! 0%nat; data !!! 1%nat; 0] !!! 0%nat) with (data !!! 0%nat).
  change ([data !!! 0%nat; data !!! 1%nat; 0] !!! 1%nat) with (data !!! 1%nat).
  repeat (exec_case; cbv beta iota; try reflexivity).
Qed.

Lemma message_events_realtime byte p :
  0xf8 ≤ byte ≤ 0xff → message_events byte p = realtime_events byte.
Proof.
  intros Hb.
  assert (byte = 0xf8 ∨ byte = 0xf9 ∨ byte = 0xfa ∨ byte = 0xfb ∨
          byte = 0xfc ∨ byte = 0xfd ∨ byte = 0xfe ∨ byte = 0xff)
    as Hcases by lia.
  repeat (destruct Hcases as [->|Hcases]; [reflexivity|]).
  subst byte. reflexivity.
Qed.

Lemma exec_PushByte_realtime byte p :
  0xf8 ≤ byte ≤ 0xff →
  exec (PushByte byte) p = Some (p, realtime_events byte).
Proof.
  intros Hb. apply exec_unit. rewrite PushByte_realtime by lia.
  by rewrite message_events_realtime.
Qed.

(** *** Note-on under running status *)

(** What the parser calls on the stream of the example. *)
Example note_on_stream_trace :
  exec (PushBytes [0x90; 0x40; 0x7F; 0x3C; 0x00]) (new 0 0 0) =
  Some (mkParser 0x90 [0x3C; 0x00; 0] 0 2,
        [NoteOff 0 0x40 0x7F; NoteOff 0 0x3C 0]).
Proof. reflexivity. Qed.

(** C1, as stated, does not hold: the stream [0x90 0x40 0x7F 0x3C 0x00] is
    not decoded as [NoteOn(0, 0x40, 0x7F)] followed by
    [NoteOn(0, 0x3C, 0)]. *)
Lemma note_on_stream_not_two_NoteOn :
  snd <$> exec (PushBytes [0x90; 0x40; 0x7F; 0x3C; 0x00]) (new 0 0 0) ≠
  Some [NoteOn 0 0x40 0x7F; NoteOn 0 0x3C 0].
Proof. rewrite note_on_stream_trace. discriminate. Qed.

(** C1, amended: from the initial state, whatever [data_] holds, the stream
    [0x90 0x40 0x7F 0x3C 0x00] makes exactly two calls to the device, both
    for channel 0: a note call carrying note 0x40 and velocity 0x7F, then
    [NoteOff(0, 0x3C, 0)], decoded under the running status 0x90 that the
    parser keeps. *)
Theorem note_on_stream_two_events d0 d1 d2 :
  ∃ p first,
    exec (PushBytes [0x90; 0x40; 0x7F; 0x3C; 0x00]) (new d0 d1 d2) =
      Some (p, [first; NoteOff 0 0x3C 0]) ∧
    (first = NoteOn 0 0x40 0x7F ∨ first = NoteOff 0 0x40 0x7F) ∧
    running_status_ p = 0x90.
Proof.
  exists (mkParser 0x90 [0x3C; 0x00; d2] 0 2), (NoteOff 0 0x40 0x7F).
  split; [reflexivity|]. split; [by right | reflexivity].
Qed.

(** *** Realtime bytes *)

(** C2, as stated, does not hold: the realtime byte 0xF9 is passed
    through without any call to the device. *)
Lemma realtime_0xF9_no_event :
  0xf8 ≤ 0xf9 ∧
  ∀ p event events,
    exec (PushByte 0xf9) (new 0 0 0) ≠ Some (p, event :: events).
Proof. split; [lia | intros p event events; discriminate]. Qed.

(** C2, amended: a byte [>= 0xF8] is dispatched at once and leaves the
    whole parser state (running status, data buffer, data count, expected
    count) as it was; 0xF8, 0xFA, 0xFB, 0xFC, 0xFE and 0xFF each make
    exactly one call to the device (Clock, Start, Continue, Stop,
    ActiveSensing, Reset), while 0xF9 and 0xFD make none; and a realtime
    byte put anywhere inside a stream adds its own calls at that place and
    changes nothing else of what the stream produces. *)
Theorem realtime_passthrough byte p before after p0 p1 p2 events1 events2 :
  0xf8 ≤ byte ≤ 0xff →
  exec (PushBytes before) p0 = Some (p1, events1) →
  exec (PushBytes after) p1 = Some (p2, events2) →
  exec (PushByte byte) p = Some (p, realtime_events byte) ∧
  realtime_events byte =
    match byte with
    | 0xf8 => [Clock] | 0xfa => [Start] | 0xfb => [Continue]
    | 0xfc => [Stop] | 0xfe => [ActiveSensing] | 0xff => [Reset]
    | _ => []
    end ∧
  exec (PushBytes (before ++ after)) p0 = Some (p2, events1 ++ events2) ∧
  exec (PushBytes (before ++ byte :: after)) p0 =
    Some (p2, events1 ++ realtime_events byte ++ events2).
Proof.
  intros Hb Hbefore Hafter. split; [by apply exec_PushByte_realtime|].
  split.
  { assert (byte = 0xf8 ∨ byte = 0xf9 ∨ byte = 0xfa ∨ byte = 0xfb ∨
            byte = 0xfc ∨ byte = 0xfd ∨ byte = 0xfe ∨ byte = 0xff)
      as Hcases by lia.
    repeat (destruct Hcases as [->|Hcases]; [reflexivity|]).
    subst byte. reflexivity. }
  rewrite !exec_PushBytes_app, Hbefore, exec_PushBytes_cons.
  rewrite exec_PushByte_realtime by exact Hb. by rewrite Hafter.
Qed.

Lemma realtime_passthrough_witness :
  0xf8 ≤ 0xf8 ≤ 0xff ∧
  exec (PushBytes [0x90; 0x40]) (new 0 0 0) =
    Some (mkParser 0x90 [0x40; 0; 0] 1 2, []) ∧
  exec (PushBytes [0x7f]) (mkParser 0x90 [0x40; 0; 0] 1 2) =
    Some (mkParser 0x90 [0x40; 0x7f; 0] 0 2, [NoteOff 0 0x40 0x7f]) ∧
  exec (PushByte 0xf8) (mkParser 0x90 [0x40; 0; 0] 1 2) =
    Some (mkParser 0x90 [0x40; 0; 0] 1 2, realtime_events 0xf8) ∧
  realtime_events 0xf8 = [Clock] ∧
  exec (PushBytes ([0x90; 0x40] ++ [0x7f])) (new 0 0 0) =
    Some (mkParser 0x90 [0x40; 0x7f; 0] 0 2, [] ++ [NoteOff 0 0x40 0x7f]) ∧
  exec (PushBytes ([0x90; 0x40] ++ 0xf8 :: [0x7f])) (new 0 0 0) =
    Some (mkParser 0x90 [0x40; 0x7f; 0] 0 2,
          [] ++ realtime_events 0xf8 ++ [NoteOff 0 0x40 0x7f]).
Proof.
  split; [lia|]. split; [reflexivity|]. split; [reflexivity|].
  exact (realtime_passthrough 0xf8 (mkParser 0x90 [0x40; 0; 0] 1 2)
           [0x90; 0x40] [0x7f] (new 0 0 0) (mkParser 0x90 [0x40; 0; 0] 1 2)
           (mkParser 0x90 [0x40; 0x7f; 0] 0 2) [] [NoteOff 0 0x40 0x7f]
           ltac:(lia) eq_refl eq_refl).
Defined.

(** *** System exclusive framing *)

(** C4: pushing 0xF0 calls [SysExStart] (after the [SysExEnd] that closes
    a sysex run still open); and when the running status is 0xF0, any
    status byte in 0x80..0xF7 first calls [SysExEnd], and then does
    exactly what it does when no sysex run is open. *)
Theorem sysex_start_and_implicit_end p q byte :
  running_status_ q = 0xf0 →
  0x80 ≤ byte ≤ 0xf7 →
  exec (PushByte 0xf0) p =
    Some (mkParser 0xf0 (data_ p) 0 1,
          (if running_status_ p =? 0xf0 then [SysExEnd] else []) ++
          [SysExStart]) ∧
  ∃ q' events,
    exec (PushByte byte) q = Some (q', SysExEnd :: events) ∧
    ∀ running_status,
      running_status ≠ 0xf0 →
      exec (PushByte byte) (set_running_status_ running_status q) =
        Some (q', events).
Proof.
  intros Hq Hb. split.
  { apply exec_unit. rewrite PushByte_status by lia. reflexivity. }
  destruct (PushByte byte (set_running_status_ 0 q))
    as [[[[] q'] events]|] eqn:Hbase.
  2: { rewrite PushByte_status in Hbase by lia. cbv zeta in Hbase.
       by destruct (expected_after byte =? 0). }
  exists q', events.
  rewrite PushByte_status in Hbase by lia. cbv zeta in Hbase.
  split.
  - apply exec_unit. rewrite PushByte_status by lia. cbv zeta.
    rewrite Hq. unfold sysex_framing in *.
    change (0xf0 =? 0xf0) with true.
    change (running_status_ (set_running_status_ 0 q) =? 0xf0)
      with false in Hbase.
    destruct (expected_after byte =? 0); by simplify_eq/=.
  - intros rs Hrs. apply exec_unit. rewrite PushByte_status by lia.
    cbv zeta. unfold sysex_framing in *.
    change (running_status_ (set_running_status_ 0 q) =? 0xf0)
      with false in Hbase.
    change (running_status_ (set_running_status_ rs q)) with rs.
    destruct (Z.eqb_spec rs 0xf0); [done|].
    destruct (expected_after byte =? 0); by simplify_eq/=.
Qed.

Lemma sysex_start_and_implicit_end_witness :
  running_status_ (mkParser 0xf0 [0; 0; 0] 0 1) = 0xf0 ∧
  0x80 ≤ 0x90 ≤ 0xf7 ∧
  exec (PushByte 0xf0) (new 0 0 0) =
    Some (mkParser 0xf0 [0; 0; 0] 0 1, [] ++ [SysExStart]) ∧
  ∃ q' events,
    exec (PushByte 0x90) (mkParser 0xf0 [0; 0; 0] 0 1) =
      Some (q', SysExEnd :: events) ∧
    ∀ running_status,
      running_status ≠ 0xf0 →
      exec (PushByte 0x90)
        (set_running_status_ running_status (mkParser 0xf0 [0; 0; 0] 0 1)) =
        Some (q', events).
Proof.
  split; [reflexivity|]. split; [lia|].
  apply (sysex_start_and_implicit_end (new 0 0 0)
           (mkParser 0xf0 [0; 0; 0] 0 1) 0x90); [reflexivity | lia].
Defined.

(** C10: when the running status is 0xF0, pushing the terminator 0xF7
    calls [SysExEnd] twice in that one [PushByte]: once for the sysex run
    the new status byte closes, once for the message 0xF7 itself, which
    expects no data byte and is dispatched at once; the running status is
    then cleared. *)
Theorem sysex_terminator_ends_twice p :
  running_status_ p = 0xf0 →
  exec (PushByte 0xf7) p =
    Some (mkParser 0 (data_ p) 0 0, [SysExEnd; SysExEnd]).
Proof.
  intros Hp. apply exec_unit. rewrite PushByte_status by lia.
  rewrite Hp. reflexivity.
Qed.

Lemma sysex_terminator_ends_twice_witness :
  running_status_ (mkParser 0xf0 [0; 0; 0] 0 1) = 0xf0 ∧
  exec (PushByte 0xf7) (mkParser 0xf0 [0; 0; 0] 0 1) =
    Some (mkParser 0 [0; 0; 0] 0 0, [SysExEnd; SysExEnd]).
Proof.
  split; [reflexivity|].
  apply (sysex_terminator_ends_twice (mkParser 0xf0 [0; 0; 0] 0 1)).
  reflexivity.
Defined.

(** *** The parser state invariant *)

Lemma expected_after_range byte : 0 ≤ expected_after byte ≤ 2.
Proof.
  unfold expected_after. repeat (exec_case; try lia).
Qed.

Lemma high_bit_set byte :
  is_uint8 byte → 0x80 ≤ byte → Z.testbit byte 7 = true.
Proof.
  intros Hb Hhi.
  pose proof (uint8_forallb (λ b, (b <? 0x80) || Z.testbit b 7) eq_refl
                byte Hb) as H.
  apply orb_true_iff in H as [H|H]; [lia | exact H].
Qed.

(** C6: the invariant holds of a freshly constructed parser, and every
    [PushByte], whatever the byte, returns and gives back a parser that
    satisfies it (and whose [data_] is still an array of three bytes). *)
Theorem parser_invariant_preserved d0 d1 d2 p byte :
  length (data_ p) = 3%nat →
  parser_invariant p →
  is_uint8 byte →
  parser_invariant (new d0 d1 d2) ∧
  ∃ p' events,
    exec (PushByte byte) p = Some (p', events) ∧
    parser_invariant p' ∧ length (data_ p') = 3%nat.
Proof.
  intros Hlen (Hn & He & Hrs) Hb. split.
  { unfold parser_invariant, new; cbn. split; [lia|]. split; [lia | by left]. }
  unfold is_uint8 in Hb.
  destruct (Z.le_gt_cases 0xf8 byte) as [Hrt|Hnrt].
  - exists p, (message_events byte p). split; [|done].
    apply exec_unit, PushByte_realtime. lia.
  - destruct (Z.le_gt_cases 0x80 byte) as [Hst|Hdt].
    + pose proof (expected_after_range byte) as Hexp.
      pose proof (high_bit_set byte Hb Hst) as Hbit.
      pose proof (PushByte_status byte p ltac:(lia)) as Hstep.
      cbv zeta in Hstep.
      destruct (expected_after byte =? 0); eexists _, _;
        (split; [apply exec_unit, Hstep|]);
        unfold parser_invariant; cbn; (split; [split; [lia|]|done]).
      * split; [lia | by left].
      * split; [lia | right; done].
    + pose proof (PushByte_data byte p ltac:(lia) ltac:(lia)) as Hstep.
      cbv zeta in Hstep. cbn [data_] in Hstep.
      rewrite (uint8_id (data_size_ p + 1)) in Hstep
        by (unfold is_uint8; lia).
      destruct (Z.leb_spec (expected_data_size_ p) (data_size_ p + 1));
        [destruct (Z.ltb_spec 0xf0 (running_status_ p))|];
        eexists _, _; (split; [apply exec_unit, Hstep|]);
        unfold parser_invariant; cbn; rewrite length_insert;
        (split; [|done]).
      * split; [lia|]. split; [lia | by left].
      * split; [lia|]. split; [lia | done].
      * split; [lia|]. split; [lia | done].
Qed.

Lemma parser_invariant_preserved_witness :
  length (data_ (mkParser 0x90 [0x40; 0; 0] 1 2)) = 3%nat ∧
  parser_invariant (mkParser 0x90 [0x40; 0; 0] 1 2) ∧
  is_uint8 0x7f ∧
  parser_invariant (new 0 0 0) ∧
  ∃ p' events,
    exec (PushByte 0x7f) (mkParser 0x90 [0x40; 0; 0] 1 2) =
      Some (p', events) ∧
    parser_invariant p' ∧ length (data_ p') = 3%nat.
Proof.
  assert (parser_invariant (mkParser 0x90 [0x40; 0; 0] 1 2)) as Hinv.
  { unfold parser_invariant, is_uint8; cbn. split; [lia|]. split; [lia|].
    right. split; [lia | reflexivity]. }
  assert (is_uint8 0x7f) as Hb by (unfold is_uint8; lia).
  split; [reflexivity|]. split; [exact Hinv|]. split; [exact Hb|].
  exact (parser_invariant_preserved 0 0 0 (mkParser 0x90 [0x40; 0; 0] 1 2)
           0x7f eq_refl Hinv Hb).
Defined.

(** *** Streams from the initial state *)

Lemma parser_ok_new d0 d1 d2 : parser_ok (new d0 d1 d2).
Proof. unfold parser_ok, new; cbn. repeat split; lia. Qed.

Lemma parser_ok_PushByte p byte :
  parser_ok p → is_uint8 byte →
  ∃ p' events, exec (PushByte byte) p = Some (p', events) ∧ parser_ok p'.
Proof.
  intros (Hlen & Hn & He & Hrs) Hb. unfold is_uint8 in Hb.
  destruct (Z.le_gt_cases 0xf8 byte) as [Hrt|Hnrt].
  - exists p, (message_events byte p). split; [|done].
    apply exec_unit, PushByte_realtime. lia.
  - destruct (Z.le_gt_cases 0x80 byte) as [Hst|Hdt].
    + pose proof (expected_after_range byte) as Hexp.
      pose proof (PushByte_status byte p ltac:(lia)) as Hstep.
      cbv zeta in Hstep.
      destruct (Z.eqb_spec (expected_after byte) 0); eexists _, _;
        (split; [apply exec_unit, Hstep|]);
        unfold parser_ok; cbn; repeat split; lia.
    + pose proof (PushByte_data byte p ltac:(lia) ltac:(lia)) as Hstep.
      cbv zeta in Hstep. cbn [data_] in Hstep.
      rewrite (uint8_id (data_size_ p + 1)) in Hstep
        by (unfold is_uint8; lia).
      destruct (Z.leb_spec (expected_data_size_ p) (data_size_ p + 1));
        [destruct (Z.ltb_spec 0xf0 (running_status_ p))|];
        eexists _, _; (split; [apply exec_unit, Hstep|]);
        unfold parser_ok; cbn; rewrite length_insert; repeat split; lia.
Qed.

Lemma parser_ok_PushBytes bytes p :
  parser_ok p → Forall is_uint8 bytes →
  ∃ p' events, exec (PushBytes bytes) p = Some (p', events) ∧ parser_ok p'.
Proof.
  intros Hp Hbytes. revert p Hp.
  induction Hbytes as [|byte bytes Hb _ IH]; intros p Hp.
  - exists p, []. done.
  - destruct (parser_ok_PushByte p byte Hp Hb) as (p1 & ev1 & Hstep & Hp1).
    destruct (IH p1 Hp1) as (p2 & ev2 & Hrest & Hp2).
    exists p2, (ev1 ++ ev2). split; [|done].
    by rewrite exec_PushBytes_cons, Hstep, Hrest.
Qed.

(** A data byte pushed while no running status is established. *)
Lemma PushByte_bozo p byte :
  parser_ok p → running_status_ p = 0 → 0 ≤ byte < 0x80 →
  exec (PushByte byte) p =
    Some (mkParser 0 (<[0%nat := byte]> (data_ p)) 0 0, [BozoByte byte]).
Proof.
  intros (Hlen & Hn & He & Hrs) Hrs0 Hb. specialize (Hrs Hrs0).
  assert (data_size_ p = 0) as Hn0 by lia.
  apply exec_unit. rewrite PushByte_data by lia. cbv zeta.
  rewrite Hrs, Hn0, Hrs0. change (0 <=? uint8 (0 + 1)) with true.
  change (0xf0 <? 0) with false. cbv iota. cbn [data_].
  rewrite message_events_data. cbn [data_].
  destruct (data_ p) as [|a l]; [done|]. reflexivity.
Qed.

(** C5: the parser never fails.  Whatever bytes have been pushed into a
    constructed parser, every push returned, and the next push returns
    too, whatever the byte; if no running status is established at that
    point and the byte is a data byte, that push calls [BozoByte] with
    this very byte, and nothing else. *)
Theorem PushByte_never_fails d0 d1 d2 bytes byte :
  Forall is_uint8 bytes →
  is_uint8 byte →
  ∃ p events,
    exec (PushBytes bytes) (new d0 d1 d2) = Some (p, events) ∧
    (∃ p' events', exec (PushByte byte) p = Some (p', events')) ∧
    (running_status_ p = 0 → byte < 0x80 →
     ∃ p', exec (PushByte byte) p = Some (p', [BozoByte byte])).
Proof.
  intros Hbytes Hb.
  destruct (parser_ok_PushBytes bytes (new d0 d1 d2) (parser_ok_new _ _ _)
              Hbytes) as (p & events & Hrun & Hp).
  exists p, events. split; [exact Hrun|]. split.
  - destruct (parser_ok_PushByte p byte Hp Hb) as (p' & ev & Hstep & _).
    by exists p', ev.
  - intros Hrs Hdata. eexists. apply PushByte_bozo; [done..|].
    unfold is_uint8 in Hb. lia.
Qed.

Lemma PushByte_never_fails_witness :
  Forall is_uint8 [0xf6; 0x41] ∧
  is_uint8 0x42 ∧
  ∃ p events,
    exec (PushBytes [0xf6; 0x41]) (new 0 0 0) = Some (p, events) ∧
    (∃ p' events', exec (PushByte 0x42) p = Some (p', events')) ∧
    (running_status_ p = 0 → 0x42 < 0x80 →
     ∃ p', exec (PushByte 0x42) p = Some (p', [BozoByte 0x42])).
Proof.
  assert (Forall is_uint8 [0xf6; 0x41]) as Hbytes
    by (repeat constructor; unfold is_uint8; lia).
  assert (is_uint8 0x42) as Hb by (unfold is_uint8; lia).
  split; [exact Hbytes|]. split; [exact Hb|].
  exact (PushByte_never_fails 0 0 0 [0xf6; 0x41] 0x42 Hbytes Hb).
Defined.

(** *** Running status *)

(** A status byte of a two-data-byte channel voice message. *)
Lemma PushByte_voice2_status S p :
  0x80 ≤ S ≤ 0xef → Z.land S 0xf0 ≠ 0xc0 → Z.land S 0xf0 ≠ 0xd0 →
  exec (PushByte S) p =
    Some (mkParser S (data_ p) 0 2,
          if running_status_ p =? 0xf0 then [SysExEnd] else []).
Proof.
  intros HS Hc Hd. apply exec_unit. rewrite PushByte_status by lia.
  destruct (nibbles S) as (Hsum & Hlo & k & Hk & Hhi); [unfold is_uint8; lia|].
  assert (expected_after S = 2) as ->.
  { unfold expected_after. repeat (exec_branch; try lia). }
  cbv zeta. change (2 =? 0) with false. cbv iota. unfold sysex_framing.
  destruct (Z.eqb_spec S 0xf0); [lia|]. by rewrite app_nil_r.
Qed.

(** The two data bytes of such a message: the second one completes it,
    and the status stays. *)
Lemma PushByte_voice2_data S data d0 d1 :
  length data = 3%nat → S ≤ 0xf0 → 0 ≤ d0 < 0x80 → 0 ≤ d1 < 0x80 →
  ∃ data',
    exec (PushBytes [d0; d1]) (mkParser S data 0 2) =
      Some (mkParser S data' 0 2, message S d0 d1) ∧
    length data' = 3%nat.
Proof.
  intros Hlen HS H0 H1.
  destruct data as [|a [|b [|c [|]]]]; try discriminate Hlen.
  exists [d0; d1; c]. split; [|reflexivity].
  assert (exec (PushByte d0) (mkParser S [a; b; c] 0 2) =
          Some (mkParser S [d0; b; c] 1 2, [])) as Hfirst.
  { apply exec_unit. rewrite PushByte_data by (cbn; lia). reflexivity. }
  assert (exec (PushByte d1) (mkParser S [d0; b; c] 1 2) =
          Some (mkParser S [d0; d1; c] 0 2, message S d0 d1)) as Hsecond.
  { apply exec_unit. rewrite PushByte_data by (cbn; lia). cbv zeta.
    cbn [running_status_ data_ data_size_ expected_data_size_].
    change (2 <=? uint8 (1 + 1)) with true. cbv iota.
    destruct (Z.ltb_spec 0xf0 S); [lia|].
    by rewrite message_events_data. }
  rewrite exec_PushBytes_cons, Hfirst, exec_PushBytes_cons, Hsecond.
  by rewrite exec_PushBytes_nil, app_nil_r.
Qed.

(** Such a message is one call to the device. *)
Lemma message_voice2_single S d0 d1 :
  0x80 ≤ S ≤ 0xef → Z.land S 0xf0 ≠ 0xc0 → Z.land S 0xf0 ≠ 0xd0 →
  length (message S d0 d1) = 1%nat.
Proof.
  intros HS Hc Hd.
  destruct (nibbles S) as (Hsum & Hlo & k & Hk & Hhi); [unfold is_uint8; lia|].
  unfold message, message_events, MessageReceived. exec_unfold.
  unfold nonzero.
  change ([d0; d1; 0] !!! 0%nat) with d0.
  change ([d0; d1; 0] !!! 1%nat) with d1.
  repeat (exec_branch; try lia; try reflexivity).
Qed.

(** The status bytes 0xF1..0xF7 and the data bytes their message takes. *)
Lemma PushBytes_system_common T data_bytes p :
  length (data_ p) = 3%nat →
  0xf0 < T < 0xf8 →
  Forall (λ d, 0 ≤ d < 0x80) data_bytes →
  Z.of_nat (length data_bytes) = expected_after T →
  ∃ data' events,
    exec (PushBytes (T :: data_bytes)) p =
      Some (mkParser 0 data' 0 0, events) ∧
    length data' = 3%nat.
Proof.
  intros Hlen HT Hdata Hcount.
  pose proof (expected_after_range T) as Hrange.
  rewrite exec_PushBytes_cons.
  pose proof (PushByte_status T p ltac:(lia)) as Hstep. cbv zeta in Hstep.
  destruct (data_ p) as [|a [|b [|c [|]]]] eqn:Hd; try discriminate Hlen.
  destruct data_bytes as [|d0 [|d1 [|d2 rest]]]; cbn [length] in Hcount.
  - destruct (Z.eqb_spec (expected_after T) 0); [|lia].
    apply exec_unit in Hstep. rewrite Hstep, exec_PushBytes_nil.
    by eexists _, _.
  - destruct (Z.eqb_spec (expected_after T) 0); [lia|].
    apply exec_unit in Hstep. rewrite Hstep, exec_PushBytes_cons.
    apply Forall_cons in Hdata as [H0 _].
    assert (exec (PushByte d0) (mkParser T [a; b; c] 0 (expected_after T)) =
            Some (mkParser 0 [d0; b; c] 0 0,
                  message_events T
                    (mkParser T [d0; b; c] 1 (expected_after T)))) as ->.
    { apply exec_unit. rewrite PushByte_data by (cbn; lia). cbv zeta.
      cbn [running_status_ data_ data_size_ expected_data_size_].
      change (uint8 (0 + 1)) with 1.
      destruct (Z.leb_spec (expected_after T) 1); [|lia].
      destruct (Z.ltb_spec 0xf0 T); [|lia]. reflexivity. }
    rewrite exec_PushBytes_nil. by eexists _, _.
  - destruct (Z.eqb_spec (expected_after T) 0); [lia|].
    apply exec_unit in Hstep. rewrite Hstep, exec_PushBytes_cons.
    apply Forall_cons in Hdata as [H0 Hdata].
    apply Forall_cons in Hdata as [H1 _].
    assert (exec (PushByte d0) (mkParser T [a; b; c] 0 (expected_after T)) =
            Some (mkParser T [d0; b; c] 1 (expected_after T), [])) as ->.
    { apply exec_unit. rewrite PushByte_data by (cbn; lia). cbv zeta.
      cbn [running_status_ data_ data_size_ expected_data_size_].
      change (uint8 (0 + 1)) with 1.
      destruct (Z.leb_spec (expected_after T) 1); [lia|]. reflexivity. }
    rewrite exec_PushBytes_cons.
    assert (exec (PushByte d1) (mkParser T [d0; b; c] 1 (expected_after T)) =
            Some (mkParser 0 [d0; d1; c] 0 0,
                  message_events T
                    (mkParser T [d0; d1; c] 2 (expected_after T)))) as ->.
    { apply exec_unit. rewrite PushByte_data by (cbn; lia). cbv zeta.
      cbn [running_status_ data_ data_size_ expected_data_size_].
      change (uint8 (1 + 1)) with 2.
      destruct (Z.leb_spec (expected_after T) 2); [|lia].
      destruct (Z.ltb_spec 0xf0 T); [|lia]. reflexivity. }
    rewrite exec_PushBytes_nil. by eexists _, _.
  - cbn [length] in Hcount. lia.
Qed.

(** C3: a channel voice status byte [S] that takes two data bytes,
    followed by [D1 D2 D1' D2'], makes the parser dispatch two messages,
    [S D1 D2] and then [S D1' D2'], each one call to the device (after the
    [SysExEnd] of a sysex run that [S] closes), and [S] is still the
    running status afterwards.  A system common status byte [T] in
    0xF1..0xF7 followed by the data bytes of its message leaves the running
    status at 0: a data byte that comes next is not decoded under [T], it
    is reported with [BozoByte]. *)
Theorem running_status_carry_over p S D1 D2 D1' D2' q T data_bytes d :
  length (data_ p) = 3%nat →
  0x80 ≤ S ≤ 0xef → Z.land S 0xf0 ≠ 0xc0 → Z.land S 0xf0 ≠ 0xd0 →
  0 ≤ D1 < 0x80 → 0 ≤ D2 < 0x80 → 0 ≤ D1' < 0x80 → 0 ≤ D2' < 0x80 →
  length (data_ q) = 3%nat →
  0xf0 < T < 0xf8 →
  Forall (λ d, 0 ≤ d < 0x80) data_bytes →
  Z.of_nat (length data_bytes) = expected_after T →
  0 ≤ d < 0x80 →
  (∃ p',
     exec (PushBytes [S; D1; D2; D1'; D2']) p =
       Some (p', (if running_status_ p =? 0xf0 then [SysExEnd] else []) ++
                 message S D1 D2 ++ message S D1' D2') ∧
     length (message S D1 D2) = 1%nat ∧
     length (message S D1' D2') = 1%nat ∧
     running_status_ p' = S) ∧
  (∃ q' events,
     exec (PushBytes (T :: data_bytes)) q = Some (q', events) ∧
     running_status_ q' = 0 ∧
     ∃ q'', exec (PushByte d) q' = Some (q'', [BozoByte d])).
Proof.
  intros Hp HS Hc Hd H1 H2 H1' H2' Hq HT Hdata Hcount Hdd. split.
  - destruct (PushByte_voice2_data S (data_ p) D1 D2 Hp ltac:(lia) H1 H2)
      as (data1 & Hfirst & Hlen1).
    destruct (PushByte_voice2_data S data1 D1' D2' Hlen1 ltac:(lia) H1' H2')
      as (data2 & Hsecond & Hlen2).
    exists (mkParser S data2 0 2).
    split; [|by rewrite !message_voice2_single].
    rewrite exec_PushBytes_cons, PushByte_voice2_status by done.
    change [D1; D2; D1'; D2'] with ([D1; D2] ++ [D1'; D2']).
    by rewrite exec_PushBytes_app, Hfirst, Hsecond.
  - destruct (PushBytes_system_common T data_bytes q Hq HT Hdata Hcount)
      as (data' & events & Hrun & Hlen).
    exists (mkParser 0 data' 0 0), events. split; [exact Hrun|].
    split; [reflexivity|]. eexists. apply PushByte_bozo; [|done..].
    unfold parser_ok; cbn. repeat split; lia.
Qed.

Lemma running_status_carry_over_witness :
  length (data_ (new 0 0 0)) = 3%nat ∧
  0x80 ≤ 0xb0 ≤ 0xef ∧ Z.land 0xb0 0xf0 ≠ 0xc0 ∧ Z.land 0xb0 0xf0 ≠ 0xd0 ∧
  0 ≤ 0x07 < 0x80 ∧ 0 ≤ 0x64 < 0x80 ∧ 0 ≤ 0x0a < 0x80 ∧ 0 ≤ 0x40 < 0x80 ∧
  0xf0 < 0xf2 < 0xf8 ∧
  Forall (λ d, 0 ≤ d < 0x80) [0x10; 0x20] ∧
  Z.of_nat (length [0x10; 0x20]) = expected_after 0xf2 ∧
  0 ≤ 0x30 < 0x80 ∧
  (∃ p',
     exec (PushBytes [0xb0; 0x07; 0x64; 0x0a; 0x40]) (new 0 0 0) =
       Some (p', (if running_status_ (new 0 0 0) =? 0xf0
                  then [SysExEnd] else []) ++
                 message 0xb0 0x07 0x64 ++ message 0xb0 0x0a 0x40) ∧
     length (message 0xb0 0x07 0x64) = 1%nat ∧
     length (message 0xb0 0x0a 0x40) = 1%nat ∧
     running_status_ p' = 0xb0) ∧
  (∃ q' events,
     exec (PushBytes [0xf2; 0x10; 0x20]) (new 0 0 0) = Some (q', events) ∧
     running_status_ q' = 0 ∧
     ∃ q'', exec (PushByte 0x30) q' = Some (q'', [BozoByte 0x30])).
Proof.
  assert (Forall (λ d, 0 ≤ d < 0x80) [0x10; 0x20]) as Hdata
    by (repeat constructor; lia).
  split; [reflexivity|]. split; [lia|]. split; [discriminate|].
  split; [discriminate|]. split; [lia|]. split; [lia|]. split; [lia|].
  split; [lia|]. split; [lia|]. split; [exact Hdata|].
  split; [reflexivity|]. split; [lia|].
  exact (running_status_carry_over (new 0 0 0) 0xb0 0x07 0x64 0x0a 0x40
           (new 0 0 0) 0xf2 [0x10; 0x20] 0x30
           eq_refl ltac:(lia) ltac:(discriminate) ltac:(discriminate)
           ltac:(lia) ltac:(lia) ltac:(lia) ltac:(lia)
           eq_refl ltac:(lia) Hdata eq_refl ltac:(lia)).
Defined.

(** *** More on the parser: system exclusive messages *)

(** A data byte inside of a sysex run. *)
Lemma PushByte_sysex_byte data d :
  length data = 3%nat → 0 ≤ d < 0x80 →
  exec (PushByte d) (mkParser 0xf0 data 0 1) =
    Some (mkParser 0xf0 (<[0%nat := d]> data) 0 1, [SysExByte d]).
Proof.
  intros Hlen Hd. apply exec_unit.
  rewrite PushByte_data by (cbn; lia). cbv zeta.
  cbn [running_status_ data_ data_size_ expected_data_size_].
  change (1 <=? uint8 (0 + 1)) with true. change (0xf0 <? 0xf0) with false.
  cbv iota. change (Z.to_nat 0) with 0%nat.
  destruct data as [|a data]; [done|]. reflexivity.
Qed.

Lemma PushBytes_sysex_payload payload : ∀ data,
  length data = 3%nat →
  Forall (λ d, 0 ≤ d < 0x80) payload →
  ∃ data',
    exec (PushBytes payload) (mkParser 0xf0 data 0 1) =
      Some (mkParser 0xf0 data' 0 1, SysExByte <$> payload) ∧
    length data' = 3%nat.
Proof.
  induction payload as [|d payload IH]; intros data Hlen Hall.
  { by exists data. }
  apply Forall_cons in Hall as [Hd Hall].
  destruct (IH (<[0%nat := d]> data)) as (data' & Hrun & Hlen');
    [by rewrite length_insert | done |].
  exists data'. split; [|done].
  by rewrite exec_PushBytes_cons, PushByte_sysex_byte, Hrun.
Qed.

(** X1: a complete system exclusive message.  From any parser, 0xF0, then
    any number of data bytes, then 0xF7 makes the parser call
    [SysExStart], [SysExByte] once per data byte, in order, and then
    [SysExEnd] twice; the running status is 0 afterwards.  (Before all
    that comes the [SysExEnd] of a sysex run that was still open.) *)
Theorem sysex_message_stream p payload :
  length (data_ p) = 3%nat →
  Forall (λ d, 0 ≤ d < 0x80) payload →
  ∃ data',
    exec (PushBytes (0xf0 :: payload ++ [0xf7])) p =
      Some (mkParser 0 data' 0 0,
            (if running_status_ p =? 0xf0 then [SysExEnd] else []) ++
            SysExStart :: (SysExByte <$> payload) ++ [SysExEnd; SysExEnd]).
Proof.
  intros Hlen Hall.
  destruct (PushBytes_sysex_payload payload (data_ p) Hlen Hall)
    as (data' & Hrun & Hlen').
  exists data'.
  rewrite exec_PushBytes_cons.
  assert (exec (PushByte 0xf0) p =
          Some (mkParser 0xf0 (data_ p) 0 1,
                (if running_status_ p =? 0xf0 then [SysExEnd] else []) ++
                [SysExStart])) as ->.
  { apply exec_unit. rewrite PushByte_status by lia. reflexivity. }
  rewrite exec_PushBytes_app, Hrun, exec_PushBytes_cons.
  assert (exec (PushByte 0xf7) (mkParser 0xf0 data' 0 1) =
          Some (mkParser 0 data' 0 0, [SysExEnd; SysExEnd])) as ->.
  { apply exec_unit. rewrite PushByte_status by lia. reflexivity. }
  rewrite exec_PushBytes_nil, app_nil_r. f_equal. f_equal.
  by rewrite <- !app_assoc.
Qed.

Lemma sysex_message_stream_witness :
  length (data_ (new 0 0 0)) = 3%nat ∧
  Forall (λ d, 0 ≤ d < 0x80) [0x7d; 0x01; 0x02] ∧
  ∃ data',
    exec (PushBytes (0xf0 :: [0x7d; 0x01; 0x02] ++ [0xf7])) (new 0 0 0) =
      Some (mkParser 0 data' 0 0,
            (if running_status_ (new 0 0 0) =? 0xf0
             then [SysExEnd] else []) ++
            SysExStart :: (SysExByte <$> [0x7d; 0x01; 0x02]) ++
            [SysExEnd; SysExEnd]).
Proof.
  assert (Forall (λ d, 0 ≤ d < 0x80) [0x7d; 0x01; 0x02]) as Hall
    by (repeat constructor; lia).
  split; [reflexivity|]. split; [exact Hall|].
  exact (sysex_message_stream (new 0 0 0) [0x7d; 0x01; 0x02] eq_refl Hall).
Defined.

(** *** More on the parser: bytes out of protocol *)

(** X2: data bytes that arrive while no running status is established
    (at start-up, or after a system common message) are each reported
    with [BozoByte], in order, and establish nothing: the running status
    stays 0, however many there are. *)
Theorem data_bytes_without_status p bytes :
  parser_ok p →
  running_status_ p = 0 →
  Forall (λ d, 0 ≤ d < 0x80) bytes →
  ∃ p',
    exec (PushBytes bytes) p = Some (p', BozoByte <$> bytes) ∧
    running_status_ p' = 0 ∧ parser_ok p'.
Proof.
  intros Hp Hrs Hall. revert p Hp Hrs.
  induction Hall as [|d bytes Hd _ IH]; intros p Hp Hrs.
  { by exists p. }
  pose proof (PushByte_bozo p d Hp Hrs Hd) as Hstep.
  destruct (IH (mkParser 0 (<[0%nat := d]> (data_ p)) 0 0)) as (p' & Hrun & H');
    [|reflexivity|].
  { destruct Hp as (Hlen & _). unfold parser_ok; cbn.
    rewrite length_insert. repeat split; (done || lia). }
  exists p'. split; [|done].
  by rewrite exec_PushBytes_cons, Hstep, Hrun.
Qed.

Lemma data_bytes_without_status_witness :
  parser_ok (new 0 0 0) ∧
  running_status_ (new 0 0 0) = 0 ∧
  Forall (λ d, 0 ≤ d < 0x80) [0x01; 0x7f] ∧
  ∃ p',
    exec (PushBytes [0x01; 0x7f]) (new 0 0 0) =
      Some (p', BozoByte <$> [0x01; 0x7f]) ∧
    running_status_ p' = 0 ∧ parser_ok p'.
Proof.
  assert (Forall (λ d, 0 ≤ d < 0x80) [0x01; 0x7f]) as Hall
    by (repeat constructor; lia).
  split; [apply parser_ok_new|]. split; [reflexivity|]. split; [exact Hall|].
  exact (data_bytes_without_status (new 0 0 0) [0x01; 0x7f]
           (parser_ok_new 0 0 0) eq_refl Hall).
Defined.

(** [MessageReceived] makes at most one call to the device. *)
Lemma message_events_at_most_one status p :
  (length (message_events status p) ≤ 1)%nat.
Proof.
  unfold message_events, MessageReceived. exec_unfold. unfold nonzero.
  destruct (Z.eqb_spec status 0) as [->|Hne]; cbn [negb]; cbv beta iota.
  - change (Z.land 0 0xf0) with 0. cbn [Z.eqb]. cbv beta iota. cbn. lia.
  - repeat (exec_case; cbv beta iota; try (cbn; lia)).
Qed.

(** X3: one [PushByte] makes at most two calls to the device, whatever
    the state and the byte. *)
Theorem PushByte_at_most_two_calls p byte p' events :
  exec (PushByte byte) p = Some (p', events) →
  (length events ≤ 2)%nat.
Proof.
  intros Hstep. apply exec_unit in Hstep.
  destruct (Z.le_gt_cases 0xf8 byte) as [Hrt|Hnrt].
  { rewrite PushByte_realtime in Hstep by done. injection Hstep as <- <-.
    pose proof (message_events_at_most_one byte p). lia. }
  destruct (Z.le_gt_cases 0x80 byte) as [Hst|Hdt].
  - rewrite PushByte_status in Hstep by lia. cbv zeta in Hstep.
    destruct (nibbles byte) as (Hsum & Hlo & _); [unfold is_uint8; lia|].
    destruct (Z.eqb_spec (expected_after byte) 0) as [Hexp|Hexp];
      injection Hstep as _ <-; unfold sysex_framing.
    + rewrite !length_app.
      pose proof (message_events_at_most_one byte
                    (mkParser byte (data_ p) 0 (expected_after byte))).
      destruct (Z.eqb_spec byte 0xf0) as [->|_]; [done|].
      destruct (running_status_ p =? 0xf0); cbn; lia.
    + rewrite length_app.
      destruct (running_status_ p =? 0xf0), (byte =? 0xf0); cbn; lia.
  - destruct (decide (0 ≤ data_size_ p < Z.of_nat (length (data_ p))))
      as [Hin|Hout].
    + rewrite PushByte_data in Hstep by lia. cbv zeta in Hstep.
      destruct (_ <=? _); injection Hstep as _ <-; [|cbn; lia].
      match goal with
      | |- (length (message_events ?s ?q) ≤ 2)%nat =>
          pose proof (message_events_at_most_one s q)
      end. lia.
    + rewrite PushByte_data_overflow in Hstep by (lia || done). done.
Qed.

Lemma PushByte_at_most_two_calls_witness :
  exec (PushByte 0xf7) (mkParser 0xf0 [0; 0; 0] 0 1) =
    Some (mkParser 0 [0; 0; 0] 0 0, [SysExEnd; SysExEnd]) ∧
  (length [SysExEnd; SysExEnd] ≤ 2)%nat.
Proof.
  split; [reflexivity|].
  exact (PushByte_at_most_two_calls (mkParser 0xf0 [0; 0; 0] 0 1) 0xf7
           (mkParser 0 [0; 0; 0] 0 0) [SysExEnd; SysExEnd] eq_refl).
Defined.

(** *** More on the parser: channel voice messages *)

(** The message decoded for each family of two-data-byte status bytes. *)
Lemma message_control_change S c v :
  Z.land S 0xf0 = 0xb0 →
  message S c v =
    [if c =? 0x78 then AllSoundOff (Z.land S 0x0f)
     else if c =? 0x79 then ResetAllControllers (Z.land S 0x0f)
     else if c =? 0x7a then LocalControl (Z.land S 0x0f) v
     else if c =? 0x7b then AllNotesOff (Z.land S 0x0f)
     else if c =? 0x7c then OmniModeOff (Z.land S 0x0f)
     else if c =? 0x7d then OmniModeOn (Z.land S 0x0f)
     else if c =? 0x7e then MonoModeOn (Z.land S 0x0f) v
     else if c =? 0x7f then PolyModeOn (Z.land S 0x0f)
     else ControlChange (Z.land S 0x0f) c v].
Proof.
  intros Hhi. assert (S ≠ 0) as HS by (intros ->; discriminate Hhi).
  unfold message, message_events, MessageReceived. exec_unfold.
  unfold nonzero. rewrite Hhi.
  destruct (Z.eqb_spec S 0); [done|]. cbn [negb]. cbv beta iota.
  parser_simpl.
  change ([c; v; 0] !!! 0%nat) with c. change ([c; v; 0] !!! 1%nat) with v.
  cbn [Z.eqb Pos.eqb]. cbv beta iota zeta.
  repeat (exec_case; cbv beta iota; try reflexivity).
Qed.

Lemma message_pitch_bend S d0 d1 :
  Z.land S 0xf0 = 0xe0 →
  message S d0 d1 =
    [PitchBend (Z.land S 0x0f) (uint16 (Z.shiftl d0 7 + d1))].
Proof.
  intros Hhi. assert (S ≠ 0) as HS by (intros ->; discriminate Hhi).
  unfold message, message_events, MessageReceived. exec_unfold.
  unfold nonzero. rewrite Hhi.
  destruct (Z.eqb_spec S 0); [done|]. reflexivity.
Qed.

Lemma message_one_data S d0 d1 :
  Z.land S 0xf0 = 0xc0 ∨ Z.land S 0xf0 = 0xd0 →
  message S d0 d1 =
    [if Z.land S 0xf0 =? 0xc0 then ProgramChange (Z.land S 0x0f) d0
     else Aftertouch2 (Z.land S 0x0f) d0].
Proof.
  intros Hhi.
  assert (S ≠ 0) as HS by (intros ->; destruct Hhi as [H|H]; discriminate H).
  unfold message, message_events, MessageReceived. exec_unfold.
  unfold nonzero.
  destruct (Z.eqb_spec S 0); [done|]. cbn [negb]. cbv beta iota.
  destruct Hhi as [-> | ->]; reflexivity.
Qed.

(** A complete two-data-byte channel voice message, from any parser. *)
Lemma PushBytes_voice2 p S d0 d1 :
  length (data_ p) = 3%nat →
  0x80 ≤ S ≤ 0xef → Z.land S 0xf0 ≠ 0xc0 → Z.land S 0xf0 ≠ 0xd0 →
  0 ≤ d0 < 0x80 → 0 ≤ d1 < 0x80 →
  ∃ data',
    exec (PushBytes [S; d0; d1]) p =
      Some (mkParser S data' 0 2,
            (if running_status_ p =? 0xf0 then [SysExEnd] else []) ++
            message S d0 d1) ∧
    length data' = 3%nat.
Proof.
  intros Hlen HS Hc Hd H0 H1.
  destruct (PushByte_voice2_data S (data_ p) d0 d1 Hlen ltac:(lia) H0 H1)
    as (data' & Hrun & Hlen').
  exists data'. split; [|done].
  by rewrite exec_PushBytes_cons, PushByte_voice2_status, Hrun.
Qed.

(** X4: control change and channel mode.  From any parser, a status byte
    0xBn followed by a controller number and a value makes one call to
    the device, for channel n: [ControlChange] with that controller and
    value when the controller is below 0x78, and for 0x78 to 0x7F the
    channel mode call of that number, never [ControlChange]. *)
Theorem control_change_or_channel_mode p S controller value :
  length (data_ p) = 3%nat →
  is_uint8 S → Z.land S 0xf0 = 0xb0 →
  0 ≤ controller < 0x80 → 0 ≤ value < 0x80 →
  ∃ p',
    exec (PushBytes [S; controller; value]) p =
      Some (p',
            (if running_status_ p =? 0xf0 then [SysExEnd] else []) ++
            [if controller <? 0x78
             then ControlChange (Z.land S 0x0f) controller value
             else match controller with
                  | 0x78 => AllSoundOff (Z.land S 0x0f)
                  | 0x79 => ResetAllControllers (Z.land S 0x0f)
                  | 0x7a => LocalControl (Z.land S 0x0f) value
                  | 0x7b => AllNotesOff (Z.land S 0x0f)
                  | 0x7c => OmniModeOff (Z.land S 0x0f)
                  | 0x7d => OmniModeOn (Z.land S 0x0f)
                  | 0x7e => MonoModeOn (Z.land S 0x0f) value
                  | _ => PolyModeOn (Z.land S 0x0f)
                  end]) ∧
    running_status_ p' = S.
Proof.
  intros Hlen HS Hhi Hc Hv.
  destruct (nibbles S HS) as (Hsum & Hlo & _). unfold is_uint8 in HS.
  destruct (PushBytes_voice2 p S controller value Hlen ltac:(lia)
              ltac:(lia) ltac:(lia) Hc Hv) as (data' & Hrun & _).
  exists (mkParser S data' 0 2). split; [|reflexivity].
  rewrite Hrun. do 3 f_equal.
  rewrite message_control_change by done. f_equal.
  destruct (Z.ltb_spec controller 0x78).
  - repeat (exec_branch; try lia). reflexivity.
  - assert (controller = 0x78 ∨ controller = 0x79 ∨ controller = 0x7a ∨
            controller = 0x7b ∨ controller = 0x7c ∨ controller = 0x7d ∨
            controller = 0x7e ∨ controller = 0x7f) as Hcases by lia.
    repeat (destruct Hcases as [->|Hcases]; [reflexivity|]).
    subst controller. reflexivity.
Qed.

Lemma control_change_or_channel_mode_witness :
  length (data_ (new 0 0 0)) = 3%nat ∧
  is_uint8 0xb0 ∧ Z.land 0xb0 0xf0 = 0xb0 ∧
  0 ≤ 0x7b < 0x80 ∧ 0 ≤ 0 < 0x80 ∧
  ∃ p',
    exec (PushBytes [0xb0; 0x7b; 0]) (new 0 0 0) =
      Some (p', [] ++ [AllNotesOff 0]) ∧
    running_status_ p' = 0xb0.
Proof.
  assert (is_uint8 0xb0) as HS by (unfold is_uint8; lia).
  split; [reflexivity|]. split; [exact HS|]. split; [reflexivity|].
  split; [lia|]. split; [lia|].
  exact (control_change_or_channel_mode (new 0 0 0) 0xb0 0x7b 0
           eq_refl HS eq_refl ltac:(lia) ltac:(lia)).
Defined.

(** X5: pitch bend.  From any parser, a status byte 0xEn followed by two
    data bytes [d0 d1] makes one call [PitchBend] for channel n, with the
    value [128 * d0 + d1]: the first data byte is the high part.  The
    value is below 16384. *)
Theorem pitch_bend_value p S d0 d1 :
  length (data_ p) = 3%nat →
  is_uint8 S → Z.land S 0xf0 = 0xe0 →
  0 ≤ d0 < 0x80 → 0 ≤ d1 < 0x80 →
  ∃ p',
    exec (PushBytes [S; d0; d1]) p =
      Some (p',
            (if running_status_ p =? 0xf0 then [SysExEnd] else []) ++
            [PitchBend (Z.land S 0x0f) (128 * d0 + d1)]) ∧
    0 ≤ 128 * d0 + d1 < 16384.
Proof.
  intros Hlen HS Hhi H0 H1.
  destruct (nibbles S HS) as (Hsum & Hlo & _). unfold is_uint8 in HS.
  destruct (PushBytes_voice2 p S d0 d1 Hlen ltac:(lia)
              ltac:(lia) ltac:(lia) H0 H1) as (data' & Hrun & _).
  eexists. split; [|lia]. rewrite Hrun. do 3 f_equal.
  rewrite message_pitch_bend by done. do 2 f_equal.
  unfold uint16. change 0xffff with (Z.ones 16).
  rewrite Z.land_ones, Z.shiftl_mul_pow2 by lia.
  rewrite Z.mod_small by lia. lia.
Qed.

Lemma pitch_bend_value_witness :
  length (data_ (new 0 0 0)) = 3%nat ∧
  is_uint8 0xe3 ∧ Z.land 0xe3 0xf0 = 0xe0 ∧
  0 ≤ 0x40 < 0x80 ∧ 0 ≤ 0x01 < 0x80 ∧
  ∃ p',
    exec (PushBytes [0xe3; 0x40; 0x01]) (new 0 0 0) =
      Some (p', [] ++ [PitchBend (Z.land 0xe3 0x0f) (128 * 0x40 + 0x01)]) ∧
    0 ≤ 128 * 0x40 + 0x01 < 16384.
Proof.
  assert (is_uint8 0xe3) as HS by (unfold is_uint8; lia).
  split; [reflexivity|]. split; [exact HS|]. split; [reflexivity|].
  split; [lia|]. split; [lia|].
  exact (pitch_bend_value (new 0 0 0) 0xe3 0x40 0x01
           eq_refl HS eq_refl ltac:(lia) ltac:(lia)).
Defined.

(** A status byte of a one-data-byte channel voice message, and one data
    byte under that status. *)
Lemma PushByte_voice1_status S p :
  is_uint8 S → Z.land S 0xf0 = 0xc0 ∨ Z.land S 0xf0 = 0xd0 →
  exec (PushByte S) p =
    Some (mkParser S (data_ p) 0 1,
          if running_status_ p =? 0xf0 then [SysExEnd] else []) ∧
  0x80 ≤ S < 0xf0.
Proof.
  intros HS Hhi.
  destruct (nibbles S HS) as (Hsum & Hlo & _). unfold is_uint8 in HS.
  assert (0x80 ≤ S < 0xf0) as Hrange by (destruct Hhi; lia).
  split; [|done]. apply exec_unit. rewrite PushByte_status by lia.
  assert (expected_after S = 1) as ->.
  { unfold expected_after. destruct Hhi as [-> | ->]; reflexivity. }
  cbv zeta. change (1 =? 0) with false. cbv iota. unfold sysex_framing.
  destruct (Z.eqb_spec S 0xf0); [lia|]. by rewrite app_nil_r.
Qed.

Lemma PushByte_voice1_data S data d :
  length data = 3%nat → S ≤ 0xf0 → 0 ≤ d < 0x80 →
  ∃ data',
    exec (PushByte d) (mkParser S data 0 1) =
      Some (mkParser S data' 0 1, message S d (data !!! 1%nat)) ∧
    length data' = 3%nat.
Proof.
  intros Hlen HS Hd.
  destruct data as [|a [|b [|c [|]]]]; try discriminate Hlen.
  exists [d; b; c]. split; [|reflexivity].
  apply exec_unit. rewrite PushByte_data by (cbn; lia). cbv zeta.
  cbn [running_status_ data_ data_size_ expected_data_size_].
  change (1 <=? uint8 (0 + 1)) with true. cbv iota.
  destruct (Z.ltb_spec 0xf0 S); [lia|].
  by rewrite message_events_data.
Qed.

(** X6: running status for one-data-byte messages.  From any parser, a
    status byte 0xCn (or 0xDn) followed by data bytes makes one call
    [ProgramChange] (or the channel [Aftertouch]) for channel n per data
    byte, in order, each with its data byte; the status byte itself makes
    no call, and it is still the running status afterwards. *)
Theorem one_data_byte_running_status p S bytes :
  length (data_ p) = 3%nat →
  is_uint8 S → Z.land S 0xf0 = 0xc0 ∨ Z.land S 0xf0 = 0xd0 →
  Forall (λ d, 0 ≤ d < 0x80) bytes →
  ∃ p',
    exec (PushBytes (S :: bytes)) p =
      Some (p',
            (if running_status_ p =? 0xf0 then [SysExEnd] else []) ++
            ((λ d, if Z.land S 0xf0 =? 0xc0
                   then ProgramChange (Z.land S 0x0f) d
                   else Aftertouch2 (Z.land S 0x0f) d) <$> bytes)) ∧
    running_status_ p' = S.
Proof.
  intros Hlen HS Hhi Hall.
  destruct (PushByte_voice1_status S p HS Hhi) as [Hstatus Hrange].
  assert (∀ data, length data = 3%nat →
            ∃ data',
              exec (PushBytes bytes) (mkParser S data 0 1) =
                Some (mkParser S data' 0 1,
                      (λ d, if Z.land S 0xf0 =? 0xc0
                            then ProgramChange (Z.land S 0x0f) d
                            else Aftertouch2 (Z.land S 0x0f) d) <$> bytes))
    as Hrun.
  { induction Hall as [|d bytes Hd _ IH]; intros data Hdata.
    { by exists data. }
    destruct (PushByte_voice1_data S data d Hdata ltac:(lia) Hd)
      as (data1 & Hstep & Hlen1).
    destruct (IH data1 Hlen1) as (data2 & Hrest).
    exists data2.
    rewrite exec_PushBytes_cons, Hstep, Hrest.
    by rewrite message_one_data. }
  destruct (Hrun (data_ p) Hlen) as (data' & Hbytes).
  exists (mkParser S data' 0 1). split; [|reflexivity].
  by rewrite exec_PushBytes_cons, Hstatus, Hbytes.
Qed.

Lemma one_data_byte_running_status_witness :
  length (data_ (new 0 0 0)) = 3%nat ∧
  is_uint8 0xc5 ∧ (Z.land 0xc5 0xf0 = 0xc0 ∨ Z.land 0xc5 0xf0 = 0xd0) ∧
  Forall (λ d, 0 ≤ d < 0x80) [0x01; 0x02] ∧
  ∃ p',
    exec (PushBytes (0xc5 :: [0x01; 0x02])) (new 0 0 0) =
      Some (p',
            (if running_status_ (new 0 0 0) =? 0xf0
             then [SysExEnd] else []) ++
            ((λ d, if Z.land 0xc5 0xf0 =? 0xc0
                   then ProgramChange (Z.land 0xc5 0x0f) d
                   else Aftertouch2 (Z.land 0xc5 0x0f) d) <$> [0x01; 0x02])) ∧
    running_status_ p' = 0xc5.
Proof.
  assert (is_uint8 0xc5) as HS by (unfold is_uint8; lia).
  assert (Forall (λ d, 0 ≤ d < 0x80) [0x01; 0x02]) as Hall
    by (repeat constructor; lia).
  split; [reflexivity|]. split; [exact HS|]. split; [by left|].
  split; [exact Hall|].
  exact (one_data_byte_running_status (new 0 0 0) 0xc5 [0x01; 0x02]
           eq_refl HS (or_introl eq_refl) Hall).
Defined.

(** X7: a status byte abandons the message in progress.  After a status
    byte [S] and the first of its two data bytes, a new status byte [S']
    makes no call for the unfinished message, then or later: the stream
    [S D1 S' D1' D2'] yields the one message [S' D1' D2'], and [D1] is
    dropped without a [BozoByte]. *)
Theorem status_byte_abandons_message p S D1 S' D1' D2' :
  length (data_ p) = 3%nat →
  0x80 ≤ S ≤ 0xef → Z.land S 0xf0 ≠ 0xc0 → Z.land S 0xf0 ≠ 0xd0 →
  0x80 ≤ S' ≤ 0xef → Z.land S' 0xf0 ≠ 0xc0 → Z.land S' 0xf0 ≠ 0xd0 →
  0 ≤ D1 < 0x80 → 0 ≤ D1' < 0x80 → 0 ≤ D2' < 0x80 →
  ∃ p',
    exec (PushBytes [S; D1; S'; D1'; D2']) p =
      Some (p',
            (if running_status_ p =? 0xf0 then [SysExEnd] else []) ++
            message S' D1' D2') ∧
    length (message S' D1' D2') = 1%nat ∧
    running_status_ p' = S'.
Proof.
  intros Hlen HS Hc Hd HS' Hc' Hd' H1 H1' H2'.
  destruct (data_ p) as [|a [|b [|c [|]]]] eqn:Hdata; try discriminate Hlen.
  assert (exec (PushByte D1) (mkParser S [a; b; c] 0 2) =
          Some (mkParser S [D1; b; c] 1 2, [])) as Hfirst.
  { apply exec_unit. rewrite PushByte_data by (cbn; lia). reflexivity. }
  destruct (PushBytes_voice2 (mkParser S [D1; b; c] 1 2) S' D1' D2'
              eq_refl HS' Hc' Hd' H1' H2') as (data' & Hrun & _).
  cbn [running_status_] in Hrun.
  destruct (Z.eqb_spec S 0xf0) as [|_]; [lia|]. cbn [app] in Hrun.
  exists (mkParser S' data' 0 2).
  split; [|split; [by apply message_voice2_single | reflexivity]].
  rewrite exec_PushBytes_cons, PushByte_voice2_status by done.
  rewrite Hdata, exec_PushBytes_cons, Hfirst, Hrun.
  by rewrite app_nil_l.
Qed.

Lemma status_byte_abandons_message_witness :
  length (data_ (new 0 0 0)) = 3%nat ∧
  0x80 ≤ 0x80 ≤ 0xef ∧ Z.land 0x80 0xf0 ≠ 0xc0 ∧ Z.land 0x80 0xf0 ≠ 0xd0 ∧
  0x80 ≤ 0xa1 ≤ 0xef ∧ Z.land 0xa1 0xf0 ≠ 0xc0 ∧ Z.land 0xa1 0xf0 ≠ 0xd0 ∧
  0 ≤ 0x40 < 0x80 ∧ 0 ≤ 0x3c < 0x80 ∧ 0 ≤ 0x10 < 0x80 ∧
  ∃ p',
    exec (PushBytes [0x80; 0x40; 0xa1; 0x3c; 0x10]) (new 0 0 0) =
      Some (p',
            (if running_status_ (new 0 0 0) =? 0xf0
             then [SysExEnd] else []) ++
            message 0xa1 0x3c 0x10) ∧
    length (message 0xa1 0x3c 0x10) = 1%nat ∧
    running_status_ p' = 0xa1.
Proof.
  split; [reflexivity|]. split; [lia|]. split; [discriminate|].
  split; [discriminate|]. split; [lia|]. split; [discriminate|].
  split; [discriminate|]. split; [lia|]. split; [lia|]. split; [lia|].
  exact (status_byte_abandons_message (new 0 0 0) 0x80 0x40 0xa1 0x3c 0x10
           eq_refl ltac:(lia) ltac:(discriminate) ltac:(discriminate)
           ltac:(lia) ltac:(discriminate) ltac:(discriminate)
           ltac:(lia) ltac:(lia) ltac:(lia)).
Defined.

(** *** More on the parser: system common messages *)

(** X8: system common messages are swallowed.  A status byte 0xF1 to 0xF6
    followed by the data bytes of its message (two for 0xF1 and 0xF2, one
    for 0xF3, none for 0xF4 to 0xF6) makes no call to the device at all,
    apart from the [SysExEnd] of a sysex run it closes; afterwards the
    parser is back in its initial state, with no running status. *)
Theorem system_common_is_silent p T data_bytes :
  length (data_ p) = 3%nat →
  0xf1 ≤ T ≤ 0xf6 →
  Forall (λ d, 0 ≤ d < 0x80) data_bytes →
  length data_bytes =
    (if T <=? 0xf2 then 2%nat else if T =? 0xf3 then 1%nat else 0%nat) →
  ∃ data',
    exec (PushBytes (T :: data_bytes)) p =
      Some (mkParser 0 data' 0 0,
            if running_status_ p =? 0xf0 then [SysExEnd] else []).
Proof.
  intros Hlen HT Hall Hcount.
  destruct (data_ p) as [|a [|b [|c [|]]]] eqn:Hdata; try discriminate Hlen.
  pose proof (PushByte_status T p ltac:(lia)) as Hstatus.
  rewrite Hdata in Hstatus. cbv zeta in Hstatus.
  unfold sysex_framing in Hstatus.
  destruct (Z.eqb_spec T 0xf0) as [|_]; [lia|].
  rewrite app_nil_r in Hstatus.
  rewrite exec_PushBytes_cons.
  assert (T = 0xf1 ∨ T = 0xf2 ∨ T = 0xf3 ∨ T = 0xf4 ∨ T = 0xf5 ∨ T = 0xf6)
    as Hcases by lia.
  destruct (Z.leb_spec T 0xf2) as [Hle|Hgt];
    [|destruct (Z.eqb_spec T 0xf3) as [Heq|Hne]].
  - (* 0xF1 and 0xF2: two data bytes *)
    destruct data_bytes as [|d0 [|d1 [|]]]; try discriminate Hcount.
    apply Forall_cons in Hall as [H0 Hall].
    apply Forall_cons in Hall as [H1 _].
    assert (expected_after T = 2) as Hexp
      by (destruct Hcases as [->|[->|?]]; [reflexivity..|lia]).
    rewrite Hexp in Hstatus. change (2 =? 0) with false in Hstatus.
    cbv iota in Hstatus. apply exec_unit in Hstatus.
    rewrite Hstatus, exec_PushBytes_cons.
    assert (exec (PushByte d0) (mkParser T [a; b; c] 0 2) =
            Some (mkParser T [d0; b; c] 1 2, [])) as ->.
    { apply exec_unit. rewrite PushByte_data by (cbn; lia). reflexivity. }
    assert (exec (PushBytes [d1]) (mkParser T [d0; b; c] 1 2) =
            Some (mkParser 0 [d0; d1; c] 0 0, [])) as ->.
    { rewrite exec_PushBytes_cons.
      assert (exec (PushByte d1) (mkParser T [d0; b; c] 1 2) =
              Some (mkParser 0 [d0; d1; c] 0 0, [])) as ->;
        [|by rewrite exec_PushBytes_nil].
      apply exec_unit. rewrite PushByte_data by (cbn; lia). cbv zeta.
      cbn [running_status_ data_ data_size_ expected_data_size_].
      change (2 <=? uint8 (1 + 1)) with true. cbv iota.
      destruct (Z.ltb_spec 0xf0 T); [|lia].
      destruct Hcases as [->|[->|?]]; [reflexivity..|lia]. }
    exists [d0; d1; c]. by rewrite !app_nil_r.
  - (* 0xF3: one data byte *)
    subst T. destruct data_bytes as [|d0 [|]]; try discriminate Hcount.
    apply Forall_cons in Hall as [H0 _].
    change (expected_after 0xf3) with 1 in Hstatus.
    change (1 =? 0) with false in Hstatus. cbv iota in Hstatus.
    apply exec_unit in Hstatus. rewrite Hstatus.
    rewrite exec_PushBytes_cons.
    assert (exec (PushByte d0) (mkParser 0xf3 [a; b; c] 0 1) =
            Some (mkParser 0 [d0; b; c] 0 0, [])) as ->.
    { apply exec_unit. rewrite PushByte_data by (cbn; lia). reflexivity. }
    rewrite exec_PushBytes_nil. exists [d0; b; c]. by rewrite !app_nil_r.
  - (* 0xF4 to 0xF6: no data byte *)
    destruct data_bytes; [|discriminate Hcount].
    exists [a; b; c].
    destruct Hcases as [-> | [-> | [-> | [-> | [-> | ->]]]]]; try lia;
      apply exec_unit in Hstatus;
      rewrite Hstatus, exec_PushBytes_nil; by rewrite !app_nil_r.
Qed.

Lemma system_common_is_silent_witness :
  length (data_ (mkParser 0xf0 [0; 0; 0] 0 1)) = 3%nat ∧
  0xf1 ≤ 0xf2 ≤ 0xf6 ∧
  Forall (λ d, 0 ≤ d < 0x80) [0x10; 0x20] ∧
  length [0x10; 0x20] =
    (if 0xf2 <=? 0xf2 then 2%nat
     else if 0xf2 =? 0xf3 then 1%nat else 0%nat) ∧
  ∃ data',
    exec (PushBytes (0xf2 :: [0x10; 0x20])) (mkParser 0xf0 [0; 0; 0] 0 1) =
      Some (mkParser 0 data' 0 0,
            if running_status_ (mkParser 0xf0 [0; 0; 0] 0 1) =? 0xf0
            then [SysExEnd] else []).
Proof.
  assert (Forall (λ d, 0 ≤ d < 0x80) [0x10; 0x20]) as Hall
    by (repeat constructor; lia).
  split; [reflexivity|]. split; [lia|]. split; [exact Hall|].
  split; [reflexivity|].
  exact (system_common_is_silent (mkParser 0xf0 [0; 0; 0] 0 1) 0xf2
           [0x10; 0x20] eq_refl ltac:(lia) Hall eq_refl).
Defined.

End MidiProperties.

Module LcdProperties.
Import Lcd.

Ltac display_simpl :=
  cbv [set_local_ set_remote_ set_scan_position_ set_scan_position_last_write_
       set_blink_ set_blink_clock_ set_cursor_position_ set_status_
       local_ remote_ scan_position_ scan_position_last_write_ blink_
       blink_clock_ cursor_position_ status_].

Lemma bind_Some {St Out A B} (m : Exec St Out A) (f : A → Exec St Out B)
    s a s1 o1 :
  m s = Some (a, s1, o1) →
  (m ≫= f) s =
    match f a s1 with
    | Some (b, s2, o2) => Some (b, s2, o1 ++ o2)
    | None => None
    end.
Proof. intros H. unfold mbind, Exec_bind, exec_bind. by rewrite H. Qed.

Lemma load_Some {St Out} (arr : St → list Z) i v (s : St) :
  0 ≤ i → arr s !! Z.to_nat i = Some v →
  load (Out:=Out) arr i s = Some (v, s, []).
Proof.
  intros Hi Hv. unfold load. destruct (Z.leb_spec 0 i); [|lia]. by rewrite Hv.
Qed.

Lemma load_cases {St Out} (arr : St → list Z) i (s : St) :
  (∃ v, load (Out:=Out) arr i s = Some (v, s, [])) ∨
  load (Out:=Out) arr i s = None.
Proof.
  unfold load. destruct (0 <=? i); [|by right].
  destruct (arr s !! Z.to_nat i) as [v|]; [left; by exists v | by right].
Qed.

Lemma store_Some {St Out} (arr : St → list Z) set_arr i v (s : St) :
  0 ≤ i < Z.of_nat (length (arr s)) →
  store (Out:=Out) arr set_arr i v s =
    Some (tt, set_arr (<[Z.to_nat i := v]> (arr s)) s, []).
Proof.
  intros Hi. unfold store.
  destruct (Z.leb_spec 0 i); [|lia].
  destruct (Z.ltb_spec i (Z.of_nat (length (arr s)))); [done|lia].
Qed.

(** *** The transport guard *)

Lemma Update_guard d writable :
  writable < 3 → exec (Update writable) d = Some (d, []).
Proof.
  intros Hw. unfold Update. by destruct (Z.ltb_spec writable 3); [|lia].
Qed.

(** C7: with fewer than three bytes writable, [Update] makes no call to
    the transport and leaves every member of the display as it was,
    whatever the two pages hold. *)
Theorem Update_without_room d writable :
  writable < 3 →
  exec (Update writable) d = Some (d, []).
Proof.
  intros Hw. unfold Update.
  destruct (Z.ltb_spec writable 3) as [_|Hroom]; [reflexivity | lia].
Qed.

Lemma Update_without_room_witness :
  2 < 3 ∧
  exec (Update 2)
    (mkDisplay (replicate 32 65) (replicate 32 63) 0 255 0 0 255 0) =
  Some (mkDisplay (replicate 32 65) (replicate 32 63) 0 255 0 0 255 0, []).
Proof.
  split; [lia|].
  apply (Update_without_room
           (mkDisplay (replicate 32 65) (replicate 32 63) 0 255 0 0 255 0) 2).
  lia.
Defined.

(** *** One tick *)

(** [advance_blink_clock] only touches the blink clock, the blink phase
    and the status. *)
Lemma advance_blink_clock_spec d :
  ∃ blink blink_clock status,
    advance_blink_clock d =
      Some (tt, set_status_ status (set_blink_ blink
                  (set_blink_clock_ blink_clock d)), []) ∧
    (status = status_ d ∨ status = 0).
Proof.
  unfold advance_blink_clock. exec_unfold. display_simpl.
  destruct d as [l r sp lw b bc cp st].
  destruct (_ =? 0); cbv beta iota; eexists _, _, _; (split; [reflexivity|]);
    auto.
Qed.

Lemma land_width scan_position :
  Z.land scan_position (width - 1) = scan_position mod width.
Proof. change (width - 1) with (Z.ones 4). by rewrite Z.land_ones. Qed.

(** The argument of the cursor move command: bit 7, the row in bit 6, the
    column in bits 0 to 3. *)
Lemma cursor_move_argument_spec scan_position :
  0 ≤ scan_position < lcd_buffer_size →
  cursor_move_argument scan_position =
    0x80 + 64 * (scan_position / width) + scan_position mod width ∧
  Z.testbit (cursor_move_argument scan_position) 7 = true.
Proof.
  intros Hs.
  pose proof (uint8_forallb
    (λ s, (lcd_buffer_size <=? s) ||
          ((cursor_move_argument s =? 0x80 + 64 * (s / width) + s mod width)
           && Z.testbit (cursor_move_argument s) 7))
    eq_refl scan_position) as H.
  unfold lcd_buffer_size, width, height, is_uint8 in *.
  specialize (H ltac:(lia)).
  apply orb_true_iff in H as [H|H]; [lia|].
  apply andb_true_iff in H as [H1 H2]. split; [lia | exact H2].
Qed.

(** [resolve_character] reads, and does nothing else. *)
Lemma resolve_character_pure d :
  resolve_character d =
    match resolved d with
    | Some character => Some (character, d, [])
    | None => None
    end.
Proof.
  destruct (load_cases (Out:=SerialCall) local_ (scan_position_ d) d)
    as [[c Hload]|Hload];
    unfold resolved, resolve_character; exec_unfold;
    repeat (first [rewrite Hload | exec_case]; cbv beta iota;
            try reflexivity).
Qed.

Lemma resolved_is_Some d : display_ok d → is_Some (resolved d).
Proof.
  intros (Hl & _ & Hs).
  destruct (lookup_lt_is_Some_2 (local_ d) (Z.to_nat (scan_position_ d)))
    as [c Hc]; [lia|].
  pose proof (load_Some (Out:=SerialCall) local_ (scan_position_ d) c d
                ltac:(lia) Hc) as Hload.
  unfold resolved, resolve_character. exec_unfold.
  repeat (first [rewrite Hload | exec_case]; cbv beta iota; try done).
Qed.

(** What [advance_blink_clock] leaves alone. *)
Lemma advance_blink_clock_frame d d1 out :
  advance_blink_clock d = Some (tt, d1, out) →
  out = [] ∧ local_ d1 = local_ d ∧ remote_ d1 = remote_ d ∧
  scan_position_ d1 = scan_position_ d ∧
  scan_position_last_write_ d1 = scan_position_last_write_ d ∧
  cursor_position_ d1 = cursor_position_ d ∧
  (status_ d1 = status_ d ∨ status_ d1 = 0).
Proof.
  destruct (advance_blink_clock_spec d) as (b & bc & st & -> & Hst).
  intros [= <- <-]. destruct d. by cbn.
Qed.

Lemma advance_blink_clock_total d :
  ∃ d1, advance_blink_clock d = Some (tt, d1, []).
Proof.
  destruct (advance_blink_clock_spec d) as (b & bc & st & H & _). eauto.
Qed.

(** What [advance_blink_clock] does to the clock, the phase and the
    status. *)
Lemma advance_blink_clock_exact d d1 out :
  advance_blink_clock d = Some (tt, d1, out) →
  blink_clock_ d1 = uint8 (Z.land (blink_clock_ d + 1) kLcdCursorBlinkRate) ∧
  (if blink_clock_ d1 =? 0
   then blink_ d1 = uint8 (Z.lnot (blink_ d)) ∧ status_ d1 = 0
   else blink_ d1 = blink_ d ∧ status_ d1 = status_ d).
Proof.
  unfold advance_blink_clock. exec_unfold. display_simpl.
  destruct d as [l r sp lw b bc cp st].
  destruct (uint8 (Z.land (bc + 1) kLcdCursorBlinkRate) =? 0) eqn:Hwrap;
    cbv beta iota; intros [= <- <-]; cbn; by rewrite Hwrap.
Qed.

(** [transmit] on a scan position inside of [remote_]. *)
Lemma transmit_spec d character remote :
  0 ≤ scan_position_ d →
  remote_ d !! Z.to_nat (scan_position_ d) = Some remote →
  transmit character d =
    if negb (character =? remote)
       || (scan_position_ d =? cursor_position_ d)
    then
      Some (tt,
            set_scan_position_last_write_ (scan_position_ d)
              (set_remote_
                 (<[Z.to_nat (scan_position_ d) := character]> (remote_ d))
                 d),
            if (scan_position_ d =? scan_position_last_write_ d + 1)
               && nonzero (Z.land (scan_position_ d) (width - 1))
            then [Overwrite character]
            else [Overwrite 0xfe;
                  Overwrite (cursor_move_argument (scan_position_ d));
                  Overwrite character])
    else Some (tt, d, []).
Proof.
  intros Hs Hr.
  pose proof (load_Some (Out:=SerialCall) remote_ _ _ d Hs Hr) as Hload.
  pose proof (lookup_lt_Some _ _ _ Hr) as Hlt.
  pose proof (store_Some (Out:=SerialCall) remote_ set_remote_
                (scan_position_ d) character d ltac:(lia)) as Hstore.
  unfold transmit. exec_unfold. rewrite Hload. cbv beta iota.
  destruct (negb (character =? remote)
            || (scan_position_ d =? cursor_position_ d)); [|reflexivity].
  destruct ((scan_position_ d =? scan_position_last_write_ d + 1)
            && nonzero (Z.land (scan_position_ d) (width - 1)));
    cbv beta iota; rewrite Hstore; reflexivity.
Qed.

(** One [Update] with room in the transport, in terms of its parts. *)
Lemma Update_step d writable d1 character :
  3 ≤ writable →
  advance_blink_clock d = Some (tt, d1, []) →
  resolved d1 = Some character →
  exec (Update writable) d =
    match transmit character d1 with
    | Some (_, d2, out) =>
        Some (set_scan_position_
                (uint8 (Z.land (scan_position_ d2 + 1) lcd_buffer_size_wrap))
                d2, out)
    | None => None
    end.
Proof.
  intros Hw Hblink Hres. unfold Update, exec.
  destruct (Z.ltb_spec writable 3); [lia|].
  rewrite (bind_Some _ _ _ _ _ _ Hblink).
  pose proof (resolve_character_pure d1) as Hpure. rewrite Hres in Hpure.
  rewrite (bind_Some _ _ _ _ _ _ Hpure).
  exec_unfold.
  destruct (transmit character d1) as [[[[] d2] out]|]; [|reflexivity].
  by rewrite app_nil_r.
Qed.

(** *** Transmitting a cell *)

(** C8: when the character resolved for the scan position differs from
    the one of the remote page, or the scan position is the cursor
    position, [Update] (with room in the transport) writes exactly the
    character if the last write was at the position just before and the
    scan position does not start a row; otherwise it writes exactly three
    bytes: 0xFE, the address [0x80 + 64 * row + column], whose bit 7 is
    set, and the character.  Afterwards the remote page holds the
    character at that position, which is recorded as the last write. *)
Theorem Update_transmits d writable d1 character remote :
  display_ok d →
  3 ≤ writable →
  advance_blink_clock d = Some (tt, d1, []) →
  resolved d1 = Some character →
  remote_ d !! Z.to_nat (scan_position_ d) = Some remote →
  character ≠ remote ∨ scan_position_ d = cursor_position_ d →
  let scan_position := scan_position_ d in
  let address :=
    0x80 + 64 * (scan_position / width) + scan_position mod width in
  ∃ d',
    exec (Update writable) d =
      Some (d',
            if bool_decide (scan_position = scan_position_last_write_ d + 1
                            ∧ scan_position mod width ≠ 0)
            then [Overwrite character]
            else [Overwrite 0xfe; Overwrite address; Overwrite character]) ∧
    Z.testbit address 7 = true ∧
    remote_ d' !! Z.to_nat scan_position = Some character ∧
    scan_position_last_write_ d' = scan_position.
Proof.
  intros (Hl & Hr & Hs) Hw Hblink Hres Hremote Hneed scan_position address.
  destruct (advance_blink_clock_frame _ _ _ Hblink)
    as (_ & Hl1 & Hr1 & Hs1 & Hlw1 & Hc1 & _).
  destruct (cursor_move_argument_spec scan_position Hs) as [Harg Hbit].
  rewrite (Update_step d writable d1 character Hw Hblink Hres).
  rewrite (transmit_spec d1 character remote)
    by (rewrite ?Hr1, ?Hs1; (lia || done)).
  rewrite Hs1, Hlw1, Hc1, Hr1. fold scan_position.
  assert (negb (character =? remote)
          || (scan_position =? cursor_position_ d) = true) as ->.
  { apply orb_true_iff. destruct Hneed as [Hne|Heq].
    - left. apply negb_true_iff. by apply Z.eqb_neq.
    - right. by apply Z.eqb_eq. }
  eexists. split; [|split; [unfold address; by rewrite <- Harg|split]].
  - f_equal. f_equal. rewrite land_width, Harg. fold address. unfold nonzero.
    case_bool_decide as Hadj.
    + destruct Hadj as [Heq Hrow].
      rewrite <- Heq, Z.eqb_refl.
      by destruct (Z.eqb_spec (scan_position mod width) 0).
    + destruct (Z.eqb_spec scan_position (scan_position_last_write_ d + 1));
        [|done].
      destruct (Z.eqb_spec (scan_position mod width) 0); [done|].
      exfalso. by apply Hadj.
  - cbn. apply list_lookup_insert_eq.
    unfold lcd_buffer_size, width, height in *. lia.
  - reflexivity.
Qed.

Lemma Update_transmits_witness :
  display_ok (mkDisplay (replicate 32 65) (replicate 32 63) 5 4 0 0 255 0) ∧
  3 ≤ 8 ∧
  advance_blink_clock
    (mkDisplay (replicate 32 65) (replicate 32 63) 5 4 0 0 255 0) =
    Some (tt, mkDisplay (replicate 32 65) (replicate 32 63) 5 4 0 1 255 0,
          []) ∧
  resolved (mkDisplay (replicate 32 65) (replicate 32 63) 5 4 0 1 255 0) =
    Some 65 ∧
  replicate 32 63 !! Z.to_nat 5 = Some 63 ∧
  (65 ≠ 63 ∨ 5 = 255) ∧
  ∃ d',
    exec (Update 8)
      (mkDisplay (replicate 32 65) (replicate 32 63) 5 4 0 0 255 0) =
      Some (d',
            if bool_decide (5 = 4 + 1 ∧ 5 mod width ≠ 0)
            then [Overwrite 65]
            else [Overwrite 0xfe;
                  Overwrite (0x80 + 64 * (5 / width) + 5 mod width);
                  Overwrite 65]) ∧
    Z.testbit (0x80 + 64 * (5 / width) + 5 mod width) 7 = true ∧
    remote_ d' !! Z.to_nat 5 = Some 65 ∧
    scan_position_last_write_ d' = 5.
Proof.
  assert (display_ok
            (mkDisplay (replicate 32 65) (replicate 32 63) 5 4 0 0 255 0))
    as Hok
    by (unfold display_ok, lcd_buffer_size, width, height; cbn;
        repeat split; (reflexivity || lia)).
  assert (65 ≠ 63 ∨ 5 = 255) as Hneed by (left; lia).
  split; [exact Hok|]. split; [lia|]. split; [reflexivity|].
  split; [reflexivity|]. split; [reflexivity|]. split; [exact Hneed|].
  exact (Update_transmits
           (mkDisplay (replicate 32 65) (replicate 32 63) 5 4 0 0 255 0) 8
           (mkDisplay (replicate 32 65) (replicate 32 63) 5 4 0 1 255 0)
           65 63 Hok ltac:(lia) eq_refl eq_refl eq_refl Hneed).
Defined.

(** The first tick after [Init]: the three-byte form, at row 0, column 0. *)
Example Update_after_Init :
  exec (Init 9600;; Update 8) zero_initialized =
  Some (mkDisplay (replicate 32 32) (32 :: replicate 31 63) 1 0 0 1 255 0,
        [SerialInit; Overwrite 0xfe; Overwrite 0x80; Overwrite 32]).
Proof. reflexivity. Qed.

(** The start of the second row: the three-byte form again, although the
    last write was at the position just before. *)
Example Update_row_start :
  exec (Update 8)
    (mkDisplay (replicate 32 65) (replicate 32 63) 16 15 0 0 255 0) =
  Some (mkDisplay (replicate 32 65)
          (replicate 16 63 ++ 65 :: replicate 15 63) 17 16 0 1 255 0,
        [Overwrite 0xfe; Overwrite 0xc0; Overwrite 65]).
Proof. reflexivity. Qed.

(** *** Writing a row *)

Lemma set_local_id d : set_local_ (local_ d) d = d.
Proof. by destruct d. Qed.

(** [Print_loop] only writes [local_], at [destination] and after, and
    writing the same text again changes nothing. *)
Lemma Print_loop_again text : ∀ row destination d d' out,
  Print_loop text row destination d = Some (tt, d', out) →
  out = [] ∧
  d' = set_local_ (local_ d') d ∧
  length (local_ d') = length (local_ d) ∧
  (∀ k, (k < Z.to_nat destination)%nat → local_ d' !! k = local_ d !! k) ∧
  ∀ e, local_ e = local_ d' →
       Print_loop text row destination e = Some (tt, e, []).
Proof.
  induction text as [|character text IH]; intros row destination d d' out.
  { cbn. intros [= <- <-]. by rewrite set_local_id. }
  cbn [Print_loop].
  destruct (nonzero character && nonzero row).
  2: { intros [= <- <-]. by rewrite set_local_id. }
  set (v := if (character =? 124) || (character =? 254)
               || ((8 <=? character) && (character <? 32))
            then 32 else character).
  assert ((if (character =? 124) || (character =? 254)
              || ((8 <=? character) && (character <? 32))
           then store local_ set_local_ destination 32
           else store local_ set_local_ destination character) =
          store (Out:=SerialCall) local_ set_local_ destination v) as ->
    by (unfold v; by destruct (_ || _)).
  exec_unfold. unfold store at 1.
  destruct (Z.leb_spec 0 destination); [|done].
  destruct (Z.ltb_spec destination (Z.of_nat (length (local_ d)))); [|done].
  cbn [andb]. cbv beta iota.
  destruct (Print_loop text (uint8 (row - 1)) (destination + 1)
              (set_local_ (<[Z.to_nat destination := v]> (local_ d)) d))
    as [[[[] d2] out2]|] eqn:Hrest; [|done].
  intros [= <- <-].
  destruct (IH _ _ _ _ _ Hrest) as (-> & Hd2 & Hlen & Hbefore & Hagain).
  assert (local_ d2 !! Z.to_nat destination = Some v) as Hv.
  { rewrite Hbefore by lia. destruct d; cbn in *.
    apply list_lookup_insert_eq. lia. }
  split; [done|]. split.
  { rewrite Hd2 at 1. by destruct d. }
  split.
  { rewrite Hlen. destruct d; cbn. by rewrite length_insert. }
  split.
  { intros k Hk. rewrite Hbefore by lia. destruct d; cbn in *.
    apply list_lookup_insert_ne. lia. }
  intros e He.
  rewrite store_Some
    by (rewrite He, Hlen; destruct d; cbn in *; rewrite length_insert; lia).
  rewrite He, (list_insert_id _ _ _ Hv), <- He, set_local_id.
  by rewrite (Hagain e He).
Qed.

Lemma Print_again line text d d' out e :
  exec (Print line text) d = Some (d', out) →
  local_ e = local_ d' →
  exec (Print line text) e = Some (e, []).
Proof.
  intros Hfirst He. apply exec_unit in Hfirst. apply exec_unit.
  unfold Print in *.
  by destruct (Print_loop_again _ _ _ _ _ _ Hfirst) as (_ & _ & _ & _ & ->).
Qed.

(** *** A converged display *)

(** A boolean property checked on every position holds of every
    position of the display. *)
Lemma cells_forallb (f : Z → bool) :
  forallb f (seqZ 0 lcd_buffer_size) = true →
  ∀ i, 0 ≤ i < lcd_buffer_size → f i = true.
Proof.
  intros Hall i Hi. rewrite forallb_forall in Hall. apply Hall.
  apply list_elem_of_In, elem_of_seqZ. lia.
Qed.

Lemma converged_check d :
  forallb (λ i, bool_decide (is_Some (remote_ d !! Z.to_nat i)) &&
                bool_decide (resolved (set_scan_position_ i d) =
                             remote_ d !! Z.to_nat i))
    (seqZ 0 lcd_buffer_size) = true →
  converged d.
Proof.
  intros Hall i Hi. pose proof (cells_forallb _ Hall i Hi) as H.
  apply andb_true_iff in H as [H1 H2].
  split; [by apply bool_decide_eq_true in H1 |
          by apply bool_decide_eq_true in H2].
Qed.

(** C9, as stated, does not hold.  With the cursor set at position 3,
    write "Hello" and let a full pass of 32 ticks run: the remote page
    then shows exactly the resolved content.  Write "Hello" again: the
    second full pass still transmits three bytes, for the cursor cell. *)
Lemma cursor_cell_redrawn_every_pass :
  fst <$> exec (Init 9600;; set_cursor_position 3;; Print 0 hello;;
                Updates (replicate 32 8)) zero_initialized =
    Some (mkDisplay hello_page hello_page 0 31 0 32 3 0) ∧
  converged (mkDisplay hello_page hello_page 0 31 0 32 3 0) ∧
  exec (Print 0 hello;; Updates (replicate 32 8))
    (mkDisplay hello_page hello_page 0 31 0 32 3 0) =
    Some (mkDisplay hello_page hello_page 0 3 0 64 3 0,
          [Overwrite 0xfe; Overwrite 0x83; Overwrite 108]).
Proof.
  split; [reflexivity|]. split; [|reflexivity].
  apply converged_check. reflexivity.
Qed.

(** A pending status is a second reason: it expires when the blink clock
    wraps, and its two cells are then drawn again from the local page. *)
Example status_expiry_redraws :
  converged (mkDisplay (replicate 32 32)
               (65 :: replicate 14 32 ++ 65 :: replicate 16 32)
               0 31 0 127 255 66) ∧
  exec (Update 8)
    (mkDisplay (replicate 32 32)
       (65 :: replicate 14 32 ++ 65 :: replicate 16 32) 0 31 0 127 255 66) =
  Some (mkDisplay (replicate 32 32)
          (replicate 15 32 ++ 65 :: replicate 16 32) 1 0 255 0 255 0,
        [Overwrite 0xfe; Overwrite 0x80; Overwrite 32]).
Proof.
  split; [|reflexivity]. apply converged_check. reflexivity.
Qed.

(** Without cursor and status: [Init], write "Hello", a full pass, write
    "Hello" again, a second full pass, which transmits nothing. *)
Example second_pass_after_Init :
  fst <$> exec (Init 9600;; Print 0 hello;; Updates (replicate 32 8))
            zero_initialized =
    Some (mkDisplay hello_page hello_page 0 31 0 32 255 0) ∧
  exec (Print 0 hello;; Updates (replicate 32 8))
    (mkDisplay hello_page hello_page 0 31 0 32 255 0) =
    Some (mkDisplay hello_page hello_page 0 31 0 64 255 0, []).
Proof. split; reflexivity. Qed.

Lemma next_scan_position_range scan_position :
  0 ≤ uint8 (Z.land (scan_position + 1) lcd_buffer_size_wrap)
    < lcd_buffer_size.
Proof.
  change lcd_buffer_size_wrap with (Z.ones 5).
  rewrite Z.land_ones by lia.
  pose proof (Z.mod_pos_bound (scan_position + 1) (2 ^ 5) ltac:(lia)) as H.
  rewrite uint8_id by (unfold is_uint8; lia).
  unfold lcd_buffer_size, width, height. lia.
Qed.

Lemma Update_quiet d writable :
  quiet d →
  ∃ d',
    exec (Update writable) d = Some (d', []) ∧ quiet d' ∧
    local_ d' = local_ d ∧
    scan_position_last_write_ d' = scan_position_last_write_ d.
Proof.
  intros (Hok & Hrl & Hst & Hcur).
  destruct (Z.lt_ge_cases writable 3) as [Hw|Hw].
  { exists d. by rewrite Update_guard. }
  destruct Hok as (Hl & Hr & Hs).
  destruct (advance_blink_clock_total d) as [d1 Hblink].
  destruct (advance_blink_clock_frame _ _ _ Hblink)
    as (_ & Hl1 & Hr1 & Hs1 & Hlw1 & Hc1 & Hst1).
  assert (status_ d1 = 0) as Hst0 by (destruct Hst1; congruence).
  destruct (lookup_lt_is_Some_2 (local_ d) (Z.to_nat (scan_position_ d)))
    as [c Hc]; [lia|].
  assert (resolved d1 = Some c) as Hres.
  { pose proof (load_Some (Out:=SerialCall) local_ (scan_position_ d1) c d1)
      as Hload.
    rewrite Hs1, Hl1 in Hload. specialize (Hload ltac:(lia) Hc).
    unfold resolved, resolve_character. exec_unfold.
    rewrite Hs1, Hc1.
    destruct (Z.eqb_spec (scan_position_ d) (cursor_position_ d)); [lia|].
    cbn [andb]. cbv beta iota. rewrite Hst0.
    change (nonzero 0) with false. cbn [andb]. cbv beta iota.
    by rewrite Hload. }
  rewrite (Update_step d writable d1 c Hw Hblink Hres).
  rewrite (transmit_spec d1 c c)
    by (rewrite ?Hr1, ?Hs1, ?Hrl; (lia || done)).
  rewrite Z.eqb_refl, Hs1, Hc1.
  destruct (Z.eqb_spec (scan_position_ d) (cursor_position_ d)); [lia|].
  cbn [negb orb]. eexists. split; [reflexivity|].
  pose proof (next_scan_position_range (scan_position_ d)) as Hnext.
  unfold quiet, display_ok. destruct d1; cbn in *. subst.
  rewrite Hl, Hr. repeat split; (done || lia).
Qed.

Lemma Updates_quiet writables : ∀ d,
  quiet d →
  ∃ d',
    exec (Updates writables) d = Some (d', []) ∧ quiet d' ∧
    local_ d' = local_ d ∧
    scan_position_last_write_ d' = scan_position_last_write_ d.
Proof.
  induction writables as [|writable writables IH]; intros d Hq.
  { by exists d. }
  destruct (Update_quiet d writable Hq) as (d1 & Hstep & Hq1 & Hl1 & Hlw1).
  destruct (IH d1 Hq1) as (d2 & Hrest & Hq2 & Hl2 & Hlw2).
  exists d2. split; [|split; [done|split; congruence]].
  apply exec_unit in Hstep, Hrest. apply exec_unit.
  cbn [Updates]. rewrite (bind_Some _ _ _ _ _ _ Hstep). by rewrite Hrest.
Qed.

Lemma converged_display_quiet_aux d0 d1 out1 d line text writables :
  exec (Print line text) d0 = Some (d1, out1) →
  local_ d = local_ d1 →
  display_ok d →
  remote_ d = local_ d →
  status_ d = 0 →
  ¬ (0 ≤ cursor_position_ d < lcd_buffer_size) →
  ∃ d',
    exec (Print line text;; Updates writables) d = Some (d', []) ∧
    local_ d' = local_ d ∧
    remote_ d' = remote_ d ∧
    scan_position_last_write_ d' = scan_position_last_write_ d.
Proof.
  intros Hfirst Hlocal Hok Hrl Hst Hcur.
  pose proof (Print_again line text d0 d1 out1 d Hfirst Hlocal) as Hprint.
  destruct (Updates_quiet writables d) as (d' & Hrun & Hq' & Hl' & Hlw');
    [done|].
  exists d'. destruct Hq' as (_ & Hrl' & _).
  split; [|split; [done|split; congruence]].
  apply exec_unit in Hprint, Hrun. apply exec_unit.
  rewrite (bind_Some _ _ _ _ _ _ Hprint). by rewrite Hrun.
Qed.

(** One [Update] on a display with nothing left to transmit: where the
    scan position and the blink clock go. *)
Lemma Update_quiet_advance d writable :
  quiet d →
  ∃ d',
    exec (Update writable) d = Some (d', []) ∧ quiet d' ∧
    local_ d' = local_ d ∧
    scan_position_last_write_ d' = scan_position_last_write_ d ∧
    scan_position_ d' =
      (if writable <? 3 then scan_position_ d
       else (scan_position_ d + 1) mod lcd_buffer_size) ∧
    blink_clock_ d' =
      (if writable <? 3 then blink_clock_ d
       else (blink_clock_ d + 1) mod 128).
Proof.
  intros Hq. pose proof Hq as (Hok & Hrl & Hst & Hcur).
  destruct (Z.ltb_spec writable 3) as [Hw|Hw].
  { exists d. by rewrite Update_guard. }
  destruct Hok as (Hl & Hr & Hs).
  destruct (advance_blink_clock_total d) as [d1 Hblink].
  destruct (advance_blink_clock_frame _ _ _ Hblink)
    as (_ & Hl1 & Hr1 & Hs1 & Hlw1 & Hc1 & Hst1).
  destruct (advance_blink_clock_exact _ _ _ Hblink) as [Hclock _].
  assert (blink_clock_ d1 = (blink_clock_ d + 1) mod 128) as Hmod.
  { rewrite Hclock. change kLcdCursorBlinkRate with (Z.ones 7).
    rewrite Z.land_ones by lia.
    pose proof (Z.mod_pos_bound (blink_clock_ d + 1) (2 ^ 7) ltac:(lia)).
    rewrite uint8_id by (unfold is_uint8; lia). reflexivity. }
  assert (uint8 (Z.land (scan_position_ d + 1) lcd_buffer_size_wrap) =
          (scan_position_ d + 1) mod lcd_buffer_size) as Hnext.
  { change lcd_buffer_size_wrap with (Z.ones 5).
    rewrite Z.land_ones by lia.
    pose proof (Z.mod_pos_bound (scan_position_ d + 1) (2 ^ 5) ltac:(lia)).
    rewrite uint8_id by (unfold is_uint8; lia). reflexivity. }
  pose proof (Z.mod_pos_bound (scan_position_ d + 1) lcd_buffer_size
                ltac:(done)) as Hrange.
  assert (status_ d1 = 0) as Hst0 by (destruct Hst1; congruence).
  destruct (lookup_lt_is_Some_2 (local_ d) (Z.to_nat (scan_position_ d)))
    as [c Hc]; [lia|].
  assert (resolved d1 = Some c) as Hres.
  { pose proof (load_Some (Out:=SerialCall) local_ (scan_position_ d1) c d1)
      as Hload.
    rewrite Hs1, Hl1 in Hload. specialize (Hload ltac:(lia) Hc).
    unfold resolved, resolve_character. exec_unfold.
    rewrite Hs1, Hc1.
    destruct (Z.eqb_spec (scan_position_ d) (cursor_position_ d)); [lia|].
    cbn [andb]. cbv beta iota. rewrite Hst0.
    change (nonzero 0) with false. cbn [andb]. cbv beta iota.
    by rewrite Hload. }
  rewrite (Update_step d writable d1 c Hw Hblink Hres).
  rewrite (transmit_spec d1 c c)
    by (rewrite ?Hr1, ?Hs1, ?Hrl; (lia || done)).
  rewrite Z.eqb_refl, Hs1, Hc1.
  destruct (Z.eqb_spec (scan_position_ d) (cursor_position_ d)); [lia|].
  cbn [negb orb]. eexists. split; [reflexivity|].
  unfold quiet, display_ok. destruct d1; cbn in *. subst.
  rewrite Hnext, Hl, Hr. repeat split; (done || lia).
Qed.

(** Any number of ticks on a display with nothing left to transmit: the
    scan position and the blink clock advance by one for each tick that
    finds room, and by nothing for the others. *)
Lemma Updates_quiet_advance writables : ∀ d,
  quiet d →
  ∃ d',
    exec (Updates writables) d = Some (d', []) ∧ quiet d' ∧
    local_ d' = local_ d ∧
    scan_position_last_write_ d' = scan_position_last_write_ d ∧
    scan_position_ d' =
      (scan_position_ d + ticks_with_room writables) mod lcd_buffer_size ∧
    blink_clock_ d' =
      (if ticks_with_room writables =? 0 then blink_clock_ d
       else (blink_clock_ d + ticks_with_room writables) mod 128).
Proof.
  induction writables as [|writable writables IH]; intros d Hq.
  { exists d. pose proof Hq as ((_ & _ & Hs) & _).
    do 4 (split; [done|]). split; [|done].
    change (ticks_with_room []) with 0.
    by rewrite Z.add_0_r, Z.mod_small. }
  destruct (Update_quiet_advance d writable Hq)
    as (d1 & Hstep & Hq1 & Hl1 & Hlw1 & Hs1 & Hb1).
  destruct (IH d1 Hq1) as (d2 & Hrest & Hq2 & Hl2 & Hlw2 & Hs2 & Hb2).
  exists d2. split.
  { apply exec_unit in Hstep, Hrest. apply exec_unit.
    cbn [Updates]. rewrite (bind_Some _ _ _ _ _ _ Hstep). by rewrite Hrest. }
  split; [done|]. split; [congruence|]. split; [congruence|].
  pose proof Hq as ((_ & _ & Hs) & _).
  assert (0 ≤ ticks_with_room writables) as Hn
    by (unfold ticks_with_room; lia).
  assert (ticks_with_room (writable :: writables) =
          (if writable <? 3 then 0 else 1) + ticks_with_room writables)
    as ->.
  { unfold ticks_with_room. rewrite filter_cons.
    destruct (Z.ltb_spec writable 3); case_decide; try lia;
      cbn [length]; lia. }
  rewrite Hs2, Hb2, Hs1, Hb1.
  destruct (Z.ltb_spec writable 3) as [Hw|Hw].
  { by rewrite !Z.add_0_l. }
  split.
  - rewrite Zplus_mod_idemp_l. f_equal. lia.
  - destruct (Z.eqb_spec (ticks_with_room writables) 0) as [H0|H0].
    + by rewrite H0.
    + destruct (Z.eqb_spec (1 + ticks_with_room writables) 0); [lia|].
      rewrite Zplus_mod_idemp_l. f_equal. lia.
Qed.

(** C9, amended: once the remote page equals the local page, with no
    status pending and the cursor outside of the display, writing again a
    text that was written before and then running [Update] any number of
    times, whatever the room in the transport, makes no call to the
    transport and leaves both pages and the position of the last write as
    they were.  The scan position and the blink clock advance by one,
    modulo 32 and modulo 128, for each tick that finds room, and stay
    where they are on a tick that does not. *)
Theorem converged_display_is_quiet d0 d1 out1 d line text writables :
  exec (Print line text) d0 = Some (d1, out1) →
  local_ d = local_ d1 →
  display_ok d →
  remote_ d = local_ d →
  status_ d = 0 →
  ¬ (0 ≤ cursor_position_ d < lcd_buffer_size) →
  ∃ d',
    exec (Print line text;; Updates writables) d = Some (d', []) ∧
    local_ d' = local_ d ∧
    remote_ d' = remote_ d ∧
    scan_position_last_write_ d' = scan_position_last_write_ d ∧
    scan_position_ d' =
      (scan_position_ d + ticks_with_room writables) mod lcd_buffer_size ∧
    blink_clock_ d' =
      (if ticks_with_room writables =? 0 then blink_clock_ d
       else (blink_clock_ d + ticks_with_room writables) mod 128).
Proof.
  intros Hfirst Hlocal Hok Hrl Hst Hcur.
  pose proof (Print_again line text d0 d1 out1 d Hfirst Hlocal) as Hprint.
  assert (quiet d) as Hquiet by done.
  destruct (Updates_quiet_advance writables d Hquiet)
    as (d' & Hrun & (_ & Hrl' & _) & Hl' & Hlw' & Hs' & Hb').
  exists d'. split.
  - apply exec_unit in Hprint, Hrun. apply exec_unit.
    rewrite (bind_Some _ _ _ _ _ _ Hprint). by rewrite Hrun.
  - split; [exact Hl'|]. split; [congruence|]. split; [exact Hlw'|].
    split; [exact Hs' | exact Hb'].
Qed.

Lemma converged_display_is_quiet_witness :
  exec (Print 0 hello)
    (mkDisplay (replicate 32 32) (replicate 32 63) 0 255 0 0 255 0) =
    Some (mkDisplay hello_page (replicate 32 63) 0 255 0 0 255 0, []) ∧
  local_ (mkDisplay hello_page hello_page 7 31 0 120 255 0) =
    local_ (mkDisplay hello_page (replicate 32 63) 0 255 0 0 255 0) ∧
  display_ok (mkDisplay hello_page hello_page 7 31 0 120 255 0) ∧
  remote_ (mkDisplay hello_page hello_page 7 31 0 120 255 0) =
    local_ (mkDisplay hello_page hello_page 7 31 0 120 255 0) ∧
  status_ (mkDisplay hello_page hello_page 7 31 0 120 255 0) = 0 ∧
  ¬ (0 ≤ cursor_position_
           (mkDisplay hello_page hello_page 7 31 0 120 255 0)
       < lcd_buffer_size) ∧
  ∃ d',
    exec (Print 0 hello;;
          Updates (replicate 20 8 ++ replicate 5 2 ++ replicate 12 3))
      (mkDisplay hello_page hello_page 7 31 0 120 255 0) = Some (d', []) ∧
    local_ d' = local_ (mkDisplay hello_page hello_page 7 31 0 120 255 0) ∧
    remote_ d' =
      remote_ (mkDisplay hello_page hello_page 7 31 0 120 255 0) ∧
    scan_position_last_write_ d' =
      scan_position_last_write_
        (mkDisplay hello_page hello_page 7 31 0 120 255 0) ∧
    scan_position_ d' =
      (scan_position_ (mkDisplay hello_page hello_page 7 31 0 120 255 0)
       + ticks_with_room (replicate 20 8 ++ replicate 5 2 ++ replicate 12 3))
      mod lcd_buffer_size ∧
    blink_clock_ d' =
      (if ticks_with_room (replicate 20 8 ++ replicate 5 2 ++ replicate 12 3)
          =? 0
       then blink_clock_ (mkDisplay hello_page hello_page 7 31 0 120 255 0)
       else (blink_clock_ (mkDisplay hello_page hello_page 7 31 0 120 255 0)
             + ticks_with_room
                 (replicate 20 8 ++ replicate 5 2 ++ replicate 12 3))
            mod 128).
Proof.
  assert (display_ok (mkDisplay hello_page hello_page 7 31 0 120 255 0))
    as Hok
    by (unfold display_ok, lcd_buffer_size, width, height; cbn;
        repeat split; (reflexivity || lia)).
  assert (¬ (0 ≤ cursor_position_
                   (mkDisplay hello_page hello_page 7 31 0 120 255 0)
               < lcd_buffer_size)) as Hcur
    by (unfold lcd_buffer_size, width, height; cbn; lia).
  split; [reflexivity|]. split; [reflexivity|]. split; [exact Hok|].
  split; [reflexivity|]. split; [reflexivity|]. split; [exact Hcur|].
  exact (converged_display_is_quiet
           (mkDisplay (replicate 32 32) (replicate 32 63) 0 255 0 0 255 0)
           (mkDisplay hello_page (replicate 32 63) 0 255 0 0 255 0) []
           (mkDisplay hello_page hello_page 7 31 0 120 255 0)
           0 hello (replicate 20 8 ++ replicate 5 2 ++ replicate 12 3)
           eq_refl eq_refl Hok eq_refl eq_refl Hcur).
Defined.

(** *** Reaching convergence *)

(** One [Update] with room in the transport, no status and no cursor:
    the cell under the scan position is brought in line with the local
    page, whether or not anything had to be transmitted. *)
Lemma Update_sync d writable :
  display_ok d → status_ d = 0 →
  ¬ (0 ≤ cursor_position_ d < lcd_buffer_size) →
  3 ≤ writable →
  ∃ d' out c,
    local_ d !! Z.to_nat (scan_position_ d) = Some c ∧
    exec (Update writable) d = Some (d', out) ∧
    local_ d' = local_ d ∧
    remote_ d' = <[Z.to_nat (scan_position_ d) := c]> (remote_ d) ∧
    scan_position_ d' = (scan_position_ d + 1) mod lcd_buffer_size ∧
    status_ d' = 0 ∧ cursor_position_ d' = cursor_position_ d.
Proof.
  intros (Hl & Hr & Hs) Hst Hcur Hw.
  destruct (advance_blink_clock_total d) as [d1 Hblink].
  destruct (advance_blink_clock_frame _ _ _ Hblink)
    as (_ & Hl1 & Hr1 & Hs1 & Hlw1 & Hc1 & Hst1).
  assert (status_ d1 = 0) as Hst0 by (destruct Hst1; congruence).
  destruct (lookup_lt_is_Some_2 (local_ d) (Z.to_nat (scan_position_ d)))
    as [c Hc]; [lia|].
  destruct (lookup_lt_is_Some_2 (remote_ d) (Z.to_nat (scan_position_ d)))
    as [r Hrem]; [lia|].
  assert (resolved d1 = Some c) as Hres.
  { pose proof (load_Some (Out:=SerialCall) local_ (scan_position_ d1) c d1)
      as Hload.
    rewrite Hs1, Hl1 in Hload. specialize (Hload ltac:(lia) Hc).
    unfold resolved, resolve_character. exec_unfold.
    rewrite Hs1, Hc1.
    destruct (Z.eqb_spec (scan_position_ d) (cursor_position_ d)); [lia|].
    cbn [andb]. cbv beta iota. rewrite Hst0.
    change (nonzero 0) with false. cbn [andb]. cbv beta iota.
    by rewrite Hload. }
  rewrite (Update_step d writable d1 c Hw Hblink Hres).
  rewrite (transmit_spec d1 c r) by (rewrite ?Hr1, ?Hs1; (lia || done)).
  rewrite Hs1, Hc1, Hr1.
  assert (uint8 (Z.land (scan_position_ d + 1) lcd_buffer_size_wrap) =
          (scan_position_ d + 1) mod lcd_buffer_size) as Hnext.
  { change lcd_buffer_size_wrap with (Z.ones 5).
    rewrite Z.land_ones by lia.
    pose proof (Z.mod_pos_bound (scan_position_ d + 1) (2 ^ 5) ltac:(lia)).
    rewrite uint8_id by (unfold is_uint8; lia). reflexivity. }
  destruct (negb (c =? r) || (scan_position_ d =? cursor_position_ d))
    eqn:Hneed; eexists _, _, c; (split; [exact Hc|]);
    (split; [reflexivity|]); destruct d1; cbn in *; subst.
  - rewrite Hnext. done.
  - rewrite Hnext. apply orb_false_iff in Hneed as [Hneed _].
    apply negb_false_iff, Z.eqb_eq in Hneed. subst r.
    by rewrite list_insert_id.
Qed.

(** After [length writables] such ticks, the cells the scan went over
    agree with the local page, and so do those that agreed before. *)
Lemma Updates_sync writables : ∀ d,
  display_ok d → status_ d = 0 →
  ¬ (0 ≤ cursor_position_ d < lcd_buffer_size) →
  Forall (λ writable, 3 ≤ writable) writables →
  ∃ d' out,
    exec (Updates writables) d = Some (d', out) ∧
    display_ok d' ∧ status_ d' = 0 ∧
    cursor_position_ d' = cursor_position_ d ∧
    local_ d' = local_ d ∧
    ∀ i, 0 ≤ i < lcd_buffer_size →
      remote_ d !! Z.to_nat i = local_ d !! Z.to_nat i ∨
      (i - scan_position_ d) mod lcd_buffer_size
        < Z.of_nat (length writables) →
      remote_ d' !! Z.to_nat i = local_ d !! Z.to_nat i.
Proof.
  induction writables as [|writable writables IH];
    intros d Hok Hst Hcur Hws.
  { exists d, []. repeat split; try done; try apply Hok.
    intros i Hi [H|H]; [done|].
    pose proof (Z.mod_pos_bound (i - scan_position_ d) lcd_buffer_size
                  ltac:(done)).
    cbn in H. lia. }
  apply Forall_cons in Hws as [Hw Hws].
  destruct (Update_sync d writable Hok Hst Hcur Hw)
    as (d1 & out1 & c & Hc & Hstep & Hl1 & Hr1 & Hs1 & Hst1 & Hc1).
  destruct Hok as (Hl & Hr & Hs).
  assert (display_ok d1) as Hok1.
  { unfold display_ok. rewrite Hl1, Hr1, length_insert, Hs1.
    pose proof (Z.mod_pos_bound (scan_position_ d + 1) lcd_buffer_size
                  ltac:(done)).
    done. }
  destruct (IH d1 Hok1 Hst1 ltac:(by rewrite Hc1) Hws)
    as (d2 & out2 & Hrest & Hok2 & Hst2 & Hc2 & Hl2 & Hsync).
  exists d2, (out1 ++ out2).
  split.
  { apply exec_unit in Hstep, Hrest. apply exec_unit. cbn [Updates].
    rewrite (bind_Some _ _ _ _ _ _ Hstep). by rewrite Hrest. }
  split; [done|]. split; [done|]. split; [congruence|].
  split; [congruence|].
  intros i Hi Hcase. rewrite <- Hl1. apply Hsync; [done|].
  rewrite Hr1, Hl1, Hs1.
  destruct (decide (i = scan_position_ d)) as [->|Hne].
  { left. rewrite Hc. apply list_lookup_insert_eq. lia. }
  rewrite list_lookup_insert_ne by lia.
  destruct Hcase as [Hsame|Hnear]; [by left|right].
  cbn [length] in Hnear. unfold lcd_buffer_size, width, height in *.
  change (16 * 2) with 32 in *.
  rewrite Zminus_mod_idemp_r.
  assert ((i - scan_position_ d) mod 32 ≠ 0) as Hnz.
  { intros H0. apply Z.mod_divide in H0 as [k Hk]; lia. }
  replace (i - (scan_position_ d + 1)) with (i - scan_position_ d - 1) by lia.
  pose proof (Z.mod_pos_bound (i - scan_position_ d) 32 ltac:(lia)).
  rewrite <- (Zminus_mod_idemp_l (i - scan_position_ d)).
  rewrite (Z.mod_small ((i - scan_position_ d) mod 32 - 1)) by lia.
  lia.
Qed.

(** A full pass with room in the transport at every tick, no status and
    no cursor, makes the remote page equal to the local page. *)
Lemma full_pass_converges d writables :
  display_ok d → status_ d = 0 →
  ¬ (0 ≤ cursor_position_ d < lcd_buffer_size) →
  Forall (λ writable, 3 ≤ writable) writables →
  Z.of_nat (length writables) = lcd_buffer_size →
  ∃ d' out,
    exec (Updates writables) d = Some (d', out) ∧
    quiet d' ∧ local_ d' = local_ d.
Proof.
  intros Hok Hst Hcur Hws Hlen.
  destruct (Updates_sync writables d Hok Hst Hcur Hws)
    as (d' & out & Hrun & Hok' & Hst' & Hc' & Hl' & Hsync).
  exists d', out. split; [done|]. split; [|done].
  split; [done|]. split; [|split; [done|by rewrite Hc']].
  destruct Hok' as (Hll & Hlr & _).
  apply list_eq. intros n.
  destruct (decide (n < Z.to_nat lcd_buffer_size)%nat) as [Hn|Hn].
  - rewrite Hl'. rewrite <- (Nat2Z.id n). apply Hsync; [lia|].
    right. rewrite Hlen. apply Z.mod_pos_bound. done.
  - rewrite !lookup_ge_None_2; [done|lia..].
Qed.

(** A text written twice, with a full pass in between: whatever the
    display showed before, if no status is pending and no cursor is set,
    the ticks that follow the second write transmit nothing. *)
Lemma second_pass_transmits_nothing d line text d1 writables1 writables2 :
  display_ok d → status_ d = 0 →
  ¬ (0 ≤ cursor_position_ d < lcd_buffer_size) →
  exec (Print line text) d = Some (d1, []) →
  Forall (λ writable, 3 ≤ writable) writables1 →
  Z.of_nat (length writables1) = lcd_buffer_size →
  ∃ d2 out d3,
    exec (Print line text;; Updates writables1) d = Some (d2, out) ∧
    exec (Print line text;; Updates writables2) d2 = Some (d3, []) ∧
    local_ d3 = local_ d2 ∧ remote_ d3 = remote_ d2.
Proof.
  intros Hok Hst Hcur Hprint Hws Hlen.
  pose proof Hprint as Hprint'. apply exec_unit in Hprint'.
  destruct (Print_loop_again _ _ _ _ _ _ Hprint')
    as (_ & Hd1 & Hlen1 & _ & _).
  assert (display_ok d1 ∧ status_ d1 = 0 ∧
          cursor_position_ d1 = cursor_position_ d) as (Hok1 & Hst1 & Hc1).
  { rewrite Hd1. destruct Hok as (Hl & Hr & Hs). destruct d; cbn in *.
    unfold display_ok; cbn. by rewrite Hlen1. }
  destruct (full_pass_converges d1 writables1 Hok1 Hst1
              ltac:(by rewrite Hc1) Hws Hlen)
    as (d2 & out & Hrun & Hq2 & Hl2).
  destruct Hq2 as (Hok2 & Hrl2 & Hst2 & Hcur2).
  destruct (converged_display_quiet_aux d d1 [] d2 line text writables2
              Hprint Hl2 Hok2 Hrl2 Hst2 Hcur2)
    as (d3 & Hsecond & Hl3 & Hr3 & _).
  exists d2, out, d3. split; [|done].
  apply exec_unit in Hrun. apply exec_unit.
  rewrite (bind_Some _ _ _ _ _ _ Hprint'). by rewrite Hrun.
Qed.

(** *** More on writing a row *)

Lemma overwrite_nil position page : overwrite position [] page = page.
Proof.
  unfold overwrite. cbn. rewrite Nat.add_0_r. apply take_drop.
Qed.

Lemma overwrite_cons position v characters page :
  (position < length page)%nat →
  overwrite (S position) characters (<[position := v]> page) =
  overwrite position (v :: characters) page.
Proof.
  intros Hlt. unfold overwrite.
  rewrite (take_S_r _ _ v) by (by apply list_lookup_insert_eq).
  rewrite take_insert_ge by lia. rewrite drop_insert_lt by lia.
  cbn [length]. rewrite <- app_assoc. cbn [app].
  by replace (S position + length characters)%nat
    with (position + S (length characters))%nat by lia.
Qed.

Lemma overwrite_lookup position characters page k :
  (position + length characters ≤ length page)%nat →
  overwrite position characters page !! k =
    if decide (position ≤ k < position + length characters)%nat
    then characters !! (k - position)%nat
    else page !! k.
Proof.
  intros Hfit. unfold overwrite.
  destruct (decide (k < position)%nat) as [Hk|Hk].
  { rewrite lookup_app_l by (rewrite length_take; lia).
    rewrite lookup_take_lt by lia. case_decide; [lia|done]. }
  rewrite lookup_app_r by (rewrite length_take; lia).
  rewrite length_take, Nat.min_l by lia.
  destruct (decide (k < position + length characters)%nat) as [Hk'|Hk'].
  { rewrite lookup_app_l by lia. case_decide; [done|lia]. }
  rewrite lookup_app_r by lia. rewrite lookup_drop.
  case_decide; [lia|]. f_equal. lia.
Qed.

Lemma overwrite_length position characters page :
  (position + length characters ≤ length page)%nat →
  length (overwrite position characters page) = length page.
Proof.
  intros Hfit. unfold overwrite.
  rewrite !length_app, length_take, length_drop. lia.
Qed.

(** [Print_loop] in closed form, when the row fits in [local_]. *)
Lemma Print_loop_overwrite text : ∀ row destination d,
  0 ≤ row < 256 → 0 ≤ destination →
  destination + row ≤ Z.of_nat (length (local_ d)) →
  Print_loop text row destination d =
    Some (tt,
          set_local_
            (overwrite (Z.to_nat destination)
               (printable <$> take (Z.to_nat row) (c_string text))
               (local_ d)) d,
          []).
Proof.
  induction text as [|character text IH]; intros row destination d Hrow Hd Hfit.
  { cbn. by rewrite take_nil, overwrite_nil, set_local_id. }
  cbn [Print_loop c_string]. unfold nonzero at 1 2 3.
  destruct (Z.eqb_spec character 0) as [Hc|Hc]; cbn [negb andb].
  { by rewrite take_nil, overwrite_nil, set_local_id. }
  destruct (Z.eqb_spec row 0) as [Hr|Hr]; cbn [negb].
  { subst row. cbn. by rewrite overwrite_nil, set_local_id. }
  fold (printable character).
  assert ((if (character =? 124) || (character =? 254)
              || ((8 <=? character) && (character <? 32))
           then store local_ set_local_ destination 32
           else store local_ set_local_ destination character) =
          store (Out:=SerialCall) local_ set_local_ destination
            (printable character)) as ->
    by (unfold printable; by destruct (_ || _)).
  pose proof (store_Some (Out:=SerialCall) local_ set_local_ destination
                (printable character) d ltac:(lia)) as Hstore.
  rewrite (bind_Some _ _ _ _ _ _ Hstore).
  rewrite uint8_id by (unfold is_uint8; lia).
  rewrite IH by (destruct d; cbn in *; rewrite ?length_insert; lia).
  cbn [app]. do 2 f_equal. destruct d; cbn.
  replace (Z.to_nat (destination + 1)) with (S (Z.to_nat destination))
    by lia.
  replace (Z.to_nat row) with (S (Z.to_nat (row - 1))) by lia.
  cbn [take fmap list_fmap]. cbn in Hfit. display_simpl.
  do 2 f_equal. apply overwrite_cons. lia.
Qed.

(** X9: what [Print] writes.  For a line of the display (0 or 1),
    [Print] always returns, makes no call to the transport and touches
    nothing but [local_]: the cells of that line, from its first column
    on, receive the characters of the text before its first NUL, at most
    [width] of them, each control character replaced by a blank; every
    other cell of both lines is left as it was. *)
Theorem Print_writes_row d line text :
  length (local_ d) = Z.to_nat lcd_buffer_size →
  0 ≤ line < height →
  ∃ page,
    exec (Print line text) d = Some (set_local_ page d, []) ∧
    length page = length (local_ d) ∧
    ∀ k : nat,
      page !! k =
        if decide (Z.to_nat (width * line) ≤ k
                   < Z.to_nat (width * line)
                     + length (take (Z.to_nat width) (c_string text)))%nat
        then printable <$>
               (c_string text !! (k - Z.to_nat (width * line))%nat)
        else local_ d !! k.
Proof.
  intros Hlen Hline. unfold height in Hline.
  assert (Z.shiftl line (Log2 width) = width * line) as Hdest.
  { change (Log2 width) with 4. rewrite Z.shiftl_mul_pow2 by lia.
    unfold width. lia. }
  pose proof (length_take_le' := length_take (c_string text) (Z.to_nat width)).
  assert (Z.to_nat (width * line)
          + length (printable <$> take (Z.to_nat width) (c_string text))
          ≤ length (local_ d))%nat as Hfit.
  { rewrite length_fmap, length_take, Hlen.
    unfold lcd_buffer_size, width, height. lia. }
  eexists. split; [|split].
  - apply exec_unit. unfold Print. rewrite Hdest.
    apply Print_loop_overwrite; [unfold width; lia | unfold width; lia |].
    rewrite Hlen. unfold lcd_buffer_size, width, height. lia.
  - by apply overwrite_length.
  - intros k. rewrite overwrite_lookup by done. rewrite length_fmap.
    case_decide as Hk; [|done].
    rewrite list_lookup_fmap. f_equal.
    apply lookup_take_lt. rewrite length_take in Hk. lia.
Qed.

Lemma Print_writes_row_witness :
  length (local_ (mkDisplay (replicate 32 32) (replicate 32 63)
                    0 255 0 0 255 0)) = Z.to_nat lcd_buffer_size ∧
  0 ≤ 1 < height ∧
  ∃ page,
    exec (Print 1 text_with_NUL)
      (mkDisplay (replicate 32 32) (replicate 32 63) 0 255 0 0 255 0) =
      Some (set_local_ page
              (mkDisplay (replicate 32 32) (replicate 32 63)
                 0 255 0 0 255 0), []) ∧
    length page =
      length (local_ (mkDisplay (replicate 32 32) (replicate 32 63)
                        0 255 0 0 255 0)) ∧
    ∀ k : nat,
      page !! k =
        if decide (Z.to_nat (width * 1) ≤ k
                   < Z.to_nat (width * 1)
                     + length (take (Z.to_nat width)
                                 (c_string text_with_NUL)))%nat
        then printable <$>
               (c_string text_with_NUL !! (k - Z.to_nat (width * 1))%nat)
        else local_ (mkDisplay (replicate 32 32) (replicate 32 63)
                       0 255 0 0 255 0) !! k.
Proof.
  split; [reflexivity|]. split; [unfold height; lia|].
  exact (Print_writes_row
           (mkDisplay (replicate 32 32) (replicate 32 63) 0 255 0 0 255 0)
           1 text_with_NUL eq_refl ltac:(unfold height; lia)).
Defined.

(** The text of the witness: 'H', a tab, then a NUL that hides the 'i'. *)
Example Print_stops_at_NUL :
  exec (Print 1 text_with_NUL)
    (mkDisplay (replicate 32 32) (replicate 32 63) 0 255 0 0 255 0) =
  Some (mkDisplay (replicate 16 32 ++ [72; 32] ++ replicate 14 32)
          (replicate 32 63) 0 255 0 0 255 0, []).
Proof. reflexivity. Qed.

(** X10: [Print] does not check its line.  On a line past the last one,
    a text that is not empty makes [Print] store its first character
    outside of [local_]: undefined behaviour, whatever the display
    holds. *)
Theorem Print_past_last_line d line character text :
  length (local_ d) = Z.to_nat lcd_buffer_size →
  height ≤ line →
  character ≠ 0 →
  exec (Print line (character :: text)) d = None.
Proof.
  intros Hlen Hline Hc. unfold height in Hline.
  assert (32 ≤ Z.shiftl line (Log2 width)) as Hdest.
  { change (Log2 width) with 4. rewrite Z.shiftl_mul_pow2 by lia.
    change (2 ^ 4) with 16. lia. }
  unfold exec, Print. cbn [Print_loop]. unfold nonzero.
  destruct (Z.eqb_spec character 0); [done|]. cbn [negb andb].
  change (negb (width =? 0)) with true. cbv iota.
  assert (∀ v, store (Out:=SerialCall) local_ set_local_
                 (Z.shiftl line (Log2 width)) v d = None) as Hstore.
  { intros v. unfold store. rewrite Hlen.
    destruct (Z.leb_spec 0 (Z.shiftl line (Log2 width))); [|done].
    destruct (Z.ltb_spec (Z.shiftl line (Log2 width))
                (Z.of_nat (Z.to_nat lcd_buffer_size))) as [Hlt|]; [|done].
    change (Z.of_nat (Z.to_nat lcd_buffer_size)) with 32 in Hlt. lia. }
  exec_unfold. destruct (_ || _); by rewrite Hstore.
Qed.

Lemma Print_past_last_line_witness :
  length (local_ (mkDisplay (replicate 32 32) (replicate 32 63)
                    0 255 0 0 255 0)) = Z.to_nat lcd_buffer_size ∧
  height ≤ 2 ∧ 72 ≠ 0 ∧
  exec (Print 2 (72 :: [105]))
    (mkDisplay (replicate 32 32) (replicate 32 63) 0 255 0 0 255 0) = None.
Proof.
  split; [reflexivity|]. split; [unfold height; lia|]. split; [lia|].
  exact (Print_past_last_line
           (mkDisplay (replicate 32 32) (replicate 32 63) 0 255 0 0 255 0)
           2 72 [105] eq_refl ltac:(unfold height; lia) ltac:(lia)).
Defined.

Lemma printable_no_control character :
  printable character ≠ 124 ∧ printable character ≠ 254 ∧
  ¬ (8 ≤ printable character < 32).
Proof.
  unfold printable.
  destruct (Z.eqb_spec character 124), (Z.eqb_spec character 254),
    (Z.leb_spec 8 character), (Z.ltb_spec character 32);
    cbn [orb andb]; lia.
Qed.

Lemma Print_loop_no_control text : ∀ row destination d d' out,
  Print_loop text row destination d = Some (tt, d', out) →
  no_control_character (local_ d) →
  no_control_character (local_ d').
Proof.
  induction text as [|character text IH]; intros row destination d d' out.
  { cbn. by intros [= <- <-]. }
  cbn [Print_loop]. destruct (nonzero character && nonzero row).
  2: { by intros [= <- <-]. }
  fold (printable character).
  assert ((if (character =? 124) || (character =? 254)
              || ((8 <=? character) && (character <? 32))
           then store local_ set_local_ destination 32
           else store local_ set_local_ destination character) =
          store (Out:=SerialCall) local_ set_local_ destination
            (printable character)) as ->
    by (unfold printable; by destruct (_ || _)).
  exec_unfold. unfold store at 1.
  destruct ((0 <=? destination)
            && (destination <? Z.of_nat (length (local_ d)))); [|done].
  cbv beta iota.
  destruct (Print_loop text (uint8 (row - 1)) (destination + 1) _)
    as [[[[] d2] out2]|] eqn:Hrest; [|done].
  intros [= <- <-] Hclean. eapply IH; [exact Hrest|].
  destruct d; cbn in *. apply Forall_insert; [done|].
  apply printable_no_control.
Qed.

(** X11: the local page never holds a control character.  [Init] fills
    it with blanks, and [Print] keeps it free of the characters 0x7C and
    0xFE, which the display reads as command prefixes, and of the
    characters 8 to 31, whatever text it is given. *)
Theorem local_page_has_no_control_character baud_rate d0 d line text d' out :
  no_control_character (local_ d) →
  exec (Print line text) d = Some (d', out) →
  (∃ d1 out1,
     exec (Init baud_rate) d0 = Some (d1, out1) ∧
     no_control_character (local_ d1)) ∧
  no_control_character (local_ d').
Proof.
  intros Hclean Hprint. split.
  - unfold exec, Init. exec_unfold.
    destruct (baud_rate =? 2400); cbv beta iota; eexists _, _;
      (split; [reflexivity|]); cbn; apply Forall_replicate; lia.
  - apply exec_unit in Hprint.
    by eapply Print_loop_no_control.
Qed.

Lemma local_page_has_no_control_character_witness :
  no_control_character (replicate 32 32) ∧
  exec (Print 1 text_with_NUL)
    (mkDisplay (replicate 32 32) (replicate 32 63) 0 255 0 0 255 0) =
    Some (mkDisplay (replicate 16 32 ++ [72; 32] ++ replicate 14 32)
            (replicate 32 63) 0 255 0 0 255 0, []) ∧
  (∃ d1 out1,
     exec (Init 9600) zero_initialized = Some (d1, out1) ∧
     no_control_character (local_ d1)) ∧
  no_control_character (replicate 16 32 ++ [72; 32] ++ replicate 14 32).
Proof.
  assert (no_control_character (replicate 32 32)) as Hclean
    by (apply Forall_replicate; lia).
  split; [exact Hclean|]. split; [reflexivity|].
  exact (local_page_has_no_control_character 9600 zero_initialized
           (mkDisplay (replicate 32 32) (replicate 32 63) 0 255 0 0 255 0)
           1 text_with_NUL
           (mkDisplay (replicate 16 32 ++ [72; 32] ++ replicate 14 32)
              (replicate 32 63) 0 255 0 0 255 0) [] Hclean eq_refl).
Defined.

(** X12: writing a text a second time changes nothing.  If [Print]
    returns, the same [Print] run again on the display it leaves returns
    the very same display, and, like the first, makes no call to the
    transport. *)
Theorem Print_twice d line text d' out :
  exec (Print line text) d = Some (d', out) →
  out = [] ∧
  exec (Print line text;; Print line text) d = Some (d', []).
Proof.
  intros Hfirst.
  pose proof (Print_again line text d d' out d' Hfirst eq_refl) as Hsecond.
  apply exec_unit in Hfirst, Hsecond.
  destruct (Print_loop_again _ _ _ _ _ _ Hfirst) as (-> & _).
  split; [done|]. apply exec_unit.
  rewrite (bind_Some _ _ _ _ _ _ Hfirst). by rewrite Hsecond.
Qed.

Lemma Print_twice_witness :
  exec (Print 0 hello)
    (mkDisplay (replicate 32 32) (replicate 32 63) 0 255 0 0 255 0) =
    Some (mkDisplay hello_page (replicate 32 63) 0 255 0 0 255 0, []) ∧
  @nil SerialCall = [] ∧
  exec (Print 0 hello;; Print 0 hello)
    (mkDisplay (replicate 32 32) (replicate 32 63) 0 255 0 0 255 0) =
    Some (mkDisplay hello_page (replicate 32 63) 0 255 0 0 255 0, []).
Proof.
  split; [reflexivity|].
  exact (Print_twice
           (mkDisplay (replicate 32 32) (replicate 32 63) 0 255 0 0 255 0)
           0 hello
           (mkDisplay hello_page (replicate 32 63) 0 255 0 0 255 0) []
           eq_refl).
Defined.

(** *** More on one tick *)

(** What [advance_blink_clock] computes. *)
(** One [Update] with room in the transport, on a display whose scan
    position is inside of the pages: it returns, and either transmits
    nothing or brings the cell of the remote page in line. *)
Lemma Update_with_room d writable :
  display_ok d → 3 ≤ writable →
  ∃ d1 c r d' out,
    advance_blink_clock d = Some (tt, d1, []) ∧
    resolved d1 = Some c ∧
    remote_ d !! Z.to_nat (scan_position_ d) = Some r ∧
    exec (Update writable) d = Some (d', out) ∧
    display_ok d' ∧
    local_ d' = local_ d ∧ cursor_position_ d' = cursor_position_ d ∧
    scan_position_ d' = (scan_position_ d + 1) mod lcd_buffer_size ∧
    blink_clock_ d' = blink_clock_ d1 ∧ blink_ d' = blink_ d1 ∧
    status_ d' = status_ d1 ∧
    ((out = [] ∧ remote_ d' = remote_ d ∧ c = r ∧
      scan_position_last_write_ d' = scan_position_last_write_ d ∧
      scan_position_ d ≠ cursor_position_ d) ∨
     ((out = [Overwrite c] ∨
       out = [Overwrite 0xfe;
              Overwrite (cursor_move_argument (scan_position_ d));
              Overwrite c]) ∧
      remote_ d' = <[Z.to_nat (scan_position_ d) := c]> (remote_ d) ∧
      scan_position_last_write_ d' = scan_position_ d ∧
      (c ≠ r ∨ scan_position_ d = cursor_position_ d))).
Proof.
  intros (Hl & Hr & Hs) Hw.
  destruct (advance_blink_clock_total d) as [d1 Hblink].
  destruct (advance_blink_clock_frame _ _ _ Hblink)
    as (_ & Hl1 & Hr1 & Hs1 & Hlw1 & Hc1 & _).
  assert (display_ok d1) as Hok1
    by (unfold display_ok; by rewrite Hl1, Hr1, Hs1).
  destruct (resolved_is_Some d1 Hok1) as [c Hres].
  destruct (lookup_lt_is_Some_2 (remote_ d) (Z.to_nat (scan_position_ d)))
    as [r Hrem]; [lia|].
  assert (uint8 (Z.land (scan_position_ d + 1) lcd_buffer_size_wrap) =
          (scan_position_ d + 1) mod lcd_buffer_size) as Hnext.
  { change lcd_buffer_size_wrap with (Z.ones 5).
    rewrite Z.land_ones by lia.
    pose proof (Z.mod_pos_bound (scan_position_ d + 1) (2 ^ 5) ltac:(lia)).
    rewrite uint8_id by (unfold is_uint8; lia). reflexivity. }
  pose proof (Z.mod_pos_bound (scan_position_ d + 1) lcd_buffer_size
                ltac:(done)) as Hrange.
  exists d1, c, r.
  rewrite (Update_step d writable d1 c Hw Hblink Hres).
  rewrite (transmit_spec d1 c r) by (rewrite ?Hr1, ?Hs1; (lia || done)).
  rewrite Hs1, Hc1, Hr1, Hlw1.
  destruct (Z.eqb_spec c r) as [Hcr|Hcr];
    destruct (Z.eqb_spec (scan_position_ d) (cursor_position_ d)) as [Hsc|Hsc];
    cbn [negb orb];
    try destruct ((scan_position_ d =? scan_position_last_write_ d + 1)
                  && nonzero (Z.land (scan_position_ d) (width - 1)));
    eexists _, _; do 3 (split; [done|]); (split; [reflexivity|]);
    destruct d1; cbn in *; subst; rewrite Hnext;
    (split; [unfold display_ok; cbn; rewrite ?length_insert;
             repeat split; (done || lia)|]);
    do 6 (split; [done|]);
    first [ left; repeat split; (done || lia)
          | right; (split; [first [by left | by right]|]);
            repeat split; auto ].
Qed.

(** X13: a tick never overruns the transport.  On a display whose scan
    position is inside of the pages, [Update] always returns; it makes at
    most three calls to the transport, all of them [Overwrite], and none
    unless three bytes are writable, so never more than are writable; it
    leaves the local page and the cursor position alone; and it moves the
    scan position one cell further, round the display, unless it skipped
    the tick for lack of room. *)
Theorem Update_never_overruns d writable :
  display_ok d →
  ∃ d' out,
    exec (Update writable) d = Some (d', out) ∧
    display_ok d' ∧
    Z.of_nat (length out) ≤ Z.max 0 writable ∧ (length out ≤ 3)%nat ∧
    Forall (λ call, ∃ byte, call = Overwrite byte) out ∧
    local_ d' = local_ d ∧ cursor_position_ d' = cursor_position_ d ∧
    scan_position_ d' =
      if writable <? 3 then scan_position_ d
      else (scan_position_ d + 1) mod lcd_buffer_size.
Proof.
  intros Hok. destruct (Z.ltb_spec writable 3) as [Hw|Hw].
  { exists d, []. rewrite Update_guard by done. cbn [length].
    do 2 (split; [done|]). repeat split; first [done | lia | constructor]. }
  destruct (Update_with_room d writable Hok Hw)
    as (d1 & c & r & d' & out & _ & _ & _ & Hrun & Hok' & Hl & Hc & Hs & _
        & _ & _ & Hout).
  exists d', out. split; [done|]. split; [done|].
  destruct Hout as [(-> & _)|([-> | ->] & _)]; cbn [length];
    repeat split; try (done || lia); repeat constructor; eauto.
Qed.

Lemma Update_never_overruns_witness :
  display_ok (mkDisplay hello_page (replicate 32 63) 0 255 0 0 255 0) ∧
  ∃ d' out,
    exec (Update 5)
      (mkDisplay hello_page (replicate 32 63) 0 255 0 0 255 0) =
      Some (d', out) ∧
    display_ok d' ∧
    Z.of_nat (length out) ≤ Z.max 0 5 ∧ (length out ≤ 3)%nat ∧
    Forall (λ call, ∃ byte, call = Overwrite byte) out ∧
    local_ d' =
      local_ (mkDisplay hello_page (replicate 32 63) 0 255 0 0 255 0) ∧
    cursor_position_ d' =
      cursor_position_
        (mkDisplay hello_page (replicate 32 63) 0 255 0 0 255 0) ∧
    scan_position_ d' =
      if 5 <? 3
      then scan_position_
             (mkDisplay hello_page (replicate 32 63) 0 255 0 0 255 0)
      else (scan_position_
              (mkDisplay hello_page (replicate 32 63) 0 255 0 0 255 0) + 1)
           mod lcd_buffer_size.
Proof.
  assert (display_ok
            (mkDisplay hello_page (replicate 32 63) 0 255 0 0 255 0)) as Hok
    by (unfold display_ok, lcd_buffer_size, width, height; cbn;
        repeat split; (reflexivity || lia)).
  split; [exact Hok|].
  exact (Update_never_overruns
           (mkDisplay hello_page (replicate 32 63) 0 255 0 0 255 0) 5 Hok).
Defined.

(** *** More on convergence *)

Lemma exec_Updates_cons writable writables d :
  exec (Updates (writable :: writables)) d =
    match exec (Update writable) d with
    | Some (d1, out1) =>
        match exec (Updates writables) d1 with
        | Some (d2, out2) => Some (d2, out1 ++ out2)
        | None => None
        end
    | None => None
    end.
Proof.
  cbn [Updates]. exec_unfold.
  destruct (Update writable d) as [[[[] d1] o1]|]; [|reflexivity].
  destruct (Updates writables d1) as [[[[] d2] o2]|]; reflexivity.
Qed.

(** The ticks skipped for lack of room do not count. *)
Lemma Updates_skip writables : ∀ d,
  exec (Updates writables) d =
  exec (Updates (filter (λ writable, 3 ≤ writable) writables)) d.
Proof.
  induction writables as [|writable writables IH]; intros d; [done|].
  rewrite filter_cons. case_decide as Hw.
  - rewrite !exec_Updates_cons.
    destruct (exec (Update writable) d) as [[d1 o1]|]; [|done].
    by rewrite IH.
  - rewrite exec_Updates_cons, Update_guard by lia. rewrite IH.
    by destruct (exec (Updates _) d) as [[d2 o2]|].
Qed.

(** X14: bounded convergence, also under back pressure.  With no status
    pending and the cursor outside of the display, as soon as
    [lcd_buffer_size] of the ticks found room in the transport, the
    remote page equals the local page, whatever both held before and
    however many ticks were skipped in between; the local page is left
    as it was. *)
Theorem convergence_under_back_pressure d writables :
  display_ok d →
  status_ d = 0 →
  ¬ (0 ≤ cursor_position_ d < lcd_buffer_size) →
  lcd_buffer_size
    ≤ Z.of_nat (length (filter (λ writable, 3 ≤ writable) writables)) →
  ∃ d' out,
    exec (Updates writables) d = Some (d', out) ∧
    remote_ d' = local_ d ∧ local_ d' = local_ d.
Proof.
  intros Hok Hst Hcur Hroom. rewrite Updates_skip.
  destruct (Updates_sync (filter (λ writable, 3 ≤ writable) writables) d
              Hok Hst Hcur)
    as (d' & out & Hrun & Hok' & _ & _ & Hl' & Hsync).
  { apply Forall_forall. intros w Hw.
    by apply list_elem_of_filter in Hw as [? _]. }
  exists d', out. split; [done|]. split; [|done].
  destruct Hok' as (Hll & Hlr & _). destruct Hok as (Hl & _).
  apply list_eq. intros n.
  destruct (decide (n < Z.to_nat lcd_buffer_size)%nat) as [Hn|Hn].
  - rewrite <- (Nat2Z.id n). apply Hsync; [lia|]. right.
    pose proof (Z.mod_pos_bound (Z.of_nat n - scan_position_ d)
                  lcd_buffer_size ltac:(done)). lia.
  - rewrite !lookup_ge_None_2; [done|lia..].
Qed.

Lemma convergence_under_back_pressure_witness :
  display_ok (mkDisplay hello_page (replicate 32 63) 7 255 0 0 255 0) ∧
  status_ (mkDisplay hello_page (replicate 32 63) 7 255 0 0 255 0) = 0 ∧
  ¬ (0 ≤ cursor_position_
           (mkDisplay hello_page (replicate 32 63) 7 255 0 0 255 0)
       < lcd_buffer_size) ∧
  lcd_buffer_size
    ≤ Z.of_nat (length (filter (λ writable, 3 ≤ writable)
                          (replicate 20 8 ++ replicate 5 2
                           ++ replicate 12 3))) ∧
  ∃ d' out,
    exec (Updates (replicate 20 8 ++ replicate 5 2 ++ replicate 12 3))
      (mkDisplay hello_page (replicate 32 63) 7 255 0 0 255 0) =
      Some (d', out) ∧
    remote_ d' =
      local_ (mkDisplay hello_page (replicate 32 63) 7 255 0 0 255 0) ∧
    local_ d' =
      local_ (mkDisplay hello_page (replicate 32 63) 7 255 0 0 255 0).
Proof.
  assert (display_ok
            (mkDisplay hello_page (replicate 32 63) 7 255 0 0 255 0)) as Hok
    by (unfold display_ok, lcd_buffer_size, width, height; cbn;
        repeat split; (reflexivity || lia)).
  assert (¬ (0 ≤ cursor_position_
                   (mkDisplay hello_page (replicate 32 63) 7 255 0 0 255 0)
               < lcd_buffer_size)) as Hcur
    by (unfold lcd_buffer_size, width, height; cbn; lia).
  assert (lcd_buffer_size
            ≤ Z.of_nat (length (filter (λ writable, 3 ≤ writable)
                                  (replicate 20 8 ++ replicate 5 2
                                   ++ replicate 12 3)))) as Hroom
    by (vm_compute; discriminate).
  split; [exact Hok|]. split; [reflexivity|]. split; [exact Hcur|].
  split; [exact Hroom|].
  exact (convergence_under_back_pressure
           (mkDisplay hello_page (replicate 32 63) 7 255 0 0 255 0)
           (replicate 20 8 ++ replicate 5 2 ++ replicate 12 3)
           Hok eq_refl Hcur Hroom).
Defined.

(** X15: from power-up to the display.  Starting from the
    zero-initialised members, [Init], then [Print] on a line of the
    display, then a full pass of ticks that all find room: the remote
    page holds blanks, with the characters of the text (before its first
    NUL, at most [width], control characters blanked) on that line from
    its first column on. *)
Theorem power_up_shows_text baud_rate line text writables :
  0 ≤ line < height →
  Forall (λ writable, 3 ≤ writable) writables →
  Z.of_nat (length writables) = lcd_buffer_size →
  ∃ d' out,
    exec (Init baud_rate;; Print line text;; Updates writables)
      zero_initialized = Some (d', out) ∧
    remote_ d' =
      overwrite (Z.to_nat (width * line))
        (printable <$> take (Z.to_nat width) (c_string text))
        (replicate (Z.to_nat lcd_buffer_size) 32) ∧
    local_ d' = remote_ d'.
Proof.
  intros Hline Hws Hlen.
  set (d1 := mkDisplay (replicate (Z.to_nat lcd_buffer_size) 32)
               (replicate (Z.to_nat lcd_buffer_size) 63) 0 255 0 0 255 0).
  assert (∃ out1, Init baud_rate zero_initialized = Some (tt, d1, out1))
    as [out1 Hinit].
  { unfold Init. exec_unfold.
    destruct (baud_rate =? 2400); cbv beta iota; eexists; reflexivity. }
  assert (Z.shiftl line (Log2 width) = width * line) as Hdest.
  { change (Log2 width) with 4. rewrite Z.shiftl_mul_pow2 by lia.
    unfold width. lia. }
  unfold height in Hline.
  set (page := overwrite (Z.to_nat (width * line))
                 (printable <$> take (Z.to_nat width) (c_string text))
                 (replicate (Z.to_nat lcd_buffer_size) 32)).
  assert (Print line text d1 = Some (tt, set_local_ page d1, [])) as Hprint.
  { unfold Print. rewrite Hdest.
    apply Print_loop_overwrite; [unfold width; lia | unfold width; lia |].
    unfold d1. cbn [local_]. rewrite length_replicate.
    unfold lcd_buffer_size, width, height. lia. }
  assert (length page = Z.to_nat lcd_buffer_size) as Hpage.
  { unfold page. rewrite overwrite_length; [by rewrite length_replicate|].
    rewrite length_fmap, length_take, length_replicate.
    unfold lcd_buffer_size, width, height. lia. }
  destruct (Updates_sync writables (set_local_ page d1))
    as (d' & out & Hrun & Hok' & _ & _ & Hl' & Hsync); [|done| |done|].
  { unfold display_ok, d1. cbn [local_ remote_ scan_position_ set_local_].
    rewrite Hpage, length_replicate.
    unfold lcd_buffer_size, width, height. lia. }
  { unfold d1. cbn [cursor_position_ set_local_].
    unfold lcd_buffer_size, width, height. lia. }
  cbn [local_ set_local_] in Hl'.
  assert (remote_ d' = page) as Hremote.
  { destruct Hok' as (Hll & Hlr & _).
    apply list_eq. intros n.
    destruct (decide (n < Z.to_nat lcd_buffer_size)%nat) as [Hn|Hn].
    - rewrite <- (Nat2Z.id n). apply Hsync; [lia|]. right. rewrite Hlen.
      apply Z.mod_pos_bound. done.
    - rewrite !lookup_ge_None_2; [done|lia..]. }
  exists d', (out1 ++ [] ++ out). split; [|split; congruence].
  apply exec_unit in Hrun. apply exec_unit.
  rewrite (bind_Some _ _ _ _ _ _ Hinit).
  rewrite (bind_Some _ _ _ _ _ _ Hprint). by rewrite Hrun.
Qed.

Lemma power_up_shows_text_witness :
  0 ≤ 1 < height ∧
  Forall (λ writable, 3 ≤ writable) (replicate 32 3) ∧
  Z.of_nat (length (replicate 32 3)) = lcd_buffer_size ∧
  ∃ d' out,
    exec (Init 2400;; Print 1 hello;; Updates (replicate 32 3))
      zero_initialized = Some (d', out) ∧
    remote_ d' =
      overwrite (Z.to_nat (width * 1))
        (printable <$> take (Z.to_nat width) (c_string hello))
        (replicate (Z.to_nat lcd_buffer_size) 32) ∧
    local_ d' = remote_ d'.
Proof.
  assert (Forall (λ writable, 3 ≤ writable) (replicate 32 3)) as Hws
    by (apply Forall_replicate; lia).
  split; [unfold height; lia|]. split; [exact Hws|]. split; [reflexivity|].
  exact (power_up_shows_text 2400 1 hello (replicate 32 3)
           ltac:(unfold height; lia) Hws eq_refl).
Defined.

(** *** The blink clock and the status *)

Lemma exec_Updates_app before after d :
  exec (Updates (before ++ after)) d =
    match exec (Updates before) d with
    | Some (d1, out1) =>
        match exec (Updates after) d1 with
        | Some (d2, out2) => Some (d2, out1 ++ out2)
        | None => None
        end
    | None => None
    end.
Proof.
  revert d. induction before as [|writable before IH]; intros d.
  - cbn [app]. change (exec (Updates []) d) with (Some (d, @nil SerialCall)).
    cbv beta iota. by destruct (exec (Updates after) d) as [[d2 o2]|].
  - cbn [app]. rewrite !exec_Updates_cons.
    destruct (exec (Update writable) d) as [[d1 o1]|]; [|reflexivity].
    rewrite IH.
    destruct (exec (Updates before) d1) as [[d2 o2]|]; [|reflexivity].
    destruct (exec (Updates after) d2) as [[d3 o3]|]; [|reflexivity].
    by rewrite app_assoc.
Qed.

(** One tick with room: the blink clock counts modulo 128; when it
    wraps, the blink phase is inverted and the status is cleared. *)
Lemma Update_clock d writable :
  display_ok d → 3 ≤ writable → 0 ≤ blink_clock_ d < 128 →
  ∃ d' out,
    exec (Update writable) d = Some (d', out) ∧ display_ok d' ∧
    local_ d' = local_ d ∧ cursor_position_ d' = cursor_position_ d ∧
    (if blink_clock_ d =? 127
     then blink_clock_ d' = 0 ∧ blink_ d' = uint8 (Z.lnot (blink_ d)) ∧
          status_ d' = 0
     else blink_clock_ d' = blink_clock_ d + 1 ∧ blink_ d' = blink_ d ∧
          status_ d' = status_ d).
Proof.
  intros Hok Hw Hbc.
  destruct (Update_with_room d writable Hok Hw)
    as (d1 & c & r & d' & out & Hblink & _ & _ & Hrun & Hok' & Hl & Hc & _
        & Hbc' & Hb' & Hst' & _).
  destruct (advance_blink_clock_exact _ _ _ Hblink) as [Hclock Hphase].
  assert (blink_clock_ d1 = (blink_clock_ d + 1) mod 128) as Hmod.
  { rewrite Hclock. change kLcdCursorBlinkRate with (Z.ones 7).
    rewrite Z.land_ones by lia.
    pose proof (Z.mod_pos_bound (blink_clock_ d + 1) (2 ^ 7) ltac:(lia)).
    rewrite uint8_id by (unfold is_uint8; lia). reflexivity. }
  exists d', out. do 4 (split; [done|]).
  rewrite Hbc', Hb', Hst'.
  destruct (Z.eqb_spec (blink_clock_ d) 127) as [H127|H127].
  - rewrite H127 in Hmod. change ((127 + 1) mod 128) with 0 in Hmod.
    rewrite Hmod in Hphase |- *. by cbn in Hphase.
  - rewrite Z.mod_small in Hmod by lia. rewrite Hmod in Hphase |- *.
    destruct (Z.eqb_spec (blink_clock_ d + 1) 0); [lia|]. done.
Qed.

(** Ticks with room that do not take the blink clock to its wrap. *)
Lemma Updates_clock_no_wrap writables : ∀ d,
  display_ok d →
  Forall (λ writable, 3 ≤ writable) writables →
  0 ≤ blink_clock_ d →
  blink_clock_ d + Z.of_nat (length writables) < 128 →
  ∃ d' out,
    exec (Updates writables) d = Some (d', out) ∧ display_ok d' ∧
    local_ d' = local_ d ∧ cursor_position_ d' = cursor_position_ d ∧
    blink_clock_ d' = blink_clock_ d + Z.of_nat (length writables) ∧
    blink_ d' = blink_ d ∧ status_ d' = status_ d.
Proof.
  induction writables as [|writable writables IH]; intros d Hok Hws Hbc Hlen.
  { exists d, []. repeat split; try done; try apply Hok. cbn. lia. }
  apply Forall_cons in Hws as [Hw Hws]. cbn [length] in Hlen.
  destruct (Update_clock d writable Hok Hw ltac:(lia))
    as (d1 & out1 & Hstep & Hok1 & Hl1 & Hc1 & Hclock).
  destruct (Z.eqb_spec (blink_clock_ d) 127); [lia|].
  destruct Hclock as (Hbc1 & Hb1 & Hst1).
  destruct (IH d1 Hok1 Hws ltac:(lia) ltac:(lia))
    as (d2 & out2 & Hrest & Hok2 & Hl2 & Hc2 & Hbc2 & Hb2 & Hst2).
  exists d2, (out1 ++ out2). rewrite exec_Updates_cons, Hstep, Hrest.
  split; [done|]. split; [done|]. cbn [length].
  repeat split; (congruence || lia).
Qed.

(** X16: the blink period.  128 ticks that find room bring the blink
    clock back to where it was, invert the blink phase once and clear
    the status; a phase of 0 becomes 255, and a phase of 255 becomes 0.
    The local page and the cursor position are as before. *)
Theorem blink_phase_inverts_every_128_ticks d writables :
  display_ok d →
  0 ≤ blink_clock_ d < 128 →
  Forall (λ writable, 3 ≤ writable) writables →
  length writables = 128%nat →
  ∃ d' out,
    exec (Updates writables) d = Some (d', out) ∧
    blink_clock_ d' = blink_clock_ d ∧
    blink_ d' = uint8 (Z.lnot (blink_ d)) ∧
    (blink_ d = 0 → blink_ d' = 255) ∧
    (blink_ d = 255 → blink_ d' = 0) ∧
    status_ d' = 0 ∧
    local_ d' = local_ d ∧ cursor_position_ d' = cursor_position_ d.
Proof.
  intros Hok Hbc Hws Hlen.
  set (n := Z.to_nat (127 - blink_clock_ d)).
  assert (writables = take n writables ++ drop n writables) as Hsplit
    by (by rewrite take_drop).
  destruct (drop n writables) as [|writable rest] eqn:Hdrop.
  { apply (f_equal length) in Hdrop. rewrite length_drop in Hdrop.
    cbn in Hdrop. lia. }
  assert (length (take n writables) = n) as Hlen1
    by (rewrite length_take; lia).
  assert (length rest = Z.to_nat (blink_clock_ d)) as Hlen2.
  { apply (f_equal length) in Hdrop. rewrite length_drop in Hdrop.
    cbn [length] in Hdrop. lia. }
  rewrite Hsplit in Hws.
  apply Forall_app in Hws as [Hws1 Hws2].
  apply Forall_cons in Hws2 as [Hw Hws2].
  destruct (Updates_clock_no_wrap (take n writables) d Hok Hws1
              ltac:(lia) ltac:(lia))
    as (d1 & out1 & Hrun1 & Hok1 & Hl1 & Hc1 & Hbc1 & Hb1 & Hst1).
  destruct (Update_clock d1 writable Hok1 Hw ltac:(lia))
    as (d2 & out2 & Hrun2 & Hok2 & Hl2 & Hc2 & Hclock).
  assert (blink_clock_ d1 = 127) as H127 by lia.
  rewrite H127 in Hclock. change (127 =? 127) with true in Hclock.
  destruct Hclock as (Hbc2 & Hb2 & Hst2).
  destruct (Updates_clock_no_wrap rest d2 Hok2 Hws2 ltac:(lia) ltac:(lia))
    as (d3 & out3 & Hrun3 & Hok3 & Hl3 & Hc3 & Hbc3 & Hb3 & Hst3).
  exists d3, (out1 ++ out2 ++ out3).
  split.
  { rewrite Hsplit, exec_Updates_app, Hrun1, exec_Updates_cons, Hrun2.
    by rewrite Hrun3. }
  assert (blink_ d3 = uint8 (Z.lnot (blink_ d))) as Hphase by congruence.
  split; [lia|]. split; [done|].
  split; [intros H0; by rewrite Hphase, H0|].
  split; [intros H0; by rewrite Hphase, H0|].
  repeat split; congruence.
Qed.

Lemma blink_phase_inverts_every_128_ticks_witness :
  display_ok (mkDisplay hello_page hello_page 0 31 0 32 3 0) ∧
  0 ≤ blink_clock_ (mkDisplay hello_page hello_page 0 31 0 32 3 0) < 128 ∧
  Forall (λ writable, 3 ≤ writable) (replicate 128 8) ∧
  length (replicate 128 8) = 128%nat ∧
  ∃ d' out,
    exec (Updates (replicate 128 8))
      (mkDisplay hello_page hello_page 0 31 0 32 3 0) = Some (d', out) ∧
    blink_clock_ d' =
      blink_clock_ (mkDisplay hello_page hello_page 0 31 0 32 3 0) ∧
    blink_ d' =
      uint8 (Z.lnot (blink_ (mkDisplay hello_page hello_page
                               0 31 0 32 3 0))) ∧
    (blink_ (mkDisplay hello_page hello_page 0 31 0 32 3 0) = 0 →
     blink_ d' = 255) ∧
    (blink_ (mkDisplay hello_page hello_page 0 31 0 32 3 0) = 255 →
     blink_ d' = 0) ∧
    status_ d' = 0 ∧
    local_ d' = local_ (mkDisplay hello_page hello_page 0 31 0 32 3 0) ∧
    cursor_position_ d' =
      cursor_position_ (mkDisplay hello_page hello_page 0 31 0 32 3 0).
Proof.
  assert (display_ok (mkDisplay hello_page hello_page 0 31 0 32 3 0)) as Hok
    by (unfold display_ok, lcd_buffer_size, width, height; cbn;
        repeat split; (reflexivity || lia)).
  assert (0 ≤ blink_clock_ (mkDisplay hello_page hello_page 0 31 0 32 3 0)
          < 128) as Hbc by (cbn; lia).
  assert (Forall (λ writable, 3 ≤ writable) (replicate 128 8)) as Hws
    by (apply Forall_replicate; lia).
  split; [exact Hok|]. split; [exact Hbc|]. split; [exact Hws|].
  split; [reflexivity|].
  exact (blink_phase_inverts_every_128_ticks
           (mkDisplay hello_page hello_page 0 31 0 32 3 0)
           (replicate 128 8) Hok Hbc Hws eq_refl).
Defined.

(** *** The status indicator *)

Lemma set_status_spec d status first :
  local_ d !! 0%nat = Some first →
  set_status status d =
    Some (tt,
          set_scan_position_ (if first =? 32 then 0 else width - 1)
            (set_status_ (uint8 (status + 1)) (set_blink_clock_ 0 d)),
          []).
Proof.
  intros Hfirst. unfold set_status. exec_unfold. unfold load.
  destruct d as [l r sp lw b bc cp st]. display_simpl. cbn in Hfirst.
  change (0 <=? 0) with true. cbv iota. change (Z.to_nat 0) with 0%nat.
  by rewrite Hfirst.
Qed.

(** The cell under the scan position after a tick with room. *)
Lemma Update_remote_cell d writable d1 c :
  display_ok d → 3 ≤ writable →
  advance_blink_clock d = Some (tt, d1, []) →
  resolved d1 = Some c →
  ∃ d' out,
    exec (Update writable) d = Some (d', out) ∧
    remote_ d' !! Z.to_nat (scan_position_ d) = Some c ∧
    scan_position_ d' = (scan_position_ d + 1) mod lcd_buffer_size ∧
    status_ d' = status_ d1 ∧ local_ d' = local_ d.
Proof.
  intros Hok Hw Hblink Hres.
  destruct (Update_with_room d writable Hok Hw)
    as (d1' & c' & r & d' & out & Hblink' & Hres' & Hrem & Hrun & _ & Hl & _
        & Hs & _ & _ & Hst & Hout).
  rewrite Hblink in Hblink'. injection Hblink' as <-.
  rewrite Hres in Hres'. injection Hres' as <-.
  exists d', out. split; [done|]. split; [|done].
  destruct Hok as (_ & Hr & Hsc).
  destruct Hout as [(_ & -> & -> & _)|(_ & -> & _)]; [done|].
  apply list_lookup_insert_eq. lia.
Qed.

(** X17: where the status shows.  After [set_status], the next tick with
    room draws the status character on the first line: in its first cell
    if the local page has a blank there, else in its last cell if that
    one is blank; if neither is blank the status is not drawn, and the
    last cell gets its own character.  (The status is a character below
    255, and the cursor is not lit on that cell.) *)
Theorem set_status_draws_status d status writable first last :
  display_ok d →
  local_ d !! 0%nat = Some first →
  local_ d !! 15%nat = Some last →
  0 ≤ status < 255 →
  3 ≤ writable →
  ¬ (cursor_position_ d = (if first =? 32 then 0 else width - 1) ∧
     blink_ d ≠ 0) →
  ∃ d' out,
    exec (set_status status;; Update writable) d = Some (d', out) ∧
    remote_ d' !! Z.to_nat (if first =? 32 then 0 else width - 1) =
      Some (if (first =? 32) || (last =? 32) then status else last) ∧
    status_ d' = status + 1.
Proof.
  intros Hok Hfirst Hlast Hstatus Hw Hcursor.
  pose proof (set_status_spec d status first Hfirst) as Hset.
  rewrite uint8_id in Hset by (unfold is_uint8; lia).
  destruct d as [l r sp lw b bc cp st]. cbn in Hfirst, Hlast, Hcursor.
  unfold set_scan_position_, set_status_, set_blink_clock_ in Hset.
  cbn in Hset.
  set (slot := if first =? 32 then 0 else width - 1) in *.
  assert (slot = 0 ∨ slot = 15) as Hslot
    by (unfold slot; destruct (first =? 32); auto).
  assert (display_ok (mkDisplay l r slot lw b 0 cp (status + 1))) as Hok_s.
  { destruct Hok as (Hl & Hr & _). unfold display_ok.
    cbn [local_ remote_ scan_position_] in *.
    split; [exact Hl|]. split; [exact Hr|].
    unfold lcd_buffer_size, width, height. destruct Hslot; lia. }
  assert (advance_blink_clock (mkDisplay l r slot lw b 0 cp (status + 1)) =
          Some (tt, mkDisplay l r slot lw b 1 cp (status + 1), []))
    as Hblink by reflexivity.
  assert (resolved (mkDisplay l r slot lw b 1 cp (status + 1)) =
          Some (if (first =? 32) || (last =? 32) then status else last))
    as Hres.
  { assert (l !! Z.to_nat slot = Some (if first =? 32 then first else last))
      as Hcell.
    { unfold slot. destruct (first =? 32); [exact Hfirst | exact Hlast]. }
    pose proof (load_Some (Out:=SerialCall) local_ slot _
                  (mkDisplay l r slot lw b 1 cp (status + 1))
                  ltac:(destruct Hslot; lia) Hcell) as Hload.
    unfold resolved, resolve_character. exec_unfold.
    cbn [scan_position_ cursor_position_ blink_ status_].
    assert ((slot =? cp) && nonzero b = false) as ->.
    { apply andb_false_iff. unfold nonzero.
      destruct (Z.eqb_spec slot cp) as [Heq|]; [|by left].
      right. destruct (Z.eqb_spec b 0); [done|].
      exfalso. apply Hcursor. done. }
    cbv beta iota. cbn [scan_position_ cursor_position_ blink_ status_].
    assert (nonzero (status + 1) && ((slot =? 0) || (slot =? width - 1))
            = true) as ->.
    { unfold nonzero. destruct (Z.eqb_spec (status + 1) 0); [lia|].
      destruct Hslot as [-> | ->]; reflexivity. }
    cbv beta iota. rewrite Hload. cbv beta iota.
    replace (uint8 (status + 1 - 1)) with status
      by (rewrite uint8_id; [lia | unfold is_uint8; lia]).
    destruct (Z.eqb_spec first 32) as [->|Hne]; cbn [orb].
    - reflexivity.
    - destruct (Z.eqb_spec last 32); cbv beta iota; [reflexivity|].
      by rewrite Hload. }
  destruct (Update_remote_cell _ writable _ _ Hok_s Hw Hblink Hres)
    as (d' & out & Hrun & Hcell & _ & Hst & _).
  exists d', out. split; [|done].
  apply exec_unit in Hrun. apply exec_unit.
  rewrite (bind_Some _ _ _ _ _ _ Hset). by rewrite Hrun.
Qed.

Lemma set_status_draws_status_witness :
  display_ok (mkDisplay hello_page hello_page 9 8 0 77 255 0) ∧
  hello_page !! 0%nat = Some 72 ∧
  hello_page !! 15%nat = Some 32 ∧
  0 ≤ 42 < 255 ∧ 3 ≤ 3 ∧
  ¬ (255 = (if 72 =? 32 then 0 else width - 1) ∧ 0 ≠ 0) ∧
  ∃ d' out,
    exec (set_status 42;; Update 3)
      (mkDisplay hello_page hello_page 9 8 0 77 255 0) = Some (d', out) ∧
    remote_ d' !! Z.to_nat (if 72 =? 32 then 0 else width - 1) =
      Some (if (72 =? 32) || (32 =? 32) then 42 else 32) ∧
    status_ d' = 42 + 1.
Proof.
  assert (display_ok (mkDisplay hello_page hello_page 9 8 0 77 255 0)) as Hok
    by (unfold display_ok, lcd_buffer_size, width, height; cbn;
        repeat split; (reflexivity || lia)).
  assert (¬ (255 = (if 72 =? 32 then 0 else width - 1) ∧ 0 ≠ 0)) as Hcur
    by (intros [_ H]; by apply H).
  split; [exact Hok|]. split; [reflexivity|]. split; [reflexivity|].
  split; [lia|]. split; [lia|]. split; [exact Hcur|].
  exact (set_status_draws_status
           (mkDisplay hello_page hello_page 9 8 0 77 255 0) 42 3 72 32
           Hok eq_refl eq_refl ltac:(lia) ltac:(lia) Hcur).
Defined.

(** X18: how long the status lasts.  After [set_status], the status
    stays pending through the next 127 ticks that find room, and the
    128th clears it. *)
Theorem status_lasts_127_ticks d status writables :
  display_ok d →
  0 ≤ status < 255 →
  Forall (λ writable, 3 ≤ writable) writables →
  (length writables ≤ 128)%nat →
  ∃ d' out,
    exec (set_status status;; Updates writables) d = Some (d', out) ∧
    status_ d' = if decide (length writables = 128%nat) then 0
                 else status + 1.
Proof.
  intros Hok Hstatus Hws Hlen.
  destruct (lookup_lt_is_Some_2 (local_ d) 0%nat) as [first Hfirst].
  { destruct Hok as (Hl & _). rewrite Hl.
    unfold lcd_buffer_size, width, height. lia. }
  pose proof (set_status_spec d status first Hfirst) as Hset.
  rewrite uint8_id in Hset by (unfold is_uint8; lia).
  set (ds := set_scan_position_ (if first =? 32 then 0 else width - 1)
               (set_status_ (status + 1) (set_blink_clock_ 0 d))) in *.
  assert (display_ok ds ∧ blink_clock_ ds = 0 ∧ status_ ds = status + 1)
    as (Hok_s & Hbc_s & Hst_s).
  { destruct Hok as (Hl & Hr & _). destruct d. unfold ds, display_ok.
    cbn in *. unfold lcd_buffer_size, width, height.
    destruct (first =? 32); repeat split; (done || lia). }
  assert (∀ d' out,
            exec (Updates writables) ds = Some (d', out) →
            exec (set_status status;; Updates writables) d = Some (d', out))
    as Hcompose.
  { intros d' out Hrun. apply exec_unit in Hrun. apply exec_unit.
    rewrite (bind_Some _ _ _ _ _ _ Hset). by rewrite Hrun. }
  case_decide as Hfull.
  - set (n := 127%nat).
    assert (writables = take n writables ++ drop n writables) as Hsplit
      by (by rewrite take_drop).
    destruct (drop n writables) as [|writable rest] eqn:Hdrop.
    { apply (f_equal length) in Hdrop. rewrite length_drop in Hdrop.
      cbn in Hdrop. lia. }
    assert (rest = []) as ->.
    { apply (f_equal length) in Hdrop. rewrite length_drop in Hdrop.
      cbn [length] in Hdrop. destruct rest; [done|]. cbn in Hdrop. lia. }
    rewrite Hsplit in Hws. apply Forall_app in Hws as [Hws1 Hws2].
    apply Forall_cons in Hws2 as [Hw _].
    assert (length (take n writables) = n) as Hlen1
      by (rewrite length_take; lia).
    destruct (Updates_clock_no_wrap (take n writables) ds Hok_s Hws1
                ltac:(lia) ltac:(lia))
      as (d1 & out1 & Hrun1 & Hok1 & _ & _ & Hbc1 & _ & _).
    destruct (Update_clock d1 writable Hok1 Hw ltac:(lia))
      as (d2 & out2 & Hrun2 & _ & _ & _ & Hclock).
    assert (blink_clock_ d1 = 127) as H127 by lia.
    rewrite H127 in Hclock. change (127 =? 127) with true in Hclock.
    destruct Hclock as (_ & _ & Hst2).
    exists d2, (out1 ++ out2 ++ []). split; [|done].
    apply Hcompose.
    rewrite Hsplit, exec_Updates_app, Hrun1, exec_Updates_cons, Hrun2.
    reflexivity.
  - destruct (Updates_clock_no_wrap writables ds Hok_s Hws
                ltac:(lia) ltac:(lia))
      as (d1 & out1 & Hrun1 & _ & _ & _ & _ & _ & Hst1).
    exists d1, out1. split; [by apply Hcompose | congruence].
Qed.

Lemma status_lasts_127_ticks_witness :
  display_ok (mkDisplay hello_page hello_page 9 8 0 77 255 0) ∧
  0 ≤ 42 < 255 ∧
  Forall (λ writable, 3 ≤ writable) (replicate 128 3) ∧
  (length (replicate 128 3) ≤ 128)%nat ∧
  ∃ d' out,
    exec (set_status 42;; Updates (replicate 128 3))
      (mkDisplay hello_page hello_page 9 8 0 77 255 0) = Some (d', out) ∧
    status_ d' = if decide (length (replicate 128 3) = 128%nat) then 0
                 else 42 + 1.
Proof.
  assert (display_ok (mkDisplay hello_page hello_page 9 8 0 77 255 0)) as Hok
    by (unfold display_ok, lcd_buffer_size, width, height; cbn;
        repeat split; (reflexivity || lia)).
  assert (Forall (λ writable, 3 ≤ writable) (replicate 128 3)) as Hws
    by (apply Forall_replicate; lia).
  assert (length (replicate 128 3) ≤ 128)%nat as Hlen
    by (rewrite length_replicate; lia).
  split; [exact Hok|]. split; [lia|]. split; [exact Hws|].
  split; [exact Hlen|].
  exact (status_lasts_127_ticks
           (mkDisplay hello_page hello_page 9 8 0 77 255 0) 42
           (replicate 128 3) Hok ltac:(lia) Hws Hlen).
Defined.

(** *** The set-up functions *)

Lemma WriteCommand_spec command argument d :
  WriteCommand command argument d =
    Some (tt, d,
          (if command =? 0 then [] else [Write command]) ++ [Write argument]).
Proof.
  unfold WriteCommand, nonzero. exec_unfold.
  by destruct (command =? 0).
Qed.

(** A loop whose body only writes. *)
Lemma for_each_writes indices body (f : Z → list SerialWrite) :
  (∀ i, i ∈ indices → ∀ d, body i d = Some (tt, d, f i)) →
  ∀ d, for_each indices body d = Some (tt, d, concat (f <$> indices)).
Proof.
  induction indices as [|i indices IH]; intros Hbody d; [done|].
  cbn [for_each fmap list_fmap concat].
  rewrite (bind_Some _ _ _ _ _ _ (Hbody i ltac:(left) d)).
  rewrite IH; [done|]. intros j Hj. apply Hbody. by right.
Qed.

(** The bytes that define the glyph number [i]. *)
Lemma glyph_writes Lookup i d :
  (WriteCommand 0xfe (uint8 (0x40 + i * 8));;
   for_each (seqZ 0 8) (λ j,
     WriteCommand 0 (uint8 (Z.lor 0x20 (Lookup (uint8 (i * 8 + j))))));;
   WriteCommand 0xfe 0x01) d =
  Some (tt, d,
        [Write 0xfe; Write (uint8 (0x40 + i * 8))] ++
        ((λ j, Write (uint8 (Z.lor 0x20 (Lookup (uint8 (i * 8 + j))))))
           <$> seqZ 0 8) ++
        [Write 0xfe; Write 0x01]).
Proof.
  rewrite (bind_Some _ _ _ _ _ _ (WriteCommand_spec _ _ d)).
  match goal with
  | |- context [for_each ?indices ?body] =>
      rewrite (bind_Some _ _ _ _ _ _
                 (for_each_writes indices body
                    (λ j, [Write (uint8 (Z.lor 0x20
                                           (Lookup (uint8 (i * 8 + j)))))])
                    (λ j _ d, WriteCommand_spec 0 _ d) d))
  end.
  rewrite WriteCommand_spec. reflexivity.
Qed.

Lemma glyph_row_range v :
  0 ≤ v < 0x20 → 0x20 ≤ uint8 (Z.lor 0x20 v) < 0x40.
Proof.
  intros Hv.
  pose proof (uint8_forallb
    (λ v, (0x20 <=? v) ||
          ((0x20 <=? uint8 (Z.lor 0x20 v)) && (uint8 (Z.lor 0x20 v) <? 0x40)))
    eq_refl v ltac:(unfold is_uint8; lia)) as H.
  apply orb_true_iff in H as [H|H]; [lia|].
  apply andb_true_iff in H as [H1 H2]. lia.
Qed.

(** X19: uploading custom glyphs.  [SetCustomCharMap] always returns and
    leaves the members of the display alone; for [n] glyphs it writes
    exactly [2 + 12 * n] bytes, starting with the command 0xFE 0x01.
    When the table holds glyph rows of five bits (values below 0x20) and
    there are at most eight glyphs, no byte written is 0x7C, the prefix
    of the backpack configuration commands, and every byte other than
    the command prefix 0xFE is below 0x80. *)
Theorem SetCustomCharMap_writes Lookup num_characters d :
  0 ≤ num_characters →
  ∃ rest,
    exec (SetCustomCharMap Lookup num_characters) d =
      Some (d, Write 0xfe :: Write 0x01 :: rest) ∧
    Z.of_nat (length rest) = 12 * num_characters ∧
    (num_characters ≤ 8 →
     (∀ index, 0 ≤ Lookup index < 0x20) →
     Forall (λ call, ∃ byte, call = Write byte ∧ byte ≠ 0x7c ∧
                             (byte = 0xfe ∨ 0 ≤ byte < 0x80)) rest).
Proof.
  intros Hn.
  set (glyph := λ i,
         [Write 0xfe; Write (uint8 (0x40 + i * 8))] ++
         ((λ j, Write (uint8 (Z.lor 0x20 (Lookup (uint8 (i * 8 + j))))))
            <$> seqZ 0 8) ++
         [Write 0xfe; Write 0x01]).
  exists (concat (glyph <$> seqZ 0 num_characters)). split; [|split].
  - apply exec_unit. unfold SetCustomCharMap.
    rewrite (bind_Some _ _ _ _ _ _ (WriteCommand_spec _ _ d)).
    match goal with
    | |- context [for_each ?indices ?body d] =>
        rewrite (for_each_writes indices body glyph
                   (λ i _ d, glyph_writes Lookup i d) d)
    end.
    reflexivity.
  - assert (∀ indices : list Z,
              Z.of_nat (length (concat (glyph <$> indices))) =
              12 * Z.of_nat (length indices)) as Hcount.
    { induction indices as [|i indices IH]; [done|].
      cbn [fmap list_fmap concat]. rewrite length_app, Nat2Z.inj_add, IH.
      unfold glyph. rewrite !length_app, length_fmap, length_seqZ.
      cbn [length]. lia. }
    rewrite Hcount, length_seqZ. lia.
  - intros Hmax Hrows.
    apply Forall_concat, Forall_fmap, Forall_forall.
    intros i Hi. apply elem_of_seqZ in Hi. unfold compose, glyph.
    assert (uint8 (0x40 + i * 8) = 0x40 + i * 8) as ->
      by (apply uint8_id; unfold is_uint8; lia).
    apply Forall_app. split; [|apply Forall_app; split].
    + repeat constructor; eexists; (split; [reflexivity|]); lia.
    + apply Forall_fmap, Forall_forall. intros j _. unfold compose.
      pose proof (glyph_row_range (Lookup (uint8 (i * 8 + j)))
                    (Hrows _)).
      eexists. split; [reflexivity|]. lia.
    + repeat constructor; eexists; (split; [reflexivity|]); lia.
Qed.

Lemma SetCustomCharMap_writes_witness :
  0 ≤ 2 ∧
  ∃ rest,
    exec (SetCustomCharMap (λ index, Z.land index 0x1f) 2)
      zero_initialized =
      Some (zero_initialized, Write 0xfe :: Write 0x01 :: rest) ∧
    Z.of_nat (length rest) = 12 * 2 ∧
    (2 ≤ 8 →
     (∀ index, 0 ≤ (λ index, Z.land index 0x1f) index < 0x20) →
     Forall (λ call, ∃ byte, call = Write byte ∧ byte ≠ 0x7c ∧
                             (byte = 0xfe ∨ 0 ≤ byte < 0x80)) rest).
Proof.
  split; [lia|].
  exact (SetCustomCharMap_writes (λ index, Z.land index 0x1f) 2
           zero_initialized ltac:(lia)).
Defined.

(** *** The cursor *)

(** With the blink phase off, the cursor position plays no part in the
    character resolved. *)
Lemma resolved_cursor_off d :
  blink_ d = 0 →
  resolved d = resolved (set_cursor_position_ kLcdNoCursor d).
Proof.
  intros Hb. destruct d as [l r sp lw b bc cp st]. cbn in Hb. subst b.
  unfold resolved, resolve_character. exec_unfold. unfold load.
  display_simpl. change (nonzero 0) with false. rewrite !andb_false_r.
  cbv beta iota.
  repeat (exec_case; cbv beta iota; try reflexivity);
    destruct (l !! Z.to_nat sp); cbv beta iota; try reflexivity;
    repeat (exec_case; cbv beta iota; try reflexivity);
    destruct (l !! Z.to_nat sp); reflexivity.
Qed.

(** X20: the cursor cell.  When the scan position is the cursor
    position, a tick with room always transmits that cell, whatever the
    remote page holds: the cursor glyph 0xFF while the blink phase (after
    this tick's advance of the blink clock) is on, and otherwise the
    character the cell would show without a cursor.  The character sent
    is the last byte of the tick, and the remote page holds it
    afterwards. *)
Theorem cursor_cell_is_always_drawn d writable d1 :
  display_ok d →
  3 ≤ writable →
  scan_position_ d = cursor_position_ d →
  advance_blink_clock d = Some (tt, d1, []) →
  ∃ d' out character,
    exec (Update writable) d = Some (d', out) ∧
    last out = Some (Overwrite character) ∧
    remote_ d' !! Z.to_nat (cursor_position_ d) = Some character ∧
    (blink_ d1 ≠ 0 → character = kLcdCursor) ∧
    (blink_ d1 = 0 →
     resolved (set_cursor_position_ kLcdNoCursor d1) = Some character).
Proof.
  intros Hok Hw Hcur Hblink.
  destruct (Update_with_room d writable Hok Hw)
    as (d1' & c & r & d' & out & Hblink' & Hres & Hrem & Hrun & _ & _ & _
        & _ & _ & _ & _ & Hout).
  rewrite Hblink in Hblink'. injection Hblink' as <-.
  destruct (advance_blink_clock_frame _ _ _ Hblink)
    as (_ & _ & _ & Hs1 & _ & Hc1 & _).
  destruct Hout as [(_ & _ & _ & _ & Hne)|(Hout & Hremote & _)]; [done|].
  exists d', out, c. split; [done|]. split; [by destruct Hout as [-> | ->]|].
  split.
  { rewrite Hremote, <- Hcur. apply list_lookup_insert_eq.
    destruct Hok as (_ & Hr & Hs). lia. }
  split.
  - intros Hlit. revert Hres. unfold resolved, resolve_character.
    exec_unfold. rewrite Hs1, Hc1, Hcur, Z.eqb_refl. unfold nonzero.
    destruct (Z.eqb_spec (blink_ d1) 0); [done|]. cbn. congruence.
  - intros Hoff. by rewrite <- resolved_cursor_off.
Qed.

Lemma cursor_cell_is_always_drawn_witness :
  display_ok (mkDisplay hello_page hello_page 3 2 255 5 3 0) ∧
  3 ≤ 3 ∧
  scan_position_ (mkDisplay hello_page hello_page 3 2 255 5 3 0) =
    cursor_position_ (mkDisplay hello_page hello_page 3 2 255 5 3 0) ∧
  advance_blink_clock (mkDisplay hello_page hello_page 3 2 255 5 3 0) =
    Some (tt, mkDisplay hello_page hello_page 3 2 255 6 3 0, []) ∧
  ∃ d' out character,
    exec (Update 3) (mkDisplay hello_page hello_page 3 2 255 5 3 0) =
      Some (d', out) ∧
    last out = Some (Overwrite character) ∧
    remote_ d' !! Z.to_nat
      (cursor_position_ (mkDisplay hello_page hello_page 3 2 255 5 3 0)) =
      Some character ∧
    (blink_ (mkDisplay hello_page hello_page 3 2 255 6 3 0) ≠ 0 →
     character = kLcdCursor) ∧
    (blink_ (mkDisplay hello_page hello_page 3 2 255 6 3 0) = 0 →
     resolved (set_cursor_position_ kLcdNoCursor
                 (mkDisplay hello_page hello_page 3 2 255 6 3 0)) =
       Some character).
Proof.
  assert (display_ok (mkDisplay hello_page hello_page 3 2 255 5 3 0)) as Hok
    by (unfold display_ok, lcd_buffer_size, width, height; cbn;
        repeat split; (reflexivity || lia)).
  split; [exact Hok|]. split; [lia|]. split; [reflexivity|].
  split; [reflexivity|].
  exact (cursor_cell_is_always_drawn
           (mkDisplay hello_page hello_page 3 2 255 5 3 0) 3
           (mkDisplay hello_page hello_page 3 2 255 6 3 0)
           Hok ltac:(lia) eq_refl eq_refl).
Defined.

(** *** The cost of a full redraw *)

(** One tick with room on a cell whose remote character is out of date,
    with no status and no cursor. *)
Lemma Update_stale d writable :
  display_ok d → status_ d = 0 →
  ¬ (0 ≤ cursor_position_ d < lcd_buffer_size) →
  3 ≤ writable →
  remote_ d !! Z.to_nat (scan_position_ d)
    ≠ local_ d !! Z.to_nat (scan_position_ d) →
  ∃ d' out,
    exec (Update writable) d = Some (d', out) ∧
    length out =
      (if (scan_position_ d =? scan_position_last_write_ d + 1)
          && negb (scan_position_ d mod width =? 0)
       then 1%nat else 3%nat) ∧
    display_ok d' ∧ status_ d' = 0 ∧
    cursor_position_ d' = cursor_position_ d ∧
    local_ d' = local_ d ∧
    scan_position_ d' = (scan_position_ d + 1) mod lcd_buffer_size ∧
    scan_position_last_write_ d' = scan_position_ d ∧
    ∀ k, k ≠ Z.to_nat (scan_position_ d) → remote_ d' !! k = remote_ d !! k.
Proof.
  intros (Hl & Hr & Hs) Hst Hcur Hw Hstale.
  destruct (advance_blink_clock_total d) as [d1 Hblink].
  destruct (advance_blink_clock_frame _ _ _ Hblink)
    as (_ & Hl1 & Hr1 & Hs1 & Hlw1 & Hc1 & Hst1).
  assert (status_ d1 = 0) as Hst0 by (destruct Hst1; congruence).
  destruct (lookup_lt_is_Some_2 (local_ d) (Z.to_nat (scan_position_ d)))
    as [c Hc]; [lia|].
  destruct (lookup_lt_is_Some_2 (remote_ d) (Z.to_nat (scan_position_ d)))
    as [r Hrem]; [lia|].
  assert (c ≠ r) as Hcr by congruence.
  assert (resolved d1 = Some c) as Hres.
  { pose proof (load_Some (Out:=SerialCall) local_ (scan_position_ d1) c d1)
      as Hload.
    rewrite Hs1, Hl1 in Hload. specialize (Hload ltac:(lia) Hc).
    unfold resolved, resolve_character. exec_unfold.
    rewrite Hs1, Hc1.
    destruct (Z.eqb_spec (scan_position_ d) (cursor_position_ d)); [lia|].
    cbn [andb]. cbv beta iota. rewrite Hst0.
    change (nonzero 0) with false. cbn [andb]. cbv beta iota.
    by rewrite Hload. }
  rewrite (Update_step d writable d1 c Hw Hblink Hres).
  rewrite (transmit_spec d1 c r) by (rewrite ?Hr1, ?Hs1; (lia || done)).
  rewrite Hs1, Hc1, Hr1, Hlw1, land_width.
  assert (uint8 (Z.land (scan_position_ d + 1) lcd_buffer_size_wrap) =
          (scan_position_ d + 1) mod lcd_buffer_size) as Hnext.
  { change lcd_buffer_size_wrap with (Z.ones 5).
    rewrite Z.land_ones by lia.
    pose proof (Z.mod_pos_bound (scan_position_ d + 1) (2 ^ 5) ltac:(lia)).
    rewrite uint8_id by (unfold is_uint8; lia). reflexivity. }
  pose proof (Z.mod_pos_bound (scan_position_ d + 1) lcd_buffer_size
                ltac:(done)) as Hrange.
  destruct (Z.eqb_spec c r) as [|_]; [done|]. cbn [negb orb].
  unfold nonzero.
  eexists _, _. split; [reflexivity|].
  destruct d1; cbn in *; subst. rewrite Hnext.
  split.
  { by destruct ((_ =? _) && negb (_ =? 0)). }
  split.
  { unfold display_ok; cbn. rewrite length_insert. done. }
  do 5 (split; [done|]).
  intros k Hk. by apply list_lookup_insert_ne.
Qed.

(** Ticks with room over cells that are all out of date, each cell right
    after the one written last. *)
Lemma Updates_stale_cost writables : ∀ d,
  display_ok d → status_ d = 0 →
  ¬ (0 ≤ cursor_position_ d < lcd_buffer_size) →
  Forall (λ writable, 3 ≤ writable) writables →
  (length writables ≤ 32)%nat →
  scan_position_last_write_ d = (scan_position_ d - 1) mod lcd_buffer_size →
  (∀ i, 0 ≤ i < lcd_buffer_size →
     (i - scan_position_ d) mod lcd_buffer_size
       < Z.of_nat (length writables) →
     remote_ d !! Z.to_nat i ≠ local_ d !! Z.to_nat i) →
  ∃ d' out,
    exec (Updates writables) d = Some (d', out) ∧
    length out = pass_cost (scan_position_ d) (length writables).
Proof.
  induction writables as [|writable writables IH];
    intros d Hok Hst Hcur Hws Hlen Hlast Hstale.
  { by exists d, []. }
  apply Forall_cons in Hws as [Hw Hws]. cbn [length] in Hlen, Hstale.
  pose proof Hok as (_ & _ & Hs).
  unfold lcd_buffer_size, width, height in Hs, Hlast, Hstale.
  change (16 * 2) with 32 in *.
  destruct (Update_stale d writable Hok Hst Hcur Hw)
    as (d1 & out1 & Hstep & Hcost & Hok1 & Hst1 & Hc1 & Hl1 & Hs1 & Hlw1
        & Hr1).
  { apply (Hstale (scan_position_ d)); [lia|].
    rewrite Z.sub_diag. change (0 mod 32) with 0. lia. }
  unfold lcd_buffer_size, width, height in Hs1.
  change (16 * 2) with 32 in *.
  destruct (IH d1 Hok1 Hst1 ltac:(by rewrite Hc1) Hws ltac:(lia))
    as (d2 & out2 & Hrest & Hcost2).
  { rewrite Hlw1, Hs1. unfold lcd_buffer_size, width, height.
    change (16 * 2) with 32.
    rewrite Zminus_mod_idemp_l.
    replace (scan_position_ d + 1 - 1) with (scan_position_ d) by lia.
    by rewrite Z.mod_small by lia. }
  { unfold lcd_buffer_size, width, height. change (16 * 2) with 32.
    intros i Hi Hnear. rewrite Hl1, Hs1 in *.
    rewrite Zminus_mod_idemp_r in Hnear.
    pose proof (Z.mod_pos_bound (i - scan_position_ d) 32 ltac:(lia)).
    assert (i ≠ scan_position_ d) as Hi'.
    { intros ->.
      replace (scan_position_ d - (scan_position_ d + 1)) with (-1)
        in Hnear by lia.
      change (-1 mod 32) with 31 in Hnear. lia. }
    rewrite Hr1 by lia. apply Hstale; [lia|].
    replace (i - (scan_position_ d + 1)) with (i - scan_position_ d - 1)
      in Hnear by lia.
    rewrite <- Zminus_mod_idemp_l in Hnear.
    assert ((i - scan_position_ d) mod 32 ≠ 0) as Hnz.
    { intros H0. apply Z.mod_divide in H0 as [k Hk]; lia. }
    rewrite (Z.mod_small ((i - scan_position_ d) mod 32 - 1)) in Hnear
      by lia.
    lia. }
  exists d2, (out1 ++ out2). rewrite exec_Updates_cons, Hstep, Hrest.
  split; [done|].
  rewrite length_app, Hcost, Hcost2, Hs1. cbn [length pass_cost].
  f_equal. unfold tick_cost.
  rewrite Hlast. unfold lcd_buffer_size, width, height.
  change (16 * 2) with 32.
  destruct (Z.eqb_spec (scan_position_ d mod 16) 0) as [Hrow|Hrow].
  - by rewrite andb_false_r.
  - assert (scan_position_ d ≠ 0) by (intros H0; by rewrite H0 in Hrow).
    rewrite Z.mod_small by lia.
    replace (scan_position_ d - 1 + 1) with (scan_position_ d) by lia.
    by rewrite Z.eqb_refl.
Qed.

Lemma full_pass_cost scan_position :
  0 ≤ scan_position < lcd_buffer_size →
  (tick_cost scan_position
   + pass_cost ((scan_position + 1) mod lcd_buffer_size) 31)%nat = 36%nat.
Proof.
  intros Hs.
  pose proof (cells_forallb
    (λ s, Nat.eqb (tick_cost s
                   + pass_cost ((s + 1) mod lcd_buffer_size) 31) 36)
    eq_refl scan_position Hs) as H.
  by apply Nat.eqb_eq in H.
Qed.

(** X21: the cost of a full redraw.  When every cell of the remote page
    is out of date (as after [Init]), with no status and no cursor, a
    full pass of ticks that all find room writes between 36 and 38
    bytes: the 32 characters, a two-byte cursor move at the start of each
    of the two rows, and one more cursor move for the first cell of the
    pass when it is inside a row and does not follow the cell written
    last. *)
Theorem full_redraw_cost d writables :
  display_ok d →
  status_ d = 0 →
  ¬ (0 ≤ cursor_position_ d < lcd_buffer_size) →
  Forall (λ writable, 3 ≤ writable) writables →
  length writables = 32%nat →
  (∀ i : nat, (i < 32)%nat → remote_ d !! i ≠ local_ d !! i) →
  ∃ d' out,
    exec (Updates writables) d = Some (d', out) ∧
    (36 ≤ length out ≤ 38)%nat.
Proof.
  intros Hok Hst Hcur Hws Hlen Hstale.
  destruct writables as [|writable writables]; [discriminate Hlen|].
  apply Forall_cons in Hws as [Hw Hws]. cbn [length] in Hlen.
  pose proof Hok as (_ & _ & Hs).
  destruct (Update_stale d writable Hok Hst Hcur Hw)
    as (d1 & out1 & Hstep & Hcost & Hok1 & Hst1 & Hc1 & Hl1 & Hs1 & Hlw1
        & Hr1).
  { apply Hstale. unfold lcd_buffer_size, width, height in Hs. lia. }
  destruct (Updates_stale_cost writables d1 Hok1 Hst1 ltac:(by rewrite Hc1)
              Hws ltac:(lia))
    as (d2 & out2 & Hrest & Hcost2).
  { rewrite Hlw1, Hs1. unfold lcd_buffer_size, width, height in *.
    change (16 * 2) with 32 in *.
    rewrite Zminus_mod_idemp_l.
    replace (scan_position_ d + 1 - 1) with (scan_position_ d) by lia.
    by rewrite Z.mod_small by lia. }
  { intros i Hi Hnear. rewrite Hl1.
    unfold lcd_buffer_size, width, height in *. change (16 * 2) with 32 in *.
    assert (i ≠ scan_position_ d) as Hi'.
    { intros ->. rewrite Hs1 in Hnear.
      rewrite Zminus_mod_idemp_r in Hnear.
      replace (scan_position_ d - (scan_position_ d + 1)) with (-1)
        in Hnear by lia.
      change (-1 mod 32) with 31 in Hnear. lia. }
    rewrite Hr1 by lia. apply Hstale. lia. }
  exists d2, (out1 ++ out2). rewrite exec_Updates_cons, Hstep, Hrest.
  split; [done|].
  rewrite length_app, Hcost, Hcost2, Hs1.
  replace (length writables) with 31%nat by lia.
  pose proof (full_pass_cost (scan_position_ d) Hs) as Hfull.
  unfold tick_cost in Hfull.
  destruct (Z.eqb_spec (scan_position_ d mod width) 0) as [Hrow|Hrow].
  - rewrite andb_false_r. lia.
  - cbn [negb]. rewrite andb_true_r.
    destruct (_ =? _); lia.
Qed.

Lemma full_redraw_cost_witness :
  display_ok (mkDisplay hello_page (replicate 32 63) 5 255 0 0 255 0) ∧
  status_ (mkDisplay hello_page (replicate 32 63) 5 255 0 0 255 0) = 0 ∧
  ¬ (0 ≤ cursor_position_
           (mkDisplay hello_page (replicate 32 63) 5 255 0 0 255 0)
       < lcd_buffer_size) ∧
  Forall (λ writable, 3 ≤ writable) (replicate 32 3) ∧
  length (replicate 32 3) = 32%nat ∧
  (∀ i : nat, (i < 32)%nat →
     remote_ (mkDisplay hello_page (replicate 32 63) 5 255 0 0 255 0) !! i
     ≠ local_ (mkDisplay hello_page (replicate 32 63) 5 255 0 0 255 0) !! i) ∧
  ∃ d' out,
    exec (Updates (replicate 32 3))
      (mkDisplay hello_page (replicate 32 63) 5 255 0 0 255 0) =
      Some (d', out) ∧
    (36 ≤ length out ≤ 38)%nat.
Proof.
  assert (display_ok
            (mkDisplay hello_page (replicate 32 63) 5 255 0 0 255 0)) as Hok
    by (unfold display_ok, lcd_buffer_size, width, height; cbn;
        repeat split; (reflexivity || lia)).
  assert (¬ (0 ≤ cursor_position_
                   (mkDisplay hello_page (replicate 32 63) 5 255 0 0 255 0)
               < lcd_buffer_size)) as Hcur
    by (unfold lcd_buffer_size, width, height; cbn; lia).
  assert (Forall (λ writable, 3 ≤ writable) (replicate 32 3)) as Hws
    by (apply Forall_replicate; lia).
  assert (∀ i : nat, (i < 32)%nat →
            remote_ (mkDisplay hello_page (replicate 32 63) 5 255 0 0 255 0)
              !! i
            ≠ local_ (mkDisplay hello_page (replicate 32 63) 5 255 0 0 255 0)
                !! i) as Hstale.
  { intros i Hi. cbn [remote_ local_].
    do 32 (destruct i as [|i]; [discriminate|]). lia. }
  split; [exact Hok|]. split; [reflexivity|]. split; [exact Hcur|].
  split; [exact Hws|]. split; [reflexivity|]. split; [exact Hstale|].
  exact (full_redraw_cost
           (mkDisplay hello_page (replicate 32 63) 5 255 0 0 255 0)
           (replicate 32 3) Hok eq_refl Hcur Hws eq_refl Hstale).
Defined.

End LcdProperties.
